(** * mcp-setup-tools: the project fingerprinter and the template renderer

    A shallow embedding of [setup-mcp.js].  The script inspects the working
    directory, builds a project profile ([analyzeProject]) and writes a few
    templated documents.  The Node.js runtime it runs on is modelled by

    - [json]: the values [JSON.parse] produces and [JSON.stringify] consumes,
      with the property reads, writes and spreads the script performs on them;
    - [world]: a filesystem tree with the working directory, the platform
      settings and a clock, read and written through [existsSync],
      [statSync], [readdirSync], [readFileSync], [writeFileSync], [mkdirSync];
    - [result]: a computation either returns ([Ok]) or throws ([Throw]);
    - [Runtime]: the built-ins whose algorithms are not part of the script
      ([JSON.parse], [JSON.stringify], [execSync], [Date.prototype.toISOString]). *)

From Stdlib Require Import String Ascii List Bool ZArith Lia.
Import ListNotations.

Set Warnings "-register-all".

Open Scope list_scope.
Open Scope string_scope.

(** ** Exceptions and the result monad *)

Inductive exn : Type :=
| ENOENT          (* no such file or directory *)
| EACCES          (* permission denied *)
| EISDIR          (* a directory where a file is required *)
| ENOTDIR         (* a file where a directory is required *)
| EEXIST          (* mkdir over an existing entry *)
| SyntaxError     (* JSON.parse on a text that is not JSON *)
| TypeError       (* property access on null or undefined *)
| ExecError       (* execSync: the child process failed *)
| InstallError (cause : exn).
                  (* new Error(`Failed to install MCP Memory Server: ...`) *)

Inductive result (A : Type) : Type :=
| Ok (a : A)
| Throw (e : exn).

Arguments Ok {A} a.
Arguments Throw {A} e.

Definition bind {A B : Type} (r : result A) (k : A -> result B) : result B :=
  match r with
  | Ok a => k a
  | Throw e => Throw e
  end.

(** [try { r } catch (e) { h e }] *)
Definition try_catch {A : Type} (r : result A) (h : exn -> result A) : result A :=
  match r with
  | Ok a => Ok a
  | Throw e => h e
  end.

Notation "x <- r ;; k" := (bind r (fun x => k))
  (at level 61, r at next level, right associativity).

Definition is_ok {A : Type} (r : result A) : bool :=
  match r with Ok _ => true | Throw _ => false end.

(** ** JSON values

    A number is carried by its canonical decimal rendering (what
    [Number.prototype.toString] returns, ["0"] for both zeros): the script
    only tests numbers for truthiness and interpolates them into strings.
    The members of an object are listed in property order; a later binding of
    a key shadows an earlier one, as in [JSON.parse]. *)

Inductive json : Type :=
| JNull
| JBool (b : bool)
| JNumber (repr : string)
| JString (s : string)
| JArray (items : list json)
| JObject (members : list (string * json)).

Definition members := list (string * json).

(** ToBoolean on a JSON value *)
Definition truthy (v : json) : bool :=
  match v with
  | JNull => false
  | JBool b => b
  | JNumber r => negb (r =? "0")
  | JString s => negb (s =? "")
  | JArray _ => true
  | JObject _ => true
  end.

(** ToBoolean on the result of a property read ([None] is [undefined]) *)
Definition truthy_opt (v : option json) : bool :=
  match v with
  | Some x => truthy x
  | None => false
  end.

(** [o[k]] on a member list: the last binding of [k] *)
Fixpoint obj_get (k : string) (o : members) : option json :=
  match o with
  | [] => None
  | (k', v) :: o' =>
      match obj_get k o' with
      | Some x => Some x
      | None => if k' =? k then Some v else None
      end
  end.

Definition has_key (k : string) (o : members) : bool :=
  existsb (fun kv => fst kv =? k) o.

(** [o[k] = v]: an existing key keeps its place, a new one goes last *)
Definition obj_set (k : string) (v : json) (o : members) : members :=
  if has_key k o
  then map (fun kv => if fst kv =? k then (k, v) else kv) o
  else (o ++ [(k, v)])%list.

(** [Array.prototype.join] *)
Fixpoint join (sep : string) (l : list string) : string :=
  match l with
  | [] => ""
  | [x] => x
  | x :: l' => x ++ sep ++ join sep l'
  end.

(** ToString, as applied by a template literal.  An object is converted by
    its [toString] method and then by [valueOf]: a value read by [JSON.parse]
    inherits both from [Object.prototype] unless it has a member of that
    name, which is never callable.  With an own [toString] member the
    conversion falls to [valueOf], which is not callable either or returns
    the object itself, and a TypeError is thrown.  An array is joined, its
    items converted in order, [null] to the empty string. *)
Fixpoint ToString (v : json) : result string :=
  match v with
  | JNull => Ok "null"
  | JBool true => Ok "true"
  | JBool false => Ok "false"
  | JNumber r => Ok r
  | JString s => Ok s
  | JArray items =>
      texts <- (fix each (l : list json) : result (list string) :=
                  match l with
                  | [] => Ok []
                  | x :: l' =>
                      t <- match x with JNull => Ok "" | _ => ToString x end ;;
                      rest <- each l' ;;
                      Ok (t :: rest)
                  end) items ;;
      Ok (join "," texts)
  | JObject o => if has_key "toString" o then Throw TypeError else Ok "[object Object]"
  end.

(** decimal rendering of an array index *)
Definition digit (n : nat) : string :=
  String (ascii_of_nat (48 + n)) "".

Fixpoint decimal_fuel (fuel n : nat) : string :=
  match fuel with
  | O => ""
  | S f =>
      if Nat.ltb n 10 then digit n
      else decimal_fuel f (Nat.div n 10) ++ digit (Nat.modulo n 10)
  end.

Definition decimal (n : nat) : string := decimal_fuel (S n) n.

Fixpoint indexed {A : Type} (i : nat) (l : list A) : list (string * A) :=
  match l with
  | [] => []
  | x :: l' => (decimal i, x) :: indexed (S i) l'
  end.

Fixpoint chars (s : string) : list json :=
  match s with
  | EmptyString => []
  | String c s' => JString (String c "") :: chars s'
  end.

(** the own enumerable properties an object spread [{...v}] copies:
    the members of an object, the indexed items of an array, the indexed
    characters of a string, nothing for [null], a number or a boolean *)
Definition own_props (v : json) : members :=
  match v with
  | JObject o => o
  | JArray items => indexed 0 items
  | JString s => indexed 0 (chars s)
  | _ => []
  end.

(** [{...acc, ...src}]: the properties of [src] are defined on [acc] in order *)
Definition spread_into (acc : members) (src : members) : members :=
  fold_left (fun a kv => obj_set (fst kv) (snd kv) a) src acc.

(** [{...v}] on a property read: [undefined] spreads to nothing *)
Definition spread_opt (acc : members) (v : option json) : members :=
  match v with
  | Some x => spread_into acc (own_props x)
  | None => acc
  end.

(** [v.k] for the keys the script reads ([workspaces], [name], [scripts],
    [dependencies], [devDependencies]); none of them is inherited from a
    prototype, so only an object has them, and reading from [null] throws *)
Definition get_prop (v : json) (k : string) : result (option json) :=
  match v with
  | JNull => Throw TypeError
  | JObject o => Ok (obj_get k o)
  | _ => Ok None
  end.

(** ** Strings and paths *)

Definition dquote : ascii := "034"%char.
Definition dq : string := String dquote "".
Definition newline : string := String "010" "".

Fixpoint startsWith (pre s : string) : bool :=
  match pre, s with
  | EmptyString, _ => true
  | String a pre', String b s' => Ascii.eqb a b && startsWith pre' s'
  | String _ _, EmptyString => false
  end.

(** [String.prototype.includes] *)
Fixpoint includes (needle s : string) : bool :=
  startsWith needle s ||
  match s with
  | EmptyString => false
  | String _ s' => includes needle s'
  end.

(** the suffix that starts at the last dot which has a character before it *)
Fixpoint ext_scan (s : string) : option string :=
  match s with
  | EmptyString => None
  | String c s' =>
      match ext_scan s' with
      | Some e => Some e
      | None => if Ascii.eqb c "." then Some s else None
      end
  end.

(** [path.extname] on a directory entry: empty for a name without a dot, for
    a name whose only dot comes first, and for [..] *)
Definition extname (f : string) : string :=
  match f with
  | EmptyString => ""
  | String _ rest =>
      if f =? ".." then ""
      else match ext_scan rest with Some e => e | None => "" end
  end.

(** A path is a list of segments, relative to the working directory or
    absolute; [path.join] appends segments, and ['.'] is [Rel []]. *)
Definition segments := list string.

Inductive fpath : Type :=
| Rel (p : segments)
| Abs (p : segments).

(** [path.basename] of an absolute directory: empty at the root *)
Definition basename (p : segments) : string := last p "".

(** ** The filesystem *)

Inductive node : Type :=
| File (content : option string)   (* [None]: the file cannot be read *)
| Dir (listable : bool) (entries : list (string * node))
| Dangling.                        (* a symbolic link whose target is missing *)

Definition entries := list (string * node).

Fixpoint entry_get (s : string) (es : entries) : option node :=
  match es with
  | [] => None
  | (s', n) :: es' => if s' =? s then Some n else entry_get s es'
  end.

Fixpoint entry_set (s : string) (n : node) (es : entries) : entries :=
  match es with
  | [] => [(s, n)]
  | (s', n') :: es' =>
      if s' =? s then (s, n) :: es' else (s', n') :: entry_set s n es'
  end.

Fixpoint lookup (n : node) (p : segments) : option node :=
  match p with
  | [] => Some n
  | s :: p' =>
      match n with
      | Dir _ es =>
          match entry_get s es with
          | Some c => lookup c p'
          | None => None
          end
      | _ => None
      end
  end.

(** replace or create the node at [p]; [None] when an ancestor of [p] is
    missing or is not a directory *)
Fixpoint put (n : node) (p : segments) (new : node) : option node :=
  match p with
  | [] => Some new
  | s :: p' =>
      match n with
      | Dir l es =>
          match p' with
          | [] => Some (Dir l (entry_set s new es))
          | _ :: _ =>
              match entry_get s es with
              | Some c =>
                  match put c p' new with
                  | Some c' => Some (Dir l (entry_set s c' es))
                  | None => None
                  end
              | None => None
              end
          end
      | _ => None
      end
  end.

(** create the directory at [p] and its missing ancestors; [None] when a
    component of [p] exists and is not a directory *)
Fixpoint mkdirp (n : node) (p : segments) : option node :=
  match p with
  | [] => match n with Dir _ _ => Some n | _ => None end
  | s :: p' =>
      match n with
      | Dir l es =>
          let c := match entry_get s es with Some c => c | None => Dir true [] end in
          match mkdirp c p' with
          | Some c' => Some (Dir l (entry_set s c' es))
          | None => None
          end
      | _ => None
      end
  end.

(** The state the script runs in: the tree, [process.cwd()], [os.platform()],
    [os.homedir()], [process.env.APPDATA], the prefix of an absolute path
    (empty on POSIX, a drive such as [C:] on Windows), and the clock with the
    delays (in milliseconds) that will have elapsed at its successive
    readings. *)
Record world : Type := {
  root : node;
  cwd : segments;
  platform : string;
  homedir : segments;
  APPDATA : option segments;
  drive : string;
  now : Z;
  ticks : list nat
}.

Definition with_root (r : node) (w : world) : world :=
  {| root := r; cwd := cwd w; platform := platform w; homedir := homedir w;
     APPDATA := APPDATA w; drive := drive w; now := now w; ticks := ticks w |}.

Definition resolve (w : world) (p : fpath) : segments :=
  match p with
  | Rel s => (cwd w ++ s)%list
  | Abs s => s
  end.

Definition node_at (w : world) (p : fpath) : option node :=
  lookup (root w) (resolve w p).

Inductive stats : Type := IsFile | IsDirectory.

Definition isDirectory (s : stats) : bool :=
  match s with IsDirectory => true | IsFile => false end.

Definition isFile (s : stats) : bool :=
  match s with IsFile => true | IsDirectory => false end.

(** [fs.existsSync]: never throws *)
Definition existsSync (w : world) (p : fpath) : bool :=
  match node_at w p with
  | Some (File _) | Some (Dir _ _) => true
  | _ => false
  end.

Definition statSync (w : world) (p : fpath) : result stats :=
  match node_at w p with
  | Some (File _) => Ok IsFile
  | Some (Dir _ _) => Ok IsDirectory
  | _ => Throw ENOENT
  end.

Definition readdirSync (w : world) (p : fpath) : result (list string) :=
  match node_at w p with
  | Some (Dir true es) => Ok (map fst es)
  | Some (Dir false _) => Throw EACCES
  | Some (File _) => Throw ENOTDIR
  | _ => Throw ENOENT
  end.

Definition readFileSync (w : world) (p : fpath) : result string :=
  match node_at w p with
  | Some (File (Some text)) => Ok text
  | Some (File None) => Throw EACCES
  | Some (Dir _ _) => Throw EISDIR
  | _ => Throw ENOENT
  end.

(** a file lies on the way to [p]: the path names an entry of something that
    is not a directory *)
Fixpoint through_file (n : node) (p : segments) : bool :=
  match p with
  | [] => false
  | s :: p' =>
      match n with
      | File _ => true
      | Dir _ es =>
          match entry_get s es with
          | Some c => through_file c p'
          | None => false
          end
      | Dangling => false
      end
  end.

(** the error of a call whose path cannot be reached: ENOTDIR when a file
    lies on the way, [otherwise] when an entry is missing *)
Definition unreachable (w : world) (p : fpath) (otherwise : exn) : exn :=
  if through_file (root w) (resolve w p) then ENOTDIR else otherwise.

(** [fs.writeFileSync]: creates or replaces the file (write permissions are
    not part of the model) *)
Definition writeFileSync (w : world) (p : fpath) (text : string) : result world :=
  match node_at w p with
  | Some (Dir _ _) => Throw EISDIR
  | _ =>
      match put (root w) (resolve w p) (File (Some text)) with
      | Some r => Ok (with_root r w)
      | None => Throw (unreachable w p ENOENT)
      end
  end.

(** [fs.mkdirSync(p)] and [fs.mkdirSync(p, { recursive: true })] *)
Definition mkdirSync (w : world) (p : fpath) (recursive : bool) : result world :=
  if recursive then
    match mkdirp (root w) (resolve w p) with
    | Some r => Ok (with_root r w)
    | None => Throw (unreachable w p EEXIST)
    end
  else
    match node_at w p with
    | Some _ => Throw EEXIST
    | None =>
        match put (root w) (resolve w p) (Dir true []) with
        | Some r => Ok (with_root r w)
        | None => Throw (unreachable w p ENOENT)
        end
    end.

(** [new Date()]: the clock advances by the next delay; the value is the
    time in milliseconds since the epoch *)
Definition new_Date (w : world) : Z * world :=
  let t := (now w + Z.of_nat (hd O (ticks w)))%Z in
  (t, {| root := root w; cwd := cwd w; platform := platform w;
         homedir := homedir w; APPDATA := APPDATA w; drive := drive w;
         now := t; ticks := tl (ticks w) |}).

(** the text of an absolute path: [/a/b] on POSIX, [C:\a\b] on Windows *)
Definition sep (w : world) : string :=
  if platform w =? "win32" then "\" else "/".

Definition path_text (w : world) (p : segments) : string :=
  drive w ++ sep w ++ join (sep w) p.

(** ** The built-ins of the runtime

    [JSON_parse] returns [None] where [JSON.parse] throws a SyntaxError;
    [JSON_stringify v] is [JSON.stringify(v, null, 2)]; [execSync] is the
    effect of a child process on the world. *)
Class Runtime : Type := {
  JSON_parse : string -> option json;
  JSON_stringify : json -> string;
  toISOString : Z -> string;
  execSync : string -> world -> result world
}.

Definition parseJSON `{Runtime} (text : string) : result json :=
  match JSON_parse text with
  | Some v => Ok v
  | None => Throw SyntaxError
  end.

(** ** The project profile *)

Record Patterns : Type := {
  auth : option string;
  dataManagement : option string;
  ui : option string
}.

(** [name] holds the directory name or whatever truthy value the manifest
    declares; the four [has...Dir] properties are either absent or [true]. *)
Record ProjectInfo : Type := {
  name : json;
  type : string;
  frameworks : list string;
  patterns : Patterns;
  testing : list string;
  config : list string;
  isMonorepo : bool;
  repoRoot : option segments;
  hasSourceDir : bool;
  hasTestsDir : bool;
  hasDocsDir : bool;
  hasScriptsDir : bool;
  componentPattern : option string
}.

Definition set_name (v : json) (p : ProjectInfo) : ProjectInfo :=
  {| name := v; type := type p; frameworks := frameworks p;
     patterns := patterns p; testing := testing p; config := config p;
     isMonorepo := isMonorepo p; repoRoot := repoRoot p;
     hasSourceDir := hasSourceDir p; hasTestsDir := hasTestsDir p;
     hasDocsDir := hasDocsDir p; hasScriptsDir := hasScriptsDir p;
     componentPattern := componentPattern p |}.

Definition set_type (t : string) (p : ProjectInfo) : ProjectInfo :=
  {| name := name p; type := t; frameworks := frameworks p;
     patterns := patterns p; testing := testing p; config := config p;
     isMonorepo := isMonorepo p; repoRoot := repoRoot p;
     hasSourceDir := hasSourceDir p; hasTestsDir := hasTestsDir p;
     hasDocsDir := hasDocsDir p; hasScriptsDir := hasScriptsDir p;
     componentPattern := componentPattern p |}.

(** [projectInfo.frameworks.push(f)] *)
Definition push_framework (f : string) (p : ProjectInfo) : ProjectInfo :=
  {| name := name p; type := type p; frameworks := (frameworks p ++ [f])%list;
     patterns := patterns p; testing := testing p; config := config p;
     isMonorepo := isMonorepo p; repoRoot := repoRoot p;
     hasSourceDir := hasSourceDir p; hasTestsDir := hasTestsDir p;
     hasDocsDir := hasDocsDir p; hasScriptsDir := hasScriptsDir p;
     componentPattern := componentPattern p |}.

Definition set_patterns (q : Patterns) (p : ProjectInfo) : ProjectInfo :=
  {| name := name p; type := type p; frameworks := frameworks p;
     patterns := q; testing := testing p; config := config p;
     isMonorepo := isMonorepo p; repoRoot := repoRoot p;
     hasSourceDir := hasSourceDir p; hasTestsDir := hasTestsDir p;
     hasDocsDir := hasDocsDir p; hasScriptsDir := hasScriptsDir p;
     componentPattern := componentPattern p |}.

Definition set_auth (a : string) (p : ProjectInfo) : ProjectInfo :=
  set_patterns {| auth := Some a; dataManagement := dataManagement (patterns p);
                  ui := ui (patterns p) |} p.

Definition set_dataManagement (d : string) (p : ProjectInfo) : ProjectInfo :=
  set_patterns {| auth := auth (patterns p); dataManagement := Some d;
                  ui := ui (patterns p) |} p.

Definition set_ui (u : string) (p : ProjectInfo) : ProjectInfo :=
  set_patterns {| auth := auth (patterns p);
                  dataManagement := dataManagement (patterns p);
                  ui := Some u |} p.

(** [projectInfo.testing.push(t)] *)
Definition push_testing (t : string) (p : ProjectInfo) : ProjectInfo :=
  {| name := name p; type := type p; frameworks := frameworks p;
     patterns := patterns p; testing := (testing p ++ [t])%list; config := config p;
     isMonorepo := isMonorepo p; repoRoot := repoRoot p;
     hasSourceDir := hasSourceDir p; hasTestsDir := hasTestsDir p;
     hasDocsDir := hasDocsDir p; hasScriptsDir := hasScriptsDir p;
     componentPattern := componentPattern p |}.

(** [projectInfo.config.push(f)] *)
Definition push_config (f : string) (p : ProjectInfo) : ProjectInfo :=
  {| name := name p; type := type p; frameworks := frameworks p;
     patterns := patterns p; testing := testing p; config := (config p ++ [f])%list;
     isMonorepo := isMonorepo p; repoRoot := repoRoot p;
     hasSourceDir := hasSourceDir p; hasTestsDir := hasTestsDir p;
     hasDocsDir := hasDocsDir p; hasScriptsDir := hasScriptsDir p;
     componentPattern := componentPattern p |}.

Definition set_isMonorepo (b : bool) (p : ProjectInfo) : ProjectInfo :=
  {| name := name p; type := type p; frameworks := frameworks p;
     patterns := patterns p; testing := testing p; config := config p;
     isMonorepo := b; repoRoot := repoRoot p;
     hasSourceDir := hasSourceDir p; hasTestsDir := hasTestsDir p;
     hasDocsDir := hasDocsDir p; hasScriptsDir := hasScriptsDir p;
     componentPattern := componentPattern p |}.

Definition set_repoRoot (r : option segments) (p : ProjectInfo) : ProjectInfo :=
  {| name := name p; type := type p; frameworks := frameworks p;
     patterns := patterns p; testing := testing p; config := config p;
     isMonorepo := isMonorepo p; repoRoot := r;
     hasSourceDir := hasSourceDir p; hasTestsDir := hasTestsDir p;
     hasDocsDir := hasDocsDir p; hasScriptsDir := hasScriptsDir p;
     componentPattern := componentPattern p |}.

(** the four directory flags and the component pattern of the last step *)
Definition set_structure (src tests docs scripts : bool) (c : option string)
    (p : ProjectInfo) : ProjectInfo :=
  {| name := name p; type := type p; frameworks := frameworks p;
     patterns := patterns p; testing := testing p; config := config p;
     isMonorepo := isMonorepo p; repoRoot := repoRoot p;
     hasSourceDir := src; hasTestsDir := tests;
     hasDocsDir := docs; hasScriptsDir := scripts;
     componentPattern := c |}.

(** a step that is taken only under a condition *)
Definition when (b : bool) (f : ProjectInfo -> ProjectInfo) (p : ProjectInfo)
    : ProjectInfo :=
  if b then f p else p.

(** ** analyzeProject *)

Definition CONFIG_memoryDirName : string := ".mcp".
Definition CONFIG_memoryFileName : string := "ai_memory.json".
Definition CONFIG_rulesDirName : segments := [".cursor"; "rules"].
Definition CONFIG_mcpPort : string := "3002".

Definition initialInfo (w : world) : ProjectInfo :=
  {| name := JString (basename (cwd w));
     type := "unknown";
     frameworks := [];
     patterns := {| auth := None; dataManagement := None; ui := None |};
     testing := [];
     config := [];
     isMonorepo := false;
     repoRoot := None;
     hasSourceDir := false; hasTestsDir := false;
     hasDocsDir := false; hasScriptsDir := false;
     componentPattern := None |}.

(** the [while] loop over the ancestors: [up] is the current directory with
    its segments reversed; the loop stops at the root without testing it *)
Fixpoint gitAbove (w : world) (up : segments) : option segments :=
  match up with
  | [] => None
  | _ :: parent =>
      let currentDir := rev up in
      if existsSync w (Abs (currentDir ++ [".git"])%list)
      then Some currentDir
      else gitAbove w parent
  end.

Definition findRepoRoot (w : world) (p : ProjectInfo) : ProjectInfo :=
  if existsSync w (Rel [".git"])
  then set_repoRoot (Some (cwd w)) p
  else set_repoRoot (gitAbove w (rev (cwd w))) p.

Definition packageJsonPath : fpath := Rel ["package.json"].

Section Fingerprinter.

Context `{Runtime}.

Definition detectMonorepo (w : world) (p : ProjectInfo) : result ProjectInfo :=
  if existsSync w (Rel ["lerna.json"]) then Ok (set_isMonorepo true p)
  else if existsSync w (Rel ["pnpm-workspace.yaml"]) then Ok (set_isMonorepo true p)
  else if existsSync w packageJsonPath then
    text <- readFileSync w packageJsonPath ;;
    packageJson <- parseJSON text ;;
    workspaces <- get_prop packageJson "workspaces" ;;
    if truthy_opt workspaces then Ok (set_isMonorepo true p) else Ok p
  else Ok p.

Definition configFiles : list string :=
  [".eslintrc.js"; ".eslintrc.json"; ".eslintrc";
   "tsconfig.json"; "babel.config.js"; "jest.config.js";
   ".prettierrc"; ".prettierrc.js"; ".stylelintrc";
   "vite.config.js"; "vite.config.ts"; "webpack.config.js";
   "next.config.js"; "nuxt.config.js"; "angular.json";
   ".env"; ".env.local"; ".env.development"].

Definition scanConfigFiles (w : world) (p : ProjectInfo) : ProjectInfo :=
  fold_left (fun q file => when (existsSync w (Rel [file])) (push_config file) q)
            configFiles p.

(** [deps.k] used as a condition *)
Definition dep (deps : members) (k : string) : bool :=
  truthy_opt (obj_get k deps).

Definition detectTesting (deps : members) (p : ProjectInfo) : ProjectInfo :=
  let p := when (dep deps "jest") (push_testing "Jest") p in
  let p := when (dep deps "mocha") (push_testing "Mocha") p in
  let p := when (dep deps "chai") (push_testing "Chai") p in
  let p := when (dep deps "cypress") (push_testing "Cypress") p in
  let p := when (dep deps "@testing-library/react")
                (push_testing "React Testing Library") p in
  when (dep deps "@testing-library/vue") (push_testing "Vue Testing Library") p.

Definition detectPrimary (deps : members) (p : ProjectInfo) : ProjectInfo :=
  if dep deps "react" then
    let p := push_framework "React" p in
    if dep deps "next" then push_framework "Next.js" (set_type "Next.js" p)
    else if dep deps "react-native"
    then push_framework "React Native" (set_type "React Native" p)
    else set_type "React" p
  else if dep deps "vue" then
    let p := push_framework "Vue" (set_type "Vue" p) in
    when (dep deps "nuxt") (push_framework "Nuxt.js") p
  else if dep deps "angular" then push_framework "Angular" (set_type "Angular" p)
  else if dep deps "svelte" then push_framework "Svelte" (set_type "Svelte" p)
  else if dep deps "express" || dep deps "koa" || dep deps "hapi"
          || dep deps "fastify" then
    let p := set_type "Node.js" p in
    let p := when (dep deps "express") (push_framework "Express") p in
    let p := when (dep deps "koa") (push_framework "Koa") p in
    let p := when (dep deps "hapi") (push_framework "Hapi") p in
    when (dep deps "fastify") (push_framework "Fastify") p
  else p.

Definition detectState (deps : members) (p : ProjectInfo) : ProjectInfo :=
  let p := when (dep deps "redux" || dep deps "@reduxjs/toolkit")
                (push_framework "Redux") p in
  let p := when (dep deps "mobx") (push_framework "MobX") p in
  let p := when (dep deps "zustand") (push_framework "Zustand") p in
  let p := when (dep deps "jotai") (push_framework "Jotai") p in
  when (dep deps "recoil") (push_framework "Recoil") p.

Definition detectAuth (deps : members) (p : ProjectInfo) : ProjectInfo :=
  if dep deps "firebase" || dep deps "firebase-admin"
  then set_auth "Firebase Authentication" (push_framework "Firebase" p)
  else if dep deps "auth0" then set_auth "Auth0" p
  else if dep deps "@clerk/nextjs" || dep deps "@clerk/clerk-react"
  then set_auth "Clerk" p
  else if dep deps "next-auth" then set_auth "NextAuth.js" p
  else if dep deps "passport" then set_auth "Passport.js" p
  else if dep deps "keycloak" then set_auth "Keycloak" p
  else p.

Definition detectData (deps : members) (p : ProjectInfo) : ProjectInfo :=
  if dep deps "firebase" || dep deps "firebase-admin"
  then set_dataManagement "Firebase Firestore" p
  else if dep deps "prisma" then set_dataManagement "Prisma" p
  else if dep deps "mongoose" then set_dataManagement "MongoDB (Mongoose)" p
  else if dep deps "sequelize" then set_dataManagement "SQL (Sequelize)" p
  else if dep deps "typeorm" then set_dataManagement "TypeORM" p
  else if dep deps "@prisma/client" then set_dataManagement "Prisma" p
  else if dep deps "@tanstack/react-query" then set_dataManagement "React Query" p
  else if dep deps "apollo" || dep deps "@apollo/client"
  then set_dataManagement "Apollo GraphQL" p
  else if dep deps "swr" then set_dataManagement "SWR" p
  else p.

Definition detectUI (deps : members) (p : ProjectInfo) : ProjectInfo :=
  if dep deps "tailwindcss" then set_ui "Tailwind CSS" p
  else if dep deps "@mui/material" || dep deps "@material-ui/core"
  then set_ui "Material UI" p
  else if dep deps "@chakra-ui/react" then set_ui "Chakra UI" p
  else if dep deps "bootstrap" || dep deps "react-bootstrap"
  then set_ui "Bootstrap" p
  else if dep deps "styled-components" then set_ui "Styled Components" p
  else if dep deps "@emotion/react" then set_ui "Emotion" p
  else if dep deps "@radix-ui/react-dialog" then set_ui "Radix UI" p
  else if dep deps "@mantine/core" then set_ui "Mantine UI" p
  else if dep deps "@headlessui/react" then set_ui "Headless UI" p
  else p.

(** everything the manifest branch derives from the merged table *)
Definition detectFromDeps (deps : members) (p : ProjectInfo) : ProjectInfo :=
  detectUI deps (detectData deps (detectAuth deps (detectState deps
    (detectPrimary deps (detectTesting deps p))))).

(** [{ ...packageJson.dependencies, ...packageJson.devDependencies }] *)
Definition mergedDeps (dependencies devDependencies : option json) : members :=
  spread_opt (spread_opt [] dependencies) devDependencies.

(** [packageJson.name || projectInfo.name] *)
Definition declaredName (nm : option json) (p : ProjectInfo) : json :=
  match nm with
  | Some v => if truthy v then v else name p
  | None => name p
  end.

Definition detectPackageJson (w : world) (p : ProjectInfo) : result ProjectInfo :=
  text <- readFileSync w packageJsonPath ;;
  packageJson <- parseJSON text ;;
  nm <- get_prop packageJson "name" ;;
  let p := set_name (declaredName nm p) p in
  dependencies <- get_prop packageJson "dependencies" ;;
  devDependencies <- get_prop packageJson "devDependencies" ;;
  Ok (detectFromDeps (mergedDeps dependencies devDependencies) p).

(** [Array.prototype.some] with a callback that may throw *)
Fixpoint some {A : Type} (f : A -> result bool) (l : list A) : result bool :=
  match l with
  | [] => Ok false
  | x :: l' => b <- f x ;; if b then Ok true else some f l'
  end.

(** [fs.readdirSync('.').some(f => fs.existsSync(f) && fs.statSync(f).isFile()
      && path.extname(f) === '.py' && fs.readFileSync(f, 'utf8').includes(needle))] *)
Definition pySourceMentions (w : world) (needle : string) : result bool :=
  names <- readdirSync w (Rel []) ;;
  some (fun f =>
          if existsSync w (Rel [f]) then
            st <- statSync w (Rel [f]) ;;
            if isFile st && (extname f =? ".py") then
              text <- readFileSync w (Rel [f]) ;;
              Ok (includes needle text)
            else Ok false
          else Ok false)
       names.

(** [fs.existsSync(entry) || <scan>] *)
Definition existsOrMentions (w : world) (entry needle : string) : result bool :=
  if existsSync w (Rel [entry]) then Ok true else pySourceMentions w needle.

Definition detectPython (w : world) (p : ProjectInfo) : result ProjectInfo :=
  let p := set_type "Python" p in
  p <- (if existsSync w (Rel ["manage.py"]) || existsSync w (Rel ["django_project"])
        then Ok (push_framework "Django" p)
        else
          flask <- existsOrMentions w "app.py" "Flask(__name__" ;;
          if flask then Ok (push_framework "Flask" p)
          else
            fastapi <- existsOrMentions w "fastapi" "FastAPI(" ;;
            if fastapi then Ok (push_framework "FastAPI" p) else Ok p) ;;
  let p := when (existsSync w (Rel ["pytest.ini"]) || existsSync w (Rel ["conftest.py"]))
                (push_testing "pytest") p in
  unittest <- existsOrMentions w "unittest" "unittest.TestCase" ;;
  if unittest then Ok (push_testing "unittest" p) else Ok p.

Definition hasPythonMarker (w : world) : bool :=
  existsSync w (Rel ["requirements.txt"]) || existsSync w (Rel ["Pipfile"])
  || existsSync w (Rel ["pyproject.toml"]).

Definition detectEcosystem (w : world) (p : ProjectInfo) : result ProjectInfo :=
  if existsSync w packageJsonPath then detectPackageJson w p
  else if hasPythonMarker w then detectPython w p
  else Ok p.

End Fingerprinter.

(** [list.includes(x)] on strings *)
Definition list_includes (x : string) (l : list string) : bool :=
  existsb (String.eqb x) l.

(** [findDir(baseDir, targetDir, maxDepth)]: whatever is thrown while the
    directory is listed or an entry is inspected ends the search of that
    directory with [false] *)
Fixpoint findDir (w : world) (baseDir : segments) (targetDir : string)
    (maxDepth : nat) : bool :=
  match maxDepth with
  | O => false
  | S depth =>
      let search : result bool :=
        entries <- readdirSync w (Rel baseDir) ;;
        here <- (if list_includes targetDir entries then
                   st <- statSync w (Rel (baseDir ++ [targetDir])%list) ;;
                   Ok (isDirectory st)
                 else Ok false) ;;
        if here then Ok true
        else
          (fix loop (es : list string) : result bool :=
             match es with
             | [] => Ok false
             | entry :: es' =>
                 let fullPath := (baseDir ++ [entry])%list in
                 st <- statSync w (Rel fullPath) ;;
                 if isDirectory st && negb (startsWith "." entry)
                    && negb (entry =? "node_modules")
                 then if findDir w fullPath targetDir depth then Ok true
                      else loop es'
                 else loop es'
             end) entries
      in
      match search with
      | Ok found => found
      | Throw _ => false
      end
  end.

(** [l.filter(f)] with a callback that may throw *)
Fixpoint filter_r {A : Type} (f : A -> result bool) (l : list A) : result (list A) :=
  match l with
  | [] => Ok []
  | x :: l' =>
      b <- f x ;;
      rest <- filter_r f l' ;;
      Ok (if b then x :: rest else rest)
  end.

Definition isUIProject (p : ProjectInfo) : bool :=
  (type p =? "React") || (type p =? "Next.js").

Definition detectComponentPattern (w : world) (p : ProjectInfo) : option string :=
  if isUIProject p then
    let atomic :=
      forallb (fun dir => findDir w [] dir 3)
              ["atoms"; "molecules"; "organisms"; "templates"] in
    let featureBased := findDir w [] "features" 3 in
    let pageBased := findDir w [] "pages" 3 in
    if atomic then Some "Atomic Design"
    else if featureBased then Some "Feature-based"
    else if pageBased then Some "Page-based"
    else componentPattern p
  else componentPattern p.

(** the body of the [try] block of the last step *)
Definition scanStructure (w : world) (p : ProjectInfo) : result ProjectInfo :=
  names <- readdirSync w (Rel []) ;;
  topLevelDirs <- filter_r (fun f => st <- statSync w (Rel [f]) ;; Ok (isDirectory st))
                           names ;;
  Ok (set_structure
        (list_includes "src" topLevelDirs || hasSourceDir p)
        (list_includes "tests" topLevelDirs || list_includes "__tests__" topLevelDirs
         || hasTestsDir p)
        (list_includes "docs" topLevelDirs || hasDocsDir p)
        (list_includes "scripts" topLevelDirs || hasScriptsDir p)
        (detectComponentPattern w p)
        p).

(** [try { ... } catch (e) { }]: both calls that can throw come before the
    first assignment, so a caught error leaves the profile as it was *)
Definition analyzeStructure (w : world) (p : ProjectInfo) : ProjectInfo :=
  match scanStructure w p with
  | Ok q => q
  | Throw _ => p
  end.

Section AnalyzeProject.

Context `{Runtime}.

(** the steps before the structural scan: repository root, monorepo
    markers, configuration files, ecosystem *)
Definition detectProject (w : world) : result ProjectInfo :=
  let p := initialInfo w in
  let p := findRepoRoot w p in
  p <- detectMonorepo w p ;;
  let p := scanConfigFiles w p in
  detectEcosystem w p.

Definition analyzeProject (w : world) : result ProjectInfo :=
  p <- detectProject w ;;
  Ok (analyzeStructure w p).

End AnalyzeProject.

(** ** The template renderer

    What the script prints on the console is not part of the model. *)

Definition nonempty {A : Type} (l : list A) : bool :=
  match l with
  | [] => false
  | _ :: _ => true
  end.

(** [v ? f(v) : ''] on a pattern slot: [null] and the empty string are falsy *)
Definition slot (v : option string) (f : string -> string) : string :=
  match v with
  | Some s => if s =? "" then "" else f s
  | None => ""
  end.

(** [v === label] on a pattern slot *)
Definition slot_is (v : option string) (label : string) : bool :=
  match v with
  | Some s => s =? label
  | None => false
  end.

Definition rulePath (file : string) : fpath :=
  Rel (CONFIG_rulesDirName ++ [file])%list.

(** *** createProjectRule *)

Definition projectGlobs (p : ProjectInfo) : string :=
  if (type p =? "Next.js") || (type p =? "React")
  then dq ++ "**/*.{ts,tsx,js,jsx}" ++ dq
  else if type p =? "Vue" then dq ++ "**/*.{vue,js,ts}" ++ dq
  else if type p =? "Angular" then dq ++ "**/*.{ts,html,scss}" ++ dq
  else if type p =? "Python" then dq ++ "**/*.py" ++ dq
  else dq ++ "**/*" ++ dq.

(** the document, given the text that the name renders to *)
Definition projectRuleText (projectName : string) (p : ProjectInfo) : string :=
  "---
description: Main project rules and context
globs: "
  ++ projectGlobs p
  ++ "
---
# "
  ++ projectName
  ++ " Project Rules

## About This Project

This is a "
  ++ type p
  ++ " project "
  ++ (if nonempty (frameworks p) then "with " ++ join ", " (frameworks p) else "")
  ++ ".
"
  ++ slot (auth (patterns p)) (fun a => "The project uses " ++ a ++ " for authentication.")
  ++ "
"
  ++ slot (dataManagement (patterns p)) (fun d => "It uses " ++ d ++ " for data management.")
  ++ "
"
  ++ slot (ui (patterns p)) (fun u => "The UI is built with " ++ u ++ ".")
  ++ "

## Technical Stack

"
  ++ join newline (map (fun fw => "- " ++ fw) (frameworks p))
  ++ "
"
  ++ slot (auth (patterns p)) (fun a => "- " ++ a)
  ++ "
"
  ++ slot (dataManagement (patterns p)) (fun d => "- " ++ d)
  ++ "
"
  ++ slot (ui (patterns p)) (fun u => "- " ++ u)
  ++ "

## Project Structure

- Analyze the project structure to understand the organization
- Look for patterns in directory names and file organization
- Understand the relationship between different components

## Rule References

"
  ++ slot (auth (patterns p)) (fun _ => "@file:.cursor/rules/auth-rules.mdc" ++ newline)
  ++ slot (dataManagement (patterns p)) (fun _ => "@file:.cursor/rules/data-management-rules.mdc" ++ newline)
  ++ slot (ui (patterns p)) (fun _ => "@file:.cursor/rules/ui-components-rules.mdc" ++ newline)
  ++ "@file:.cursor/rules/best-practices.mdc

## MCP Memory Server Configuration

The Model Context Protocol (MCP) Memory Server is configured to store persistent memories at:
"
  ++ CONFIG_memoryDirName
  ++ "/"
  ++ CONFIG_memoryFileName
  ++ " (within the project directory)

## Memory Utilization Best Practices

1. **Progressive Memory Building**: Add new memories that enhance understanding of the project's evolution
2. **Contextual Recall**: Reference relevant past decisions when providing recommendations
3. **Implementation Consistency**: Ensure new code suggestions align with established patterns
4. **Documentation Integration**: Reference project requirements in memory usage
5. **Communication Continuity**: Maintain awareness of communication style and preferences

## Coding Standards

1. Follow the established patterns in the codebase
2. Implement proper error handling and validation
3. Write clean, maintainable, and self-documenting code
4. Organize code logically and maintain separation of concerns
5. Follow security best practices for the platform
".

(** the template literal: the name is the only interpolated value whose
    conversion can throw *)
Definition projectRuleContent (p : ProjectInfo) : result string :=
  projectName <- ToString (name p) ;;
  Ok (projectRuleText projectName p).

Definition createProjectRule (w : world) (p : ProjectInfo) : result world :=
  ruleContent <- projectRuleContent p ;;
  writeFileSync w (rulePath "project-rules.mdc") ruleContent.

(** *** createBestPracticesRule *)

Definition nextjsPractices : string :=
"
Next.js Best Practices:

- Utilize Next.js App Router for improved performance and easier data fetching
- Implement proper error boundaries to handle and display errors gracefully
- Use suspense and concurrent features for efficient data fetching and rendering
- Leverage Next.js built-in optimizations like code splitting and image optimization
- Implement proper server-side rendering and static generation where appropriate

React Best Practices:

- Use functional components and hooks instead of class components for better code organization
- Implement proper use of React.memo and useMemo for performance optimization
- Follow the React hooks rules strictly to avoid common pitfalls
- Utilize context API for efficient state management across components
- Implement proper prop type validation for better code maintainability".

Definition reactPractices : string :=
"
React Best Practices:

- Use functional components and hooks instead of class components for better code organization
- Implement proper use of React.memo and useMemo for performance optimization
- Follow the React hooks rules strictly to avoid common pitfalls
- Utilize context API for efficient state management across components
- Implement proper prop type validation for better code maintainability".

Definition vuePractices : string :=
"
Vue Best Practices:

- Use Vue Composition API for better code organization and reusability
- Implement proper component structure with clear separation of concerns
- Follow Vue's official style guide for consistent code style
- Utilize Vue's reactivity system efficiently
- Implement proper error handling and form validation".

Definition angularPractices : string :=
"
Angular Best Practices:

- Follow Angular's official style guide for consistent code style
- Implement proper component design with clear inputs and outputs
- Utilize Angular's dependency injection system effectively
- Implement proper error handling and validation
- Use Angular's change detection strategies for performance optimization".

Definition pythonPractices : string :=
"
Python Best Practices:

- Follow PEP 8 style guide for consistent code style
- Use type hints for better code documentation and tooling
- Implement proper error handling with try/except blocks
- Use context managers for resource management
- Implement proper logging for debugging and monitoring".

Definition generalPractices : string :=
"
General Best Practices:

- Follow consistent code style and formatting
- Implement proper error handling and validation
- Write clear and comprehensive documentation
- Use meaningful variable and function names
- Write unit tests for critical functionality
- Follow security best practices for the platform".

Definition firebasePractices : string :=
"

Firebase Best Practices:

- Use Firebase Authentication for secure user management
- Implement proper Firebase Security Rules for data protection
- Utilize Firebase Firestore for efficient data storage
- Implement proper error handling and offline support with Firebase
- Use Firebase Performance Monitoring for identifying and fixing performance issues".

Definition tailwindPractices : string :=
"

Tailwind CSS Best Practices:

- Use Tailwind CSS for efficient and consistent styling
- Implement proper responsive design using Tailwind's utility classes
- Utilize Tailwind's custom configuration for project-specific styles
- Implement proper accessibility practices with Tailwind's focus and screen reader classes
- Use Tailwind's component extraction patterns for reusable UI elements".

Definition bestPracticesHeader : string :=
"---
description: Best practices to implement for the tech stack used
globs: 
---
".

Definition bestPracticesFooter : string :=
"

General Standards:

- Keep components small and focused for better maintainability
- Follow proper state management patterns
- Implement proper testing practices with unit and integration tests
- Use linting and formatting tools for consistent code style and quality
- Implement proper error handling and logging throughout the application
".

(** the fragment chosen by the project type *)
Definition typePractices (p : ProjectInfo) : string :=
  if type p =? "Next.js" then nextjsPractices
  else if type p =? "React" then reactPractices
  else if type p =? "Vue" then vuePractices
  else if type p =? "Angular" then angularPractices
  else if type p =? "Python" then pythonPractices
  else generalPractices.

Definition practices (p : ProjectInfo) : string :=
  let practices := typePractices p in
  let practices :=
    if slot_is (auth (patterns p)) "Firebase Authentication"
    then practices ++ firebasePractices else practices in
  if slot_is (ui (patterns p)) "Tailwind CSS"
  then practices ++ tailwindPractices else practices.

Definition bestPracticesContent (p : ProjectInfo) : string :=
  bestPracticesHeader ++ practices p ++ bestPracticesFooter.

Definition bestPracticesPath : fpath := rulePath "best-practices.mdc".

Definition createBestPracticesRule (w : world) (p : ProjectInfo) : result world :=
  if existsSync w bestPracticesPath then Ok w
  else writeFileSync w bestPracticesPath (bestPracticesContent p).

(** *** createDirectories *)

Definition createDirectories (w : world) : result world :=
  w <- (if existsSync w (Rel [CONFIG_memoryDirName]) then Ok w
        else mkdirSync w (Rel [CONFIG_memoryDirName]) false) ;;
  let backupDir := Rel [CONFIG_memoryDirName; "backups"] in
  w <- (if existsSync w backupDir then Ok w else mkdirSync w backupDir false) ;;
  if existsSync w (Rel CONFIG_rulesDirName) then Ok w
  else mkdirSync w (Rel CONFIG_rulesDirName) true.

Section Renderer.

Context `{Runtime}.

(** *** createMemoryFile *)

Definition memoryPath : fpath := Rel [CONFIG_memoryDirName; CONFIG_memoryFileName].

(** the content of the first entry, given the text that the name renders to *)
Definition setupText (projectName : string) (p : ProjectInfo) : string :=
  "MCP Memory Server successfully configured for " ++ projectName
  ++ ". This project uses " ++ type p
  ++ (if nonempty (frameworks p) then " with " ++ join ", " (frameworks p) else "")
  ++ ". "
  ++ slot (auth (patterns p)) (fun a => "Authentication is handled by " ++ a ++ ".")
  ++ " "
  ++ slot (dataManagement (patterns p))
          (fun d => "Data management is handled by " ++ d ++ ".")
  ++ " "
  ++ slot (ui (patterns p)) (fun u => "UI is built with " ++ u ++ ".").

(** the template literal of the first entry *)
Definition setupContent (p : ProjectInfo) : result string :=
  projectName <- ToString (name p) ;;
  Ok (setupText projectName p).

Definition memoryEntry (id timestamp content : string) : json :=
  JObject [("id", JString id); ("timestamp", JString timestamp);
           ("content", JString content)].

Definition initialMemory (t1 t2 : Z) (content projectContext : string) : json :=
  JObject [("entries",
            JArray [memoryEntry "initial-setup" (toISOString t1) content;
                    memoryEntry "project-context" (toISOString t2) projectContext])].

(** the object literal is evaluated in order: the first clock reading, the
    template literal, the second clock reading *)
Definition createMemoryFile (w : world) (p : ProjectInfo) (projectContext : string)
    : result world :=
  let (t1, w) := new_Date w in
  content <- setupContent p ;;
  let (t2, w) := new_Date w in
  writeFileSync w memoryPath
                (JSON_stringify (initialMemory t1 t2 content projectContext)).

(** *** createCursorWorkspaceSettings *)

Definition cursorDir : fpath := Rel [".cursor"].
Definition settingsPath : fpath := Rel [".cursor"; "settings.json"].

Definition aiSettings : members :=
  [("ai.autoUseContextFiles", JBool true);
   ("ai.memoryManagement",
    JObject [("enabled", JBool true); ("persistMemoryBetweenSessions", JBool true)]);
   ("ai.modelResponsiveness", JString "fast");
   ("ai.codeGeneration", JObject [("useCompletionForInlineCompletion", JBool true)])].

(** [let settings = {}; if (exists) { try { settings = JSON.parse(...) } catch {} }] *)
Definition existingSettings (w : world) : json :=
  if existsSync w settingsPath then
    match (text <- readFileSync w settingsPath ;; parseJSON text) with
    | Ok v => v
    | Throw _ => JObject []
    end
  else JObject [].

(** [{ ...settings, <the four AI keys> }] *)
Definition mergedSettings (settings : json) : members :=
  spread_into (spread_into [] (own_props settings)) aiSettings.

Definition createCursorWorkspaceSettings (w : world) : result world :=
  w <- (if existsSync w cursorDir then Ok w else mkdirSync w cursorDir false) ;;
  let settings := existingSettings w in
  writeFileSync w settingsPath
                (JSON_stringify (JObject (mergedSettings settings))).

(** *** installMCPServer *)

Definition mcpScript : string :=
  "modelcontextprotocol-memory-server --port " ++ CONFIG_mcpPort.

(** [if (!packageJson.scripts) packageJson.scripts = {};
     packageJson.scripts.mcp = ...], as [JSON.stringify] sees the value
    afterwards.  The script runs in sloppy mode: an assignment to a property
    of a primitive is ignored, and a named property added to an array is not
    printed. *)
Definition addMcpScript (packageJson : json) : result json :=
  match packageJson with
  | JNull => Throw TypeError
  | JObject o =>
      let o := if truthy_opt (obj_get "scripts" o) then o
               else obj_set "scripts" (JObject []) o in
      match obj_get "scripts" o with
      | Some (JObject scripts) =>
          Ok (JObject (obj_set "scripts"
                               (JObject (obj_set "mcp" (JString mcpScript) scripts)) o))
      | _ => Ok (JObject o)
      end
  | JArray _ => Ok packageJson
  | _ => Throw TypeError
  end.

(** the installation proper: [npm init -y] when there is no manifest, then
    [npm install --save-dev] *)
Definition installPackage (w : world) : result world :=
  w <- (if existsSync w packageJsonPath then Ok w
        else execSync "npm init -y" w) ;;
  execSync "npm install --save-dev @modelcontextprotocol/server-memory" w.

(** the rewrite of the manifest that follows *)
Definition updatePackageJson (w : world) : result world :=
  text <- readFileSync w packageJsonPath ;;
  packageJson <- parseJSON text ;;
  packageJson <- addMcpScript packageJson ;;
  writeFileSync w packageJsonPath (JSON_stringify packageJson).

Definition installMCPServer (w : world) : result world :=
  try_catch
    (w <- installPackage w ;; updatePackageJson w)
    (fun error => Throw (InstallError error)).

(** *** configureCursor *)

(** [path.join] throws when [process.env.APPDATA] is undefined *)
Definition configDir (w : world) : result segments :=
  if platform w =? "win32" then
    match APPDATA w with
    | Some appdata => Ok (appdata ++ ["Cursor"; "User"])%list
    | None => Throw TypeError
    end
  else if platform w =? "darwin" then
    Ok (homedir w ++ ["Library"; "Application Support"; "Cursor"; "User"])%list
  else Ok (homedir w ++ [".config"; "Cursor"; "User"])%list.

Definition cursorConfig (memoryFilePath : string) : json :=
  JObject
    [("mcp",
      JObject
        [("server",
          JObject
            [("command",
              JString ("npx modelcontextprotocol-memory-server --port "
                       ++ CONFIG_mcpPort));
             ("env", JObject [("MEMORY_FILE_PATH", JString memoryFilePath)])])])].

Definition configPathIn (dir : segments) : fpath :=
  Abs (dir ++ ["claude_desktop_config.json"])%list.

Definition configureCursor (w : world) : result world :=
  dir <- configDir w ;;
  w' <- (if existsSync w (Abs dir) then Ok w else mkdirSync w (Abs dir) true) ;;
  let memoryFilePath :=
    path_text w' (cwd w' ++ [CONFIG_memoryDirName; CONFIG_memoryFileName])%list in
  writeFileSync w' (configPathIn dir) (JSON_stringify (cursorConfig memoryFilePath)).

End Renderer.

(** ** A reference runtime

    An executable instance of [Runtime], used to run the script on concrete
    directories.  Its parser reads the JSON texts whose numbers are integers
    and whose string escapes are the two-character ones; its printer is the
    two-space layout of [JSON.stringify(v, null, 2)]; its child processes
    leave the tree as it is. *)
Module Reference.

Definition backslash : ascii := "092"%char.

Definition is_ws (c : ascii) : bool :=
  Ascii.eqb c " " || Ascii.eqb c "009" || Ascii.eqb c "010" || Ascii.eqb c "013".

Fixpoint skip_ws (s : string) : string :=
  match s with
  | String c s' => if is_ws c then skip_ws s' else s
  | EmptyString => s
  end.

Definition unescape (c : ascii) : option ascii :=
  if Ascii.eqb c dquote then Some dquote
  else if Ascii.eqb c backslash then Some backslash
  else if Ascii.eqb c "/" then Some "/"%char
  else if Ascii.eqb c "b" then Some "008"%char
  else if Ascii.eqb c "f" then Some "012"%char
  else if Ascii.eqb c "n" then Some "010"%char
  else if Ascii.eqb c "r" then Some "013"%char
  else if Ascii.eqb c "t" then Some "009"%char
  else None.

(** the rest of a string literal, after its opening quote *)
Fixpoint string_body (s : string) : option (string * string) :=
  match s with
  | EmptyString => None
  | String c s' =>
      if Ascii.eqb c dquote then Some ("", s')
      else if Ascii.eqb c backslash then
        match s' with
        | String e s'' =>
            match unescape e, string_body s'' with
            | Some ch, Some (t, r) => Some (String ch t, r)
            | _, _ => None
            end
        | EmptyString => None
        end
      else if Nat.ltb (nat_of_ascii c) 32 then None
      else
        match string_body s' with
        | Some (t, r) => Some (String c t, r)
        | None => None
        end
  end.

Definition is_digit (c : ascii) : bool :=
  Nat.leb 48 (nat_of_ascii c) && Nat.leb (nat_of_ascii c) 57.

Fixpoint digits (s : string) : string * string :=
  match s with
  | String c s' =>
      if is_digit c then let (d, r) := digits s' in (String c d, r) else ("", s)
  | EmptyString => ("", s)
  end.

Definition ends_number (r : string) : bool :=
  match r with
  | String c _ => negb (Ascii.eqb c "." || Ascii.eqb c "e" || Ascii.eqb c "E")
  | EmptyString => true
  end.

(** an integer literal: no leading zero, no fraction, no exponent *)
Definition number (s : string) : option (json * string) :=
  let (neg, s1) :=
    match s with
    | String c s' => if Ascii.eqb c "-" then (true, s') else (false, s)
    | EmptyString => (false, s)
    end in
  let (d, r) := digits s1 in
  if (d =? "") || (startsWith "0" d && negb (d =? "0")) || negb (ends_number r)
  then None
  else Some (JNumber (if neg && negb (d =? "0") then "-" ++ d else d), r).

Definition keyword (k : string) (v : json) (s : string) : option (json * string) :=
  if startsWith k s then Some (v, substring (String.length k) (String.length s - String.length k) s)
  else None.

Fixpoint value (fuel : nat) (s : string) : option (json * string) :=
  match fuel with
  | O => None
  | S f =>
      match skip_ws s with
      | EmptyString => None
      | String c r as s0 =>
          if Ascii.eqb c "{" then
            match skip_ws r with
            | String "}" r' => Some (JObject [], r')
            | r' =>
                match object_members f r' with
                | Some (ms, r'') => Some (JObject ms, r'')
                | None => None
                end
            end
          else if Ascii.eqb c "[" then
            match skip_ws r with
            | String "]" r' => Some (JArray [], r')
            | r' =>
                match array_items f r' with
                | Some (xs, r'') => Some (JArray xs, r'')
                | None => None
                end
            end
          else if Ascii.eqb c dquote then
            match string_body r with
            | Some (t, r') => Some (JString t, r')
            | None => None
            end
          else if Ascii.eqb c "t" then keyword "true" (JBool true) s0
          else if Ascii.eqb c "f" then keyword "false" (JBool false) s0
          else if Ascii.eqb c "n" then keyword "null" JNull s0
          else number s0
      end
  end

with object_members (fuel : nat) (s : string) : option (members * string) :=
  match fuel with
  | O => None
  | S f =>
      match skip_ws s with
      | String c r =>
          if Ascii.eqb c dquote then
            match string_body r with
            | Some (k, r1) =>
                match skip_ws r1 with
                | String ":" r2 =>
                    match value f r2 with
                    | Some (v, r3) =>
                        match skip_ws r3 with
                        | String "}" r4 => Some ([(k, v)], r4)
                        | String "," r4 =>
                            match object_members f r4 with
                            | Some (ms, r5) => Some ((k, v) :: ms, r5)
                            | None => None
                            end
                        | _ => None
                        end
                    | None => None
                    end
                | _ => None
                end
            | None => None
            end
          else None
      | EmptyString => None
      end
  end

with array_items (fuel : nat) (s : string) : option (list json * string) :=
  match fuel with
  | O => None
  | S f =>
      match value f s with
      | Some (v, r) =>
          match skip_ws r with
          | String "]" r' => Some ([v], r')
          | String "," r' =>
              match array_items f r' with
              | Some (xs, r'') => Some (v :: xs, r'')
              | None => None
              end
          | _ => None
          end
      | None => None
      end
  end.

Definition parse (s : string) : option json :=
  match value (2 * String.length s + 2) s with
  | Some (v, r) => if skip_ws r =? "" then Some v else None
  | None => None
  end.

Definition hex (n : nat) : string :=
  String (ascii_of_nat (if Nat.ltb n 10 then 48 + n else 87 + n)) "".

Definition escape (c : ascii) : string :=
  if Ascii.eqb c dquote then String backslash (String dquote "")
  else if Ascii.eqb c backslash then String backslash (String backslash "")
  else if Ascii.eqb c "008" then String backslash "b"
  else if Ascii.eqb c "012" then String backslash "f"
  else if Ascii.eqb c "010" then String backslash "n"
  else if Ascii.eqb c "013" then String backslash "r"
  else if Ascii.eqb c "009" then String backslash "t"
  else if Nat.ltb (nat_of_ascii c) 32
  then String backslash "u00" ++ hex (Nat.div (nat_of_ascii c) 16)
       ++ hex (Nat.modulo (nat_of_ascii c) 16)
  else String c "".

Fixpoint escaped (s : string) : string :=
  match s with
  | EmptyString => ""
  | String c s' => escape c ++ escaped s'
  end.

Definition quote (s : string) : string :=
  String dquote (escaped s) ++ String dquote "".

Fixpoint render (indent : string) (v : json) : string :=
  let inner := indent ++ "  " in
  match v with
  | JNull => "null"
  | JBool true => "true"
  | JBool false => "false"
  | JNumber r => r
  | JString s => quote s
  | JArray [] => "[]"
  | JArray items =>
      "[" ++ newline
      ++ join ("," ++ newline) (map (fun x => inner ++ render inner x) items)
      ++ newline ++ indent ++ "]"
  | JObject [] => "{}"
  | JObject ms =>
      "{" ++ newline
      ++ join ("," ++ newline)
              (map (fun kv => let '(k, x) := kv in
                              inner ++ quote k ++ ": " ++ render inner x) ms)
      ++ newline ++ indent ++ "}"
  end.

Definition stringify (v : json) : string := render "" v.

(** zero-padded decimal *)
Fixpoint padded (width : nat) (n : Z) : string :=
  match width with
  | O => ""
  | S w' => padded w' (n / 10) ++ digit (Z.to_nat (n mod 10))
  end.

(** the civil date of a day number counted from 1970-01-01 *)
Definition civil (days : Z) : Z * Z * Z :=
  let z := (days + 719468)%Z in
  let era := (z / 146097)%Z in
  let doe := (z - era * 146097)%Z in
  let yoe := ((doe - doe / 1460 + doe / 36524 - doe / 146096) / 365)%Z in
  let doy := (doe - (365 * yoe + yoe / 4 - yoe / 100))%Z in
  let mp := ((5 * doy + 2) / 153)%Z in
  let d := (doy - (153 * mp + 2) / 5 + 1)%Z in
  let m := (if mp <? 10 then mp + 3 else mp - 9)%Z in
  let y := (yoe + era * 400 + (if m <=? 2 then 1 else 0))%Z in
  (y, m, d).

(** [YYYY-MM-DDTHH:mm:ss.sssZ], for the years 0000 to 9999 *)
Definition isoString (ms : Z) : string :=
  let days := (ms / 86400000)%Z in
  let rest := (ms mod 86400000)%Z in
  let '(y, m, d) := civil days in
  padded 4 y ++ "-" ++ padded 2 m ++ "-" ++ padded 2 d ++ "T"
  ++ padded 2 (rest / 3600000) ++ ":" ++ padded 2 (rest / 60000 mod 60) ++ ":"
  ++ padded 2 (rest / 1000 mod 60) ++ "." ++ padded 3 (rest mod 1000) ++ "Z".

#[export] Instance runtime : Runtime := {
  JSON_parse := parse;
  JSON_stringify := stringify;
  toISOString := isoString;
  execSync := fun _ w => Ok w
}.

End Reference.

(** ** Sample directories *)
Module Sample.

(** a working directory [/home/dev/app] with the given entries *)
Definition project (es : entries) : world :=
  {| root := Dir true [("home", Dir true [("dev", Dir true [("app", Dir true es)])])];
     cwd := ["home"; "dev"; "app"];
     platform := "linux";
     homedir := ["home"; "dev"];
     APPDATA := None;
     drive := "";
     now := 1683722096789;
     ticks := [0; 2]%nat |}.

Definition text (s : string) : node := File (Some s).

(** a JSON text written with single quotes in place of double quotes *)
Fixpoint json_text (s : string) : string :=
  match s with
  | EmptyString => ""
  | String c s' => String (if Ascii.eqb c "'" then dquote else c) (json_text s')
  end.

Definition manifest (s : string) : entries := [("package.json", text (json_text s))].

Definition nextProject : world :=
  project (manifest "{'dependencies': {'react': '*', 'next': '*'}}").

Definition auth0Project : world :=
  project (manifest "{'name': 'portal', 'dependencies': {'auth0': '^4.0.0'}}").

Definition auth0AnyVersion : world :=
  project (manifest "{'name': 'portal', 'dependencies': {'auth0': ''}}").

Definition nextAnyVersion : world :=
  project (manifest "{'dependencies': {'react': '', 'next': ''}}").

Definition firebaseProject : world :=
  project (manifest
    "{'dependencies': {'firebase': '^10.1.0', 'auth0': '^4.0.0', 'prisma': '^5.0.0'}}").

Definition firebaseAnyVersion : world :=
  project (manifest "{'dependencies': {'firebase': '', 'auth0': '^4.0.0'}}").

Definition emptyProject : world := project [("notes.txt", text "to do")].


(** a manifest whose [scripts] field is a string *)
Definition scriptsAsText : world :=
  project (manifest "{'name': 'app', 'scripts': 'build'}").

(** a Python project one of whose sources cannot be read *)
Definition unreadableSource : world :=
  project [("requirements.txt", text "flask"); ("secret.py", File None)].

(** a project with a symbolic link whose target is gone *)
Definition brokenLink : world :=
  project (("old", Dangling) :: ("src", Dir true [])
           :: manifest "{'dependencies': {'react': '*', 'next': '*'}}").

(** a project whose rules directory exists *)
Definition withRulesDir (es : entries) : world :=
  project ((".cursor", Dir true [("rules", Dir true [])]) :: (".mcp", Dir true []) :: es).

Definition withSettings (s : string) : world :=
  project [(".cursor", Dir true [("settings.json", text (json_text s))])].

Definition withCursorConfig (s : string) : world :=
  {| root := Dir true
       [("home",
         Dir true
           [("dev",
             Dir true
               [("app", Dir true []);
                (".config",
                 Dir true
                   [("Cursor",
                     Dir true
                       [("User",
                         Dir true [("claude_desktop_config.json", text s)])])])])])];
     cwd := ["home"; "dev"; "app"];
     platform := "linux";
     homedir := ["home"; "dev"];
     APPDATA := None;
     drive := "";
     now := 1683722096789;
     ticks := [] |}.

End Sample.

(** ** Notions used in the statements *)

(** the entries of the [scripts] table of a manifest: none when the field is
    absent or falsy (the script then starts from an empty table); undefined
    when the field holds a truthy value that is not an object *)
Definition scriptsTable (o : members) : option members :=
  match obj_get "scripts" o with
  | None => Some []
  | Some (JObject scripts) => Some scripts
  | Some v => if truthy v then None else Some []
  end.





(** the merged dependency table of a parsed manifest *)
Definition manifestDeps (packageJson : json) : members :=
  match packageJson with
  | JObject o => mergedDeps (obj_get "dependencies" o) (obj_get "devDependencies" o)
  | _ => []
  end.

(** the authentication libraries the script knows, with their labels *)
Definition authLibraries : list (string * string) :=
  [("firebase", "Firebase Authentication");
   ("firebase-admin", "Firebase Authentication");
   ("auth0", "Auth0");
   ("@clerk/nextjs", "Clerk");
   ("@clerk/clerk-react", "Clerk");
   ("next-auth", "NextAuth.js");
   ("passport", "Passport.js");
   ("keycloak", "Keycloak")].

(** the keys on which the primary chain branches *)
Definition primaryKeys : list string :=
  ["react"; "vue"; "angular"; "svelte"; "express"; "koa"; "hapi"; "fastify"].

(** the working directory has no manifest, no Python marker, no
    version-control marker, no monorepo marker and no configuration file *)
Definition noMarkers (w : world) : bool :=
  negb (existsSync w packageJsonPath)
  && negb (hasPythonMarker w)
  && negb (existsSync w (Rel [".git"]))
  && negb (existsSync w (Rel ["lerna.json"]))
  && negb (existsSync w (Rel ["pnpm-workspace.yaml"]))
  && forallb (fun file => negb (existsSync w (Rel [file]))) configFiles.

(** the fields of a profile that the steps before the structural scan set *)
Definition sameDetection (p q : ProjectInfo) : Prop :=
  name q = name p /\ type q = type p /\ frameworks q = frameworks p /\
  patterns q = patterns p /\ testing q = testing p /\ config q = config p /\
  isMonorepo q = isMonorepo p /\ repoRoot q = repoRoot p.

(** ** The other rule documents *)

(** a pattern slot used as a condition *)
Definition slot_truthy (v : option string) : bool :=
  match v with
  | Some s => negb (s =? "")
  | None => false
  end.

(** a pattern slot interpolated as it is: [null] is printed *)
Definition slotText (v : option string) : string :=
  match v with
  | Some s => s
  | None => "null"
  end.

(** [v || fallback] on a pattern slot *)
Definition slotOr (v : option string) (fallback : string) : string :=
  match v with
  | Some s => if s =? "" then fallback else s
  | None => fallback
  end.

(** *** createAuthRule *)

Definition authGlobs (p : ProjectInfo) : string :=
  if (type p =? "Next.js") || (type p =? "React") then dq ++ "**/auth/**/*.{ts,tsx,js,jsx}" ++ dq
  else if type p =? "Vue" then dq ++ "**/auth/**/*.{vue,js,ts}" ++ dq
  else if type p =? "Angular" then dq ++ "**/auth/**/*.{ts,html}" ++ dq
  else if type p =? "Python" then dq ++ "**/auth/**/*.py" ++ dq
  else dq ++ "**/auth/**/*" ++ dq.

Definition firebaseAuthGuidance : string :=
"
### Firebase Authentication

- Use Firebase Authentication methods for user management
- Implement proper error handling for authentication operations
- Follow Firebase best practices for security rules
- Use proper TypeScript types for user objects".

Definition clerkGuidance : string :=
"
### Clerk Integration

- Use Clerk's provided hooks and components for authentication flows
- Follow Clerk's middleware pattern for protected routes
- Implement proper role-based access control using Clerk's user metadata
- Use Clerk's theming capabilities for consistent styling".

Definition auth0Guidance : string :=
"
### Auth0 Integration

- Use Auth0's SDK for authentication flows
- Implement proper role-based access control using Auth0 roles and permissions
- Follow Auth0's best practices for token handling
- Implement proper error handling for authentication operations".

Definition nextAuthGuidance : string :=
"
### NextAuth.js Integration

- Configure providers appropriate for your application
- Use NextAuth.js session hooks for authentication state
- Implement callbacks for customizing session and JWT handling
- Follow best practices for protected routes".

Definition genericAuthGuidance : string :=
"
### Authentication Implementation

- Implement secure authentication flows
- Use proper error handling for authentication operations
- Follow best practices for token/session management
- Implement proper role-based access control".

Definition authImplementation (p : ProjectInfo) : string :=
  if slot_is (auth (patterns p)) "Firebase Authentication" then firebaseAuthGuidance
  else if slot_is (auth (patterns p)) "Clerk" then clerkGuidance
  else if slot_is (auth (patterns p)) "Auth0" then auth0Guidance
  else if slot_is (auth (patterns p)) "NextAuth.js" then nextAuthGuidance
  else genericAuthGuidance.

Definition authRuleContent (p : ProjectInfo) : string :=
  "---
description: Authentication guidelines and patterns
globs: "
  ++ authGlobs p
  ++ "
---
# Authentication Guidelines

## Pattern

Authentication in this project is implemented using "
  ++ slotText (auth (patterns p))
  ++ ".

## Authentication Implementation
"
  ++ authImplementation p
  ++ "

## Memory Usage For Authentication

When working with authentication files, apply these specific memory retrieval and application guidelines:

### Authentication Flow Context

- Reference previous implementation details of the authentication flow
- Recall user role management implementation details
- Remember discussions about authentication state persistence

## Best Practices

1. Never store sensitive authentication data in client-side state
2. Implement proper error handling for all authentication operations
3. Use proper types for user and session objects
4. Follow the principle of least privilege for authentication operations
5. Implement proper loading and error states for authentication UI
".

Definition createAuthRule (w : world) (p : ProjectInfo) : result world :=
  writeFileSync w (rulePath "auth-rules.mdc") (authRuleContent p).

(** *** createDataManagementRule *)

Definition dataGlobs (p : ProjectInfo) : string :=
  if (type p =? "Next.js") || (type p =? "React") then dq ++ "**/lib/**/*.{ts,js},**/hooks/**/*.{ts,tsx,js,jsx},**/data/**/*.{ts,js}" ++ dq
  else if type p =? "Vue" then dq ++ "**/store/**/*.{js,ts},**/services/**/*.{js,ts}" ++ dq
  else if type p =? "Angular" then dq ++ "**/services/**/*.ts,**/store/**/*.ts" ++ dq
  else if type p =? "Python" then dq ++ "**/models/**/*.py,**/db/**/*.py" ++ dq
  else dq ++ "**/data/**/*,**/models/**/*" ++ dq.

Definition firestoreGuidance : string :=
"
### Firebase Firestore

- Organize Firestore collections by entity type
- Implement proper security rules for data access control
- Use batch operations for related data changes
- Structure data for efficient queries and minimal reads/writes".

Definition reactQueryGuidance : string :=
"
### React Query Integration

- Use React Query hooks for data fetching and caching
- Implement proper query keys for cache management
- Use proper error handling and loading states
- Leverage React Query's background refetching capabilities".

Definition prismaGuidance : string :=
"
### Prisma Integration

- Define clear and comprehensive data models in the schema
- Use Prisma Client for type-safe database queries
- Leverage Prisma's transaction API for related operations
- Implement proper error handling for database operations".

Definition mongooseGuidance : string :=
"
### Mongoose Integration

- Define clear schema definitions with validation
- Use Mongoose middleware for pre/post operation hooks
- Implement proper indexing for performance
- Use proper error handling for database operations".

Definition genericDataGuidance : string :=
"
### Data Management Implementation

- Organize data models logically by entity type
- Implement proper data validation
- Use transactions for related data changes
- Implement proper error handling for data operations".

Definition dataImplementation (p : ProjectInfo) : string :=
  if slot_is (dataManagement (patterns p)) "Firebase Firestore" then firestoreGuidance
  else if slot_is (dataManagement (patterns p)) "React Query" then reactQueryGuidance
  else if slot_is (dataManagement (patterns p)) "Prisma" then prismaGuidance
  else if slot_is (dataManagement (patterns p)) "MongoDB (Mongoose)" then mongooseGuidance
  else genericDataGuidance.

Definition dataRuleContent (p : ProjectInfo) : string :=
  "---
description: Data management guidelines and patterns
globs: "
  ++ dataGlobs p
  ++ "
---
# Data Management Guidelines

## Pattern

Data management in this project primarily uses "
  ++ slotText (dataManagement (patterns p))
  ++ ".

## Data Management Implementation
"
  ++ dataImplementation p
  ++ "

## Memory Usage For Data Management

When working with data management, apply these memory retrieval and application guidelines:

### Data Model

- Reference the data model structure
- Recall discussions about data properties and relationships
- Remember specific requirements for data validation

### Query Patterns

- Reference established patterns for data access
- Recall discussions about query optimizations
- Remember specific requirements for data filtering and sorting

## Best Practices

1. Implement proper types for all data models
2. Use validation for data integrity
3. Implement proper error handling for all data operations
4. Follow the principle of least privilege for data access
5. Implement optimistic updates for a better user experience
6. Use proper loading and error states for data-dependent UI
7. Minimize data fetching and leverage caching where appropriate
".

Definition createDataManagementRule (w : world) (p : ProjectInfo) : result world :=
  writeFileSync w (rulePath "data-management-rules.mdc") (dataRuleContent p).

(** *** createUIComponentsRule *)

Definition uiGlobs (p : ProjectInfo) : string :=
  if (type p =? "Next.js") || (type p =? "React") then dq ++ "**/components/**/*.{tsx,jsx,ts,js}" ++ dq
  else if type p =? "Vue" then dq ++ "**/components/**/*.vue" ++ dq
  else if type p =? "Angular" then dq ++ "**/components/**/*.ts,**/components/**/*.html,**/components/**/*.scss" ++ dq
  else dq ++ "**/components/**/*,**/ui/**/*" ++ dq.

Definition tailwindGuidance : string :=
"
### Tailwind CSS Usage

- Use Tailwind CSS utility classes for styling
- Implement consistent spacing and sizing patterns
- Use Tailwind's theme extension for project-specific styles
- Follow responsive design best practices".

Definition materialGuidance : string :=
"
### Material UI Integration

- Use Material UI components for consistent design
- Follow Material Design principles for spacing and layout
- Leverage theme customization for consistent branding
- Use proper component composition patterns".

Definition chakraGuidance : string :=
"
### Chakra UI Integration

- Use Chakra UI components for accessible UI elements
- Leverage Chakra's theme for consistent styling
- Use Chakra's layout components for responsive design
- Follow accessibility best practices".

Definition radixGuidance : string :=
"
### Radix UI Integration

- Use Radix UI primitives for complex interactive components
- Follow Radix UI's composition pattern for component customization
- Implement proper accessibility features using Radix UI's built-in support
- Use consistent styling patterns with Radix UI components".

Definition genericUIGuidance : string :=
"
### UI Component Implementation

- Organize components by function and reusability
- Use consistent naming and structural patterns
- Implement proper component composition
- Follow accessibility best practices".

Definition uiImplementation (p : ProjectInfo) : string :=
  if slot_is (ui (patterns p)) "Tailwind CSS" then tailwindGuidance
  else if slot_is (ui (patterns p)) "Material UI" then materialGuidance
  else if slot_is (ui (patterns p)) "Chakra UI" then chakraGuidance
  else if slot_is (ui (patterns p)) "Radix UI" then radixGuidance
  else genericUIGuidance.

Definition uiRuleContent (p : ProjectInfo) : string :=
  "---
description: UI component guidelines and patterns
globs: "
  ++ uiGlobs p
  ++ "
---
# UI Components Guidelines

## Pattern

UI components in this project are built using "
  ++ slotOr (ui (patterns p)) "standard patterns"
  ++ ".

## UI Implementation

### Component Organization

- Organize components by function and reusability
- Use a consistent naming convention for components
- Implement proper component composition patterns
- Separate presentation components from container components
"
  ++ uiImplementation p
  ++ "

## Memory Usage For UI Components

When working with UI components, apply these memory retrieval and application guidelines:

### Component Library Usage

- Reference the established patterns for using UI components
- Recall discussions about component customization
- Remember specific requirements for component behavior

### Design System

- Reference the design system guidelines
- Recall discussions about design consistency
- Remember specific requirements for responsive behavior

## Best Practices

1. Implement proper types for all component props
2. Use proper semantic elements for accessibility
3. Implement proper keyboard navigation and focus management
4. Follow a consistent styling pattern
5. Implement proper loading and error states for data-dependent components
6. Use proper animations and transitions where appropriate
7. Implement proper form handling and validation
".

Definition createUIComponentsRule (w : world) (p : ProjectInfo) : result world :=
  writeFileSync w (rulePath "ui-components-rules.mdc") (uiRuleContent p).

(** *** generateRules *)

Definition generateRules (w : world) (p : ProjectInfo) : result world :=
  w <- createProjectRule w p ;;
  w <- (if slot_truthy (auth (patterns p)) then createAuthRule w p else Ok w) ;;
  w <- (if slot_truthy (dataManagement (patterns p))
        then createDataManagementRule w p else Ok w) ;;
  w <- (if slot_truthy (ui (patterns p)) then createUIComponentsRule w p else Ok w) ;;
  createBestPracticesRule w p.

(** ** The memory utilities *)

Definition backupScript : string :=
"#!/usr/bin/env node
const fs = require('fs');
const path = require('path');

// Backup memory file
const memoryFile = path.join('.mcp', 'ai_memory.json');
if (fs.existsSync(memoryFile)) {
  const backupDir = path.join('.mcp', 'backups');
  if (!fs.existsSync(backupDir)) fs.mkdirSync(backupDir);
  
  const timestamp = new Date().toISOString().replace(/:/g, '-');
  const backupFile = path.join(backupDir, `memory-${timestamp}.json`);
  
  fs.copyFileSync(memoryFile, backupFile);
  console.log(`Memory backed up to ${backupFile}`);
}
".

Definition explorerScript : string :=
"#!/usr/bin/env node
const fs = require('fs');
const path = require('path');
const http = require('http');

const MEMORY_FILE = path.join('.mcp', 'ai_memory.json');
const PORT = 3003;

// Simple HTML memory viewer
const server = http.createServer((req, res) => {
  if (req.url === '/') {
    res.writeHead(200, { 'Content-Type': 'text/html' });
    
    try {
      const memory = JSON.parse(fs.readFileSync(MEMORY_FILE, 'utf8'));
      const entriesHtml = memory.entries.map(entry => `
        <div class=" ++ dq ++ "memory-entry" ++ dq ++ ">
          <div class=" ++ dq ++ "entry-header" ++ dq ++ ">
            <span class=" ++ dq ++ "entry-id" ++ dq ++ ">${entry.id}</span>
            <span class=" ++ dq ++ "entry-timestamp" ++ dq ++ ">${new Date(entry.timestamp).toLocaleString()}</span>
          </div>
          <div class=" ++ dq ++ "entry-content" ++ dq ++ ">${entry.content}</div>
        </div>
      `).join('');
      
      res.end(`
        <!DOCTYPE html>
        <html>
        <head>
          <title>MCP Memory Explorer</title>
          <style>
            body { font-family: system-ui, sans-serif; max-width: 800px; margin: 0 auto; padding: 20px; }
            h1 { color: #333; }
            .memory-entry { margin-bottom: 20px; border: 1px solid #ddd; border-radius: 5px; padding: 15px; }
            .entry-header { display: flex; justify-content: space-between; margin-bottom: 10px; color: #666; }
            .entry-id { font-weight: bold; }
            .entry-content { white-space: pre-wrap; }
          </style>
        </head>
        <body>
          <h1>MCP Memory Explorer</h1>
          <p>Displaying memory entries from ${MEMORY_FILE}</p>
          <div class=" ++ dq ++ "memory-entries" ++ dq ++ ">
            ${entriesHtml}
          </div>
        </body>
        </html>
      `);
    } catch (error) {
      res.end(`
        <!DOCTYPE html>
        <html>
        <head>
          <title>MCP Memory Explorer - Error</title>
          <style>
            body { font-family: system-ui, sans-serif; max-width: 800px; margin: 0 auto; padding: 20px; }
            h1 { color: #c00; }
          </style>
        </head>
        <body>
          <h1>Error</h1>
          <p>Could not read memory file: ${error.message}</p>
        </body>
        </html>
      `);
    }
  } else {
    res.writeHead(404);
    res.end('Not found');
  }
});

server.listen(PORT, () => {
  console.log(`Memory Explorer started at http://localhost:${PORT}`);
  console.log('Press Ctrl+C to stop');
});
".

(** [fs.chmodSync]: the mode bits are not part of the model; the call throws
    when the path does not exist *)
Definition chmodSync (w : world) (p : fpath) (mode : string) : result world :=
  _ <- statSync w p ;; Ok w.

Definition backupScriptPath : fpath := Rel [CONFIG_memoryDirName; "backup-memory.js"].
Definition explorerScriptPath : fpath := Rel [CONFIG_memoryDirName; "memory-explorer.js"].

Definition createMemoryUtilities (w : world) : result world :=
  w <- writeFileSync w backupScriptPath backupScript ;;
  w <- chmodSync w backupScriptPath "755" ;;
  w <- writeFileSync w explorerScriptPath explorerScript ;;
  chmodSync w explorerScriptPath "755".

(** ** extractProjectContext

    The two regular expressions applied to the README are built-ins of the
    runtime: [matchTitle s] is the first group of [s.match(/^# (.+)$/m)] and
    [matchDescription s] the first group of
    [s.match(/^# .+\n\n(.+?)(\n\n|$)/m)], [None] when there is no match. *)
Class Matcher : Type := {
  matchTitle : string -> option string;
  matchDescription : string -> option string
}.

(** the architecture documents, in the order they are looked for, each with
    the text printed for it *)
Definition docFiles : list (segments * string) :=
  [(["ARCHITECTURE.md"], "ARCHITECTURE.md");
   (["docs"; "architecture.md"], "docs/architecture.md");
   (["DESIGN.md"], "DESIGN.md");
   (["docs"; "design.md"], "docs/design.md")].

(** the [for] loop with its [break]: the first document that exists *)
Fixpoint firstExisting (w : world) (files : list (segments * string)) : option string :=
  match files with
  | [] => None
  | (path, file) :: files' =>
      if existsSync w (Rel path) then Some file else firstExisting w files'
  end.

Section ProjectContext.

Context `{Matcher}.

(** what the README contributes *)
Definition readmeContext (readme : string) : string :=
  (match matchTitle readme with
   | Some title => "Project title: " ++ title ++ newline ++ newline
   | None => ""
   end)
  ++ (match matchDescription readme with
      | Some description => "Project description: " ++ description ++ newline ++ newline
      | None => ""
      end)
  ++ "README.md found in project root." ++ newline.

Definition extractProjectContext (w : world) : result string :=
  context <- (if existsSync w (Rel ["README.md"]) then
                readme <- readFileSync w (Rel ["README.md"]) ;;
                Ok (readmeContext readme)
              else Ok "") ;;
  let context :=
    match firstExisting w docFiles with
    | Some file => context ++ "Architecture documentation found at " ++ file ++ "." ++ newline
    | None => context
    end in
  let context :=
    if existsSync w (Rel ["CONTRIBUTING.md"])
    then context ++ "Contribution guidelines found at CONTRIBUTING.md." ++ newline
    else context in
  Ok (if context =? "" then "No detailed project documentation found." else context).

End ProjectContext.

(** ** performVerification

    The function only prints what it finds; the model returns what is
    printed: whether the memory file exists, whether the manifest has an
    [mcp] script ([None] when the manifest could not be checked), whether
    the IDE configuration exists. *)
Record Verification : Type := {
  memoryFileFound : bool;
  mcpScriptFound : option bool;
  configFound : bool
}.

Section Setup.

Context `{Runtime} `{Matcher}.

(** [packageJson.scripts && packageJson.scripts.mcp] *)
Definition hasMcpScript (packageJson : json) : result bool :=
  scripts <- get_prop packageJson "scripts" ;;
  match scripts with
  | Some s =>
      if truthy s then mcp <- get_prop s "mcp" ;; Ok (truthy_opt mcp) else Ok false
  | None => Ok false
  end.

Definition performVerification (w : world) : result Verification :=
  let memory := existsSync w memoryPath in
  let script :=
    match (text <- readFileSync w packageJsonPath ;;
           packageJson <- parseJSON text ;;
           hasMcpScript packageJson) with
    | Ok found => Some found
    | Throw _ => None
    end in
  dir <- configDir w ;;
  Ok {| memoryFileFound := memory;
        mcpScriptFound := script;
        configFound := existsSync w (configPathIn dir) |}.

(** ** setupMCP

    The outcome of the [try] block: [Ok w] is the world when the ten steps
    have run and the completion message is printed, [Throw e] the error that
    the [catch] clause reports.  [setupMCP] itself returns normally in both
    cases; what a failed run leaves on disk is not part of this outcome.
    Of what is printed, the message after the analysis is kept for the
    conversion of the name that its template literal performs, which can
    throw. *)
Definition setupMCP (w : world) : result world :=
  w <- installMCPServer w ;;
  projectInfo <- analyzeProject w ;;
  _ <- ToString (name projectInfo) ;;
  w <- createDirectories w ;;
  w <- configureCursor w ;;
  w <- generateRules w projectInfo ;;
  projectContext <- extractProjectContext w ;;
  w <- createMemoryFile w projectInfo projectContext ;;
  w <- createMemoryUtilities w ;;
  w <- createCursorWorkspaceSettings w ;;
  _ <- performVerification w ;;
  Ok w.

End Setup.

(** ** A reference matcher

    The two regular expressions on texts whose line terminators are line
    feeds and carriage returns. *)
Module ReferenceMatcher.

Definition terminator (c : ascii) : bool :=
  Ascii.eqb c "010" || Ascii.eqb c "013".

(** the characters up to the first line terminator, and what follows them *)
Fixpoint line (s : string) : string * string :=
  match s with
  | EmptyString => ("", "")
  | String c s' =>
      if terminator c then ("", s)
      else let (l, r) := line s' in (String c l, r)
  end.

(** a line [# title] with a non-empty title, at the start of [s] *)
Definition heading (s : string) : option (string * string) :=
  match s with
  | String "#" (String " " rest) =>
      let (title, r) := line rest in
      if title =? "" then None else Some (title, r)
  | _ => None
  end.

Fixpoint title_from (lineStart : bool) (s : string) : option string :=
  match s with
  | EmptyString => None
  | String c s' =>
      match (if lineStart then heading s else None) with
      | Some (title, _) => Some title
      | None => title_from (terminator c) s'
      end
  end.

(** a heading followed by an empty line and a non-empty line *)
Definition described (s : string) : option string :=
  match heading s with
  | Some (_, String "010" (String "010" rest)) =>
      let (description, _) := line rest in
      if description =? "" then None else Some description
  | _ => None
  end.

Fixpoint description_from (lineStart : bool) (s : string) : option string :=
  match s with
  | EmptyString => None
  | String c s' =>
      match (if lineStart then described s else None) with
      | Some description => Some description
      | None => description_from (terminator c) s'
      end
  end.

#[export] Instance matcher : Matcher := {
  matchTitle := title_from true;
  matchDescription := description_from true
}.

End ReferenceMatcher.

(** ** More sample directories *)
Module Sample2.

Import Sample.

(** a text written with [|] in place of line feeds *)
Fixpoint lines_text (s : string) : string :=
  match s with
  | EmptyString => ""
  | String c s' => String (if Ascii.eqb c "|" then "010"%char else c) (lines_text s')
  end.

(** a documented Next.js project, before the first setup *)
Definition documented : world :=
  project
    ((manifest "{'name': 'shop', 'dependencies': {'react': '^18', 'next': '^14', 'auth0': '^4'}}"
      ++ [("README.md", text (lines_text "# Shop||A small shop front.||## Usage|"));
          ("docs", Dir true [("architecture.md", text "layers");
                             ("design.md", text "colours")]);
          ("DESIGN.md", text "sketch");
          ("src", Dir true [("features", Dir true []); ("pages", Dir true [])]);
          (".git", Dir true [])])%list).

(** the same project with the home configuration directory in place *)
Definition documentedAtHome : world :=
  {| root := Dir true
       [("home",
         Dir true
           [("dev",
             Dir true
               [("app",
                 Dir true
                   ((manifest "{'name': 'shop', 'dependencies': {'react': '^18', 'next': '^14', 'auth0': '^4'}}"
                     ++ [("README.md", text (lines_text "# Shop||A small shop front.||## Usage|"));
                         ("src", Dir true [("pages", Dir true [])])])%list))])])];
     cwd := ["home"; "dev"; "app"];
     platform := "linux";
     homedir := ["home"; "dev"];
     APPDATA := None;
     drive := "";
     now := 1683722096789;
     ticks := [1; 1]%nat |}.

(** a repository with a package three levels down *)
Definition nested (es : entries) : world :=
  {| root := Dir true
       [("srv",
         Dir true
           [("repo",
             Dir true
               [(".git", Dir true []);
                ("packages",
                 Dir true [("web", Dir true ((".git", Dangling) :: es))])])])];
     cwd := ["srv"; "repo"; "packages"; "web"];
     platform := "linux";
     homedir := ["srv"];
     APPDATA := None;
     drive := "";
     now := 0;
     ticks := [] |}.

(** a Python project with a Flask application and a Django marker *)
Definition pythonProject : world :=
  project [("requirements.txt", text "flask");
           ("app.py", text "app = Flask(__name__)");
           ("conftest.py", text "")].

(** a manifest that is not JSON *)
Definition brokenManifest : world :=
  project [("package.json", text "{name: shop}"); ("lerna.json", text "{}")].

(** a project with deep and hidden directories *)
Definition deepProject : world :=
  project
    ((manifest "{'dependencies': {'react': '^18'}}"
      ++ [("src", Dir true [("app", Dir true [("features", Dir true [])])]);
          (".cache", Dir true [("pages", Dir true [])]);
          ("node_modules", Dir true [("pages", Dir true [])])])%list).

(** a project left by an earlier run for a profile with an auth slot, with a
    directory of the user's among the rules *)
Definition staleRules : world :=
  project [(".cursor",
            Dir true
              [("rules",
                Dir true [("auth-rules.mdc", text "old auth rules");
                          ("best-practices.mdc", text "edited by hand");
                          ("archive", Dir true [])])]);
           (".mcp", Dir true [("ai_memory.json", text "{}")])].

(** the root of a monorepo with two configuration files *)
Definition workspace : world :=
  project (("lerna.json", text "{}") :: ("tsconfig.json", text "{}")
           :: (".env", text "")
           :: manifest "{'name': 'tools', 'workspaces': ['packages/*']}").

(** a profile with an authentication slot *)
Definition auth0Profile (w : world) : ProjectInfo :=
  set_auth "Auth0" (initialInfo w).

End Sample2.

(** ** Notions used in the further statements *)

(** what [fs.statSync] reports of a node *)
Definition kind (n : node) : option stats :=
  match n with
  | File _ => Some IsFile
  | Dir _ _ => Some IsDirectory
  | Dangling => None
  end.

Definition kind_at (n : node) (q : segments) : option stats :=
  match lookup n q with
  | Some x => kind x
  | None => None
  end.

(** the settings of the process, which no step changes *)
Definition sameProcess (w w' : world) : Prop :=
  cwd w' = cwd w /\ platform w' = platform w /\ homedir w' = homedir w /\
  APPDATA w' = APPDATA w /\ drive w' = drive w.

(** [w'] has every file and directory of [w]: nothing was removed, and
    nothing changed from a file into a directory or back *)
Definition keeps (w w' : world) : Prop :=
  sameProcess w w' /\
  forall q st, statSync w q = Ok st -> statSync w' q = Ok st.

(** two paths that part at some segment: neither lies on the way to the other *)
Fixpoint apart (p q : segments) : bool :=
  match p, q with
  | a :: p', b :: q' => if a =? b then apart p' q' else true
  | _, _ => false
  end.

(** the [k] first segments of the working directory hold a [.git] entry *)
Definition gitAt (w : world) (k : nat) : bool :=
  existsSync w (Abs (firstn k (cwd w) ++ [".git"])%list).

(** the labels of the three pattern slots *)
Definition authLabels : list string :=
  ["Firebase Authentication"; "Auth0"; "Clerk"; "NextAuth.js"; "Passport.js"; "Keycloak"].

Definition dataLabels : list string :=
  ["Firebase Firestore"; "Prisma"; "MongoDB (Mongoose)"; "SQL (Sequelize)"; "TypeORM";
   "React Query"; "Apollo GraphQL"; "SWR"].

Definition uiLabels : list string :=
  ["Tailwind CSS"; "Material UI"; "Chakra UI"; "Bootstrap"; "Styled Components";
   "Emotion"; "Radix UI"; "Mantine UI"; "Headless UI"].

(** a slot is unset or holds one of the given labels *)
Definition slot_among (labels : list string) (v : option string) : Prop :=
  match v with
  | Some label => In label labels
  | None => True
  end.

(** the project types *)
Definition projectTypes : list string :=
  ["unknown"; "Next.js"; "React Native"; "React"; "Vue"; "Angular"; "Svelte";
   "Node.js"; "Python"].

(** a segment that [findDir] descends into *)
Definition visited (entry : string) : bool :=
  negb (startsWith "." entry) && negb (entry =? "node_modules").

(** the rules directory is in place and no rule file is a directory *)
Definition rulesReady (w : world) : Prop :=
  statSync w (Rel CONFIG_rulesDirName) = Ok IsDirectory /\
  forall file, statSync w (rulePath file) <> Ok IsDirectory.

(** the fields of a profile that the detection from the manifest or from the
    Python markers leaves alone *)
Definition sameSetting (p q : ProjectInfo) : Prop :=
  config q = config p /\ isMonorepo q = isMonorepo p /\ repoRoot q = repoRoot p /\
  hasSourceDir q = hasSourceDir p /\ hasTestsDir q = hasTestsDir p /\
  hasDocsDir q = hasDocsDir p /\ hasScriptsDir q = hasScriptsDir p /\
  componentPattern q = componentPattern p.

(** the manifest declares workspaces *)
Definition workspacesDeclared `{Runtime} (w : world) : Prop :=
  exists text packageJson workspaces,
    readFileSync w packageJsonPath = Ok text /\
    JSON_parse text = Some packageJson /\
    get_prop packageJson "workspaces" = Ok (Some workspaces) /\
    truthy workspaces = true.

(** the framework labels and the testing labels, in the order in which the
    script looks for them *)
Definition frameworkLabels : list string :=
  ["React"; "Next.js"; "React Native"; "Vue"; "Nuxt.js"; "Angular"; "Svelte";
   "Express"; "Koa"; "Hapi"; "Fastify";
   "Redux"; "MobX"; "Zustand"; "Jotai"; "Recoil"; "Firebase"].

Definition pythonFrameworks : list string := ["Django"; "Flask"; "FastAPI"].

Definition testingLabels : list string :=
  ["Jest"; "Mocha"; "Chai"; "Cypress"; "React Testing Library"; "Vue Testing Library"].

(** [l] is [m] with some elements left out *)
Fixpoint subsequence (l m : list string) : bool :=
  match l, m with
  | [], _ => true
  | _ :: _, [] => false
  | x :: l', y :: m' => if x =? y then subsequence l' m' else subsequence l m'
  end.

(** the types that name a framework of their own *)
Definition frameworkTypes : list string :=
  ["Next.js"; "React Native"; "React"; "Vue"; "Angular"; "Svelte"].

(** the names of the component patterns *)
Definition componentPatterns : list string :=
  ["Atomic Design"; "Feature-based"; "Page-based"].

(** the labels of each detection step *)
Definition primaryLabels : list string :=
  ["React"; "Next.js"; "React Native"; "Vue"; "Nuxt.js"; "Angular"; "Svelte";
   "Express"; "Koa"; "Hapi"; "Fastify"].

Definition stateLabels : list string :=
  ["Redux"; "MobX"; "Zustand"; "Jotai"; "Recoil"].

(** the types that the manifest branch assigns *)
Definition manifestTypes : list string :=
  ["unknown"; "Next.js"; "React Native"; "React"; "Vue"; "Angular"; "Svelte"; "Node.js"].

Definition noPatterns : Patterns :=
  {| auth := None; dataManagement := None; ui := None |}.

(** a profile on which no detection step has run *)
Definition undetected (p : ProjectInfo) : Prop :=
  type p = "unknown" /\ frameworks p = [] /\ testing p = [] /\
  patterns p = noPatterns.

(** what the detection steps establish of a profile *)
Definition wellLabelled (p : ProjectInfo) : Prop :=
  In (type p) projectTypes /\
  slot_among authLabels (auth (patterns p)) /\
  slot_among dataLabels (dataManagement (patterns p)) /\
  slot_among uiLabels (ui (patterns p)) /\
  (In (type p) frameworkTypes -> In (type p) (frameworks p)) /\
  subsequence (frameworks p) (frameworkLabels ++ pythonFrameworks)%list = true /\
  subsequence (testing p) (testingLabels ++ ["pytest"; "unittest"])%list = true.

(** the files that [generateRules] can write *)
Definition ruleFiles : list string :=
  ["project-rules.mdc"; "auth-rules.mdc"; "data-management-rules.mdc";
   "ui-components-rules.mdc"; "best-practices.mdc"].

(** the rules directory is in place and no rule file is a directory; other
    entries of the rules directory are not restricted *)
Definition rulesWritable (w : world) : Prop :=
  statSync w (Rel CONFIG_rulesDirName) = Ok IsDirectory /\
  forall file, In file ruleFiles -> statSync w (rulePath file) <> Ok IsDirectory.





(** * Properties *)

(** ** Strings *)


Lemma append_empty_r (a : string) : a ++ "" = a.
Proof. induction a as [|x a IH]; simpl; [reflexivity | rewrite IH; reflexivity]. Qed.


Lemma startsWith_refl (n b : string) : startsWith n (n ++ b) = true.
Proof.
  induction n as [|c n IH]; simpl; [reflexivity|].
  rewrite Ascii.eqb_refl. exact IH.
Qed.

Lemma includes_start (n s : string) : startsWith n s = true -> includes n s = true.
Proof. intros Hs. destruct s; simpl; rewrite Hs; reflexivity. Qed.

Lemma includes_skip (n a b : string) : includes n b = true -> includes n (a ++ b) = true.
Proof.
  intros Hb. induction a as [|c a IH]; simpl; [exact Hb|].
  rewrite IH. apply orb_true_r.
Qed.








(** ** Objects *)

Lemma obj_get_app (k : string) (o1 o2 : members) :
  obj_get k (o1 ++ o2)%list =
  match obj_get k o2 with
  | Some v => Some v
  | None => obj_get k o1
  end.
Proof.
  induction o1 as [|[k1 v1] o1 IH]; simpl.
  - destruct (obj_get k o2); reflexivity.
  - rewrite IH. destruct (obj_get k o2); reflexivity.
Qed.

Lemma has_key_false_get (k : string) (o : members) :
  has_key k o = false -> obj_get k o = None.
Proof.
  unfold has_key. induction o as [|[k1 v1] o IH]; simpl; intros Hk.
  - reflexivity.
  - apply orb_false_elim in Hk. destruct Hk as [Hk1 Hk2].
    rewrite (IH Hk2), Hk1. reflexivity.
Qed.

Lemma has_key_replace (k k' : string) (v : json) (o : members) :
  has_key k' (map (fun kv => if fst kv =? k then (k, v) else kv) o) = has_key k' o.
Proof.
  unfold has_key. induction o as [|[k1 v1] o IH]; simpl.
  - reflexivity.
  - rewrite IH. destruct (k1 =? k) eqn:E; simpl; [|reflexivity].
    apply String.eqb_eq in E. subst k1. reflexivity.
Qed.

Lemma obj_get_replace_same (k : string) (v : json) (o : members) :
  has_key k o = true ->
  obj_get k (map (fun kv => if fst kv =? k then (k, v) else kv) o) = Some v.
Proof.
  unfold has_key. induction o as [|[k1 v1] o IH]; simpl; intros Hk.
  - discriminate.
  - destruct (existsb (fun kv => fst kv =? k) o) eqn:Ho.
    + rewrite IH by reflexivity. destruct (k1 =? k); reflexivity.
    + rewrite orb_false_r in Hk. rewrite Hk. simpl. rewrite String.eqb_refl.
      rewrite has_key_false_get; [reflexivity|].
      rewrite has_key_replace. exact Ho.
Qed.

Lemma obj_get_replace_other (k k' : string) (v : json) (o : members) :
  k' <> k ->
  obj_get k' (map (fun kv => if fst kv =? k then (k, v) else kv) o) = obj_get k' o.
Proof.
  intros Hne. induction o as [|[k1 v1] o IH]; simpl.
  - reflexivity.
  - rewrite IH. destruct (obj_get k' o); [destruct (k1 =? k); reflexivity|].
    destruct (k1 =? k) eqn:E; simpl.
    + apply String.eqb_eq in E. subst k1.
      apply not_eq_sym in Hne. apply String.eqb_neq in Hne. rewrite Hne. reflexivity.
    + reflexivity.
Qed.

Lemma obj_get_set_same (k : string) (v : json) (o : members) :
  obj_get k (obj_set k v o) = Some v.
Proof.
  unfold obj_set. destruct (has_key k o) eqn:Hk.
  - apply obj_get_replace_same. exact Hk.
  - rewrite obj_get_app. simpl. rewrite String.eqb_refl. reflexivity.
Qed.

Lemma obj_get_set_other (k k' : string) (v : json) (o : members) :
  k' <> k -> obj_get k' (obj_set k v o) = obj_get k' o.
Proof.
  intros Hne. unfold obj_set. destruct (has_key k o).
  - apply obj_get_replace_other. exact Hne.
  - rewrite obj_get_app. simpl.
    apply not_eq_sym in Hne. apply String.eqb_neq in Hne. rewrite Hne. reflexivity.
Qed.

(** a spread defines every property of its source and keeps the others *)
Lemma obj_get_spread_into (k : string) (src acc : members) :
  obj_get k (spread_into acc src) =
  match obj_get k src with
  | Some v => Some v
  | None => obj_get k acc
  end.
Proof.
  unfold spread_into. revert acc.
  induction src as [|[k1 v1] src IH]; intros acc; simpl.
  - reflexivity.
  - rewrite IH. destruct (obj_get k src); [reflexivity|].
    destruct (k1 =? k) eqn:E.
    + apply String.eqb_eq in E. subst k1. apply obj_get_set_same.
    + apply String.eqb_neq in E. apply obj_get_set_other.
      intros Hk. apply E. symmetry. exact Hk.
Qed.

(** ** The filesystem *)

Lemma entry_get_set_same (s : string) (n : node) (es : entries) :
  entry_get s (entry_set s n es) = Some n.
Proof.
  induction es as [|[s1 n1] es IH]; simpl.
  - rewrite String.eqb_refl. reflexivity.
  - destruct (s1 =? s) eqn:E; simpl.
    + rewrite String.eqb_refl. reflexivity.
    + rewrite E. exact IH.
Qed.

Lemma lookup_put (p : segments) : forall (n n' new : node),
  put n p new = Some n' -> lookup n' p = Some new.
Proof.
  induction p as [|s p IH]; intros n n' new Hput; simpl in *.
  - injection Hput as <-. reflexivity.
  - destruct n as [c|l es|]; try discriminate.
    destruct p as [|s2 p].
    + injection Hput as <-. simpl. rewrite entry_get_set_same. reflexivity.
    + destruct (entry_get s es) as [c|] eqn:Hc; try discriminate.
      destruct (put c (s2 :: p) new) as [c'|] eqn:Hc'; try discriminate.
      injection Hput as <-. cbn [lookup]. rewrite entry_get_set_same.
      apply (IH c c' new). exact Hc'.
Qed.

Lemma entry_set_twice (s : string) (a b : node) (es : entries) :
  entry_set s b (entry_set s a es) = entry_set s b es.
Proof.
  induction es as [|[s1 n1] es IH]; simpl.
  - rewrite String.eqb_refl. reflexivity.
  - destruct (s1 =? s) eqn:E; simpl.
    + rewrite String.eqb_refl. reflexivity.
    + rewrite E, IH. reflexivity.
Qed.

(** what a path held before it is overwritten leaves no trace *)
Lemma put_twice (p : segments) : forall (n n1 a b : node),
  put n p a = Some n1 -> put n1 p b = put n p b.
Proof.
  induction p as [|s p IH]; intros n n1 a b Ha; simpl in *.
  - reflexivity.
  - destruct n as [c|l es|]; try discriminate.
    destruct p as [|s2 p].
    + injection Ha as <-. rewrite entry_set_twice. reflexivity.
    + destruct (entry_get s es) as [c|] eqn:Hc; try discriminate.
      destruct (put c (s2 :: p) a) as [c1|] eqn:Hc1; try discriminate.
      injection Ha as <-. rewrite entry_get_set_same.
      rewrite (IH c c1 a b Hc1).
      destruct (put c (s2 :: p) b); [rewrite entry_set_twice|]; reflexivity.
Qed.

(** whatever exists can be replaced *)
Lemma put_existing (p : segments) : forall (n x new : node),
  lookup n p = Some x -> exists n', put n p new = Some n'.
Proof.
  induction p as [|s p IH]; intros n x new Hx; simpl in *.
  - eexists. reflexivity.
  - destruct n as [c|l es|]; try discriminate.
    destruct (entry_get s es) as [c|] eqn:Hc; try discriminate.
    destruct p as [|s2 p].
    + eexists. reflexivity.
    + destruct (IH c x new Hx) as [c' Hc']. rewrite Hc'. eexists. reflexivity.
Qed.

(** an entry can be created in whatever directory exists *)
Lemma put_in_directory (dir : segments) (s : string) : forall (n new : node) l es,
  lookup n dir = Some (Dir l es) -> exists n', put n (dir ++ [s])%list new = Some n'.
Proof.
  induction dir as [|d dir IH]; intros n new l es Hd; simpl in *.
  - injection Hd as ->. eexists. reflexivity.
  - destruct n as [c|l0 es0|]; try discriminate.
    destruct (entry_get d es0) as [c|] eqn:Hc; try discriminate.
    destruct (IH c new l es Hd) as [c' Hc']. rewrite Hc'.
    destruct (dir ++ [s])%list eqn:E.
    + destruct dir; discriminate.
    + eexists. reflexivity.
Qed.

Lemma node_at_with_root (r : node) (w : world) (p : fpath) :
  node_at (with_root r w) p = lookup r (resolve w p).
Proof. destruct p; reflexivity. Qed.

Lemma readFileSync_writeFileSync (w w' : world) (p : fpath) (text : string) :
  writeFileSync w p text = Ok w' -> readFileSync w' p = Ok text.
Proof.
  unfold writeFileSync, readFileSync. intros Hw.
  destruct (put (root w) (resolve w p) (File (Some text))) as [r|] eqn:Hput.
  - assert (Hw' : w' = with_root r w).
    { destruct (node_at w p) as [[c|l es|]|]; congruence. }
    subst w'. rewrite node_at_with_root, (lookup_put _ _ _ _ Hput). reflexivity.
  - destruct (node_at w p) as [[c|l es|]|]; discriminate.
Qed.

Lemma existsSync_writeFileSync (w w' : world) (p : fpath) (text : string) :
  writeFileSync w p text = Ok w' -> existsSync w' p = true.
Proof.
  intros Hw. apply readFileSync_writeFileSync in Hw.
  unfold readFileSync in Hw. unfold existsSync.
  destruct (node_at w' p) as [[[c|]|l es|]|]; try discriminate; reflexivity.
Qed.

(** writing over a file succeeds *)
Lemma writeFileSync_over_file (w : world) (p : fpath) (c : option string)
    (text : string) :
  node_at w p = Some (File c) -> exists w', writeFileSync w p text = Ok w'.
Proof.
  unfold writeFileSync, node_at. intros Hn. rewrite Hn.
  destruct (put_existing _ _ _ (File (Some text)) Hn) as [r Hr].
  rewrite Hr. eexists. reflexivity.
Qed.

Lemma writeFileSync_root (w w' : world) (p : fpath) (text : string) :
  writeFileSync w p text = Ok w' -> exists r, w' = with_root r w.
Proof.
  unfold writeFileSync. intros Hw.
  destruct (put (root w) (resolve w p) (File (Some text))) as [r|];
    destruct (node_at w p) as [[c|l es|]|]; try discriminate;
    exists r; congruence.
Qed.

(** a write makes an earlier write to the same path unobservable *)
(** whether a node can be put at a path does not depend on the node *)
Lemma put_defined (p : segments) : forall (n n1 a b : node),
  put n p a = Some n1 -> put n p b <> None.
Proof.
  induction p as [|s p IH]; intros n n1 a b Ha; simpl in *.
  - discriminate.
  - destruct n as [c|l es|]; try discriminate.
    destruct p as [|s2 p]; [discriminate|].
    destruct (entry_get s es) as [c|] eqn:Hc; try discriminate.
    destruct (put c (s2 :: p) a) as [c1|] eqn:Hc1; try discriminate.
    pose proof (IH c c1 a b Hc1) as Hb.
    destruct (put c (s2 :: p) b); [discriminate | exact Hb].
Qed.

Lemma writeFileSync_twice (w w1 : world) (p : fpath) (old text : string) :
  writeFileSync w p old = Ok w1 ->
  writeFileSync w1 p text = writeFileSync w p text.
Proof.
  unfold writeFileSync. intros Hw.
  destruct (put (root w) (resolve w p) (File (Some old))) as [r|] eqn:Hput;
    [|destruct (node_at w p) as [[c|l es|]|]; discriminate].
  assert (Hw1 : w1 = with_root r w)
    by (destruct (node_at w p) as [[c|l es|]|]; congruence).
  assert (Hnot : match node_at w p with Some (Dir _ _) => False | _ => True end)
    by (destruct (node_at w p) as [[c|l es|]|]; try exact I; discriminate).
  subst w1. rewrite node_at_with_root, (lookup_put _ _ _ _ Hput).
  change (resolve (with_root r w) p) with (resolve w p).
  change (root (with_root r w)) with r.
  rewrite (put_twice _ _ _ _ (File (Some text)) Hput).
  pose proof (put_defined _ _ _ _ (File (Some text)) Hput) as Hdef.
  destruct (node_at w p) as [[c|l es|]|]; try contradiction;
    destruct (put (root w) (resolve w p) (File (Some text)));
    first [reflexivity | destruct (Hdef eq_refl)].
Qed.

Lemma readFileSync_node (w : world) (p : fpath) (text : string) :
  readFileSync w p = Ok text -> node_at w p = Some (File (Some text)).
Proof.
  unfold readFileSync.
  destruct (node_at w p) as [[[c|]|l es|]|]; try discriminate.
  intros Hc. injection Hc as ->. reflexivity.
Qed.

Lemma readFileSync_exists (w : world) (p : fpath) (text : string) :
  readFileSync w p = Ok text -> existsSync w p = true.
Proof.
  intros Hr. apply readFileSync_node in Hr. unfold existsSync. rewrite Hr. reflexivity.
Qed.

Lemma lookup_app (p1 p2 : segments) : forall (n : node),
  lookup n (p1 ++ p2)%list =
  match lookup n p1 with
  | Some c => lookup c p2
  | None => None
  end.
Proof.
  induction p1 as [|s p1 IH]; intros n; simpl.
  - reflexivity.
  - destruct n as [c|l es|]; try reflexivity.
    destruct (entry_get s es); [apply IH | reflexivity].
Qed.

(** what lies below a path lies in a directory *)
Lemma lookup_below (n x : node) (p : segments) (s : string) :
  lookup n (p ++ [s])%list = Some x -> exists l es, lookup n p = Some (Dir l es).
Proof.
  rewrite lookup_app. destruct (lookup n p) as [[c|l es|]|]; simpl; try discriminate.
  intros _. exists l, es. reflexivity.
Qed.

Lemma statSync_directory (w : world) (p : fpath) :
  statSync w p = Ok IsDirectory -> exists l es, node_at w p = Some (Dir l es).
Proof.
  unfold statSync. destruct (node_at w p) as [[c|l es|]|]; try discriminate.
  intros _. exists l, es. reflexivity.
Qed.


Lemma writeFileSync_below_absolute (w : world) (dir : segments) (s text : string) :
  statSync w (Abs dir) = Ok IsDirectory ->
  statSync w (Abs (dir ++ [s])%list) <> Ok IsDirectory ->
  exists w', writeFileSync w (Abs (dir ++ [s])%list) text = Ok w'.
Proof.
  intros Hd He. apply statSync_directory in Hd. destruct Hd as (l & es & Hd).
  unfold node_at in Hd. simpl in Hd.
  destruct (put_in_directory _ s _ (File (Some text)) _ _ Hd) as [r Hr].
  unfold writeFileSync. unfold statSync in He.
  simpl resolve. rewrite Hr.
  destruct (node_at w (Abs (dir ++ [s])%list)) as [[c|l' es'|]|];
    try (eexists; reflexivity).
  exfalso. apply He. reflexivity.
Qed.

Section RendererProperties.

Context `{Runtime}.

(** *** The workspace settings *)

Lemma mergedSettings_ai (settings : json) (k : string) (v : json) :
  In (k, v) aiSettings -> obj_get k (mergedSettings settings) = Some v.
Proof.
  intros Hin. unfold mergedSettings. rewrite obj_get_spread_into.
  simpl in Hin.
  destruct Hin as [E|[E|[E|[E|[]]]]]; injection E as <- <-; reflexivity.
Qed.

Lemma mergedSettings_other (settings : json) (k : string) :
  has_key k aiSettings = false ->
  obj_get k (mergedSettings settings) = obj_get k (own_props settings).
Proof.
  intros Hk. unfold mergedSettings.
  rewrite obj_get_spread_into, (has_key_false_get _ _ Hk), obj_get_spread_into.
  destruct (obj_get k (own_props settings)); reflexivity.
Qed.

Lemma existsSync_cursorDir (w : world) (text : string) :
  readFileSync w settingsPath = Ok text -> existsSync w cursorDir = true.
Proof.
  intros Hr. apply readFileSync_node in Hr. unfold node_at in Hr.
  change (resolve w settingsPath) with (cwd w ++ [".cursor"; "settings.json"])%list in Hr.
  change [".cursor"; "settings.json"] with ([".cursor"] ++ ["settings.json"])%list in Hr.
  rewrite app_assoc in Hr. apply lookup_below in Hr. destruct Hr as (l & es & Hd).
  unfold existsSync, node_at. simpl resolve. rewrite Hd. reflexivity.
Qed.

(** C6: the settings document is merged shallowly.  When
    [.cursor/settings.json] exists and parses, every top-level key outside
    the four AI keys keeps its value and the four AI keys take their fixed
    values; when it does not parse, the document written holds the four AI
    keys and nothing else. *)
Theorem createCursorWorkspaceSettings_shallow_merge (w : world) (text : string) :
  readFileSync w settingsPath = Ok text ->
  exists w' merged,
    createCursorWorkspaceSettings w = Ok w' /\
    readFileSync w' settingsPath = Ok (JSON_stringify (JObject merged)) /\
    (forall k v, In (k, v) aiSettings -> obj_get k merged = Some v) /\
    match JSON_parse text with
    | Some settings =>
        forall k, has_key k aiSettings = false ->
                  obj_get k merged = obj_get k (own_props settings)
    | None => merged = aiSettings
    end.
Proof.
  intros Hr.
  pose proof (existsSync_cursorDir _ _ Hr) as Hdir.
  pose proof (readFileSync_exists _ _ _ Hr) as Hex.
  pose proof (readFileSync_node _ _ _ Hr) as Hnode.
  destruct (writeFileSync_over_file w settingsPath _
              (JSON_stringify (JObject (mergedSettings (existingSettings w)))) Hnode)
    as [w' Hw'].
  exists w', (mergedSettings (existingSettings w)).
  unfold createCursorWorkspaceSettings. rewrite Hdir. cbn [bind].
  split; [exact Hw'|].
  split; [exact (readFileSync_writeFileSync _ _ _ _ Hw')|].
  split; [intros k v; apply mergedSettings_ai|].
  unfold existingSettings, parseJSON. rewrite Hex, Hr. cbn [bind].
  destruct (JSON_parse text) as [settings|].
  - intros k. apply mergedSettings_other.
  - reflexivity.
Qed.

(** *** The manifest rewrite *)

Lemma addMcpScript_object (o scripts : members) :
  scriptsTable o = Some scripts ->
  exists o' scripts',
    addMcpScript (JObject o) = Ok (JObject o') /\
    (forall k, k <> "scripts" -> obj_get k o' = obj_get k o) /\
    obj_get "scripts" o' = Some (JObject scripts') /\
    obj_get "mcp" scripts' = Some (JString mcpScript) /\
    (forall k, k <> "mcp" -> obj_get k scripts' = obj_get k scripts).
Proof.
  unfold scriptsTable, addMcpScript. intros Ht.
  assert (Hcases :
            (obj_get "scripts" o = Some (JObject scripts))
            \/ (truthy_opt (obj_get "scripts" o) = false /\ scripts = [])).
  { destruct (obj_get "scripts" o) as [v|];
      [|right; split; [reflexivity|congruence]].
    destruct v as [|b|r|t|items|s]; simpl in Ht |- *.
    - right. split; [reflexivity|congruence].
    - destruct b; [discriminate|]. right. split; [reflexivity|congruence].
    - destruct (r =? "0"); simpl in Ht; [|discriminate].
      right. split; [reflexivity|congruence].
    - destruct (t =? ""); simpl in Ht; [|discriminate].
      right. split; [reflexivity|congruence].
    - discriminate.
    - left. congruence. }
  destruct Hcases as [Hs|[Hfalsy ->]].
  - rewrite Hs. simpl truthy_opt. cbv iota. rewrite Hs.
    exists (obj_set "scripts" (JObject (obj_set "mcp" (JString mcpScript) scripts)) o),
           (obj_set "mcp" (JString mcpScript) scripts).
    split; [reflexivity|].
    split; [intros k Hk; apply obj_get_set_other; exact Hk|].
    split; [apply obj_get_set_same|].
    split; [apply obj_get_set_same|].
    intros k Hk. apply obj_get_set_other. exact Hk.
  - rewrite Hfalsy. rewrite obj_get_set_same.
    exists (obj_set "scripts" (JObject (obj_set "mcp" (JString mcpScript) []))
                    (obj_set "scripts" (JObject []) o)),
           (obj_set "mcp" (JString mcpScript) []).
    split; [reflexivity|].
    split; [intros k Hk; rewrite !obj_get_set_other by exact Hk; reflexivity|].
    split; [apply obj_get_set_same|].
    split; [apply obj_get_set_same|].
    intros k Hk. apply obj_get_set_other. exact Hk.
Qed.

Lemma addMcpScript_lost (o : members) :
  scriptsTable o = None -> addMcpScript (JObject o) = Ok (JObject o).
Proof.
  unfold scriptsTable, addMcpScript.
  destruct (obj_get "scripts" o) as [v|] eqn:Hs; [|discriminate].
  destruct v as [|b|r|t|items|scripts]; cbn [truthy_opt truthy]; try discriminate.
  - destruct b; [|discriminate]. rewrite Hs. reflexivity.
  - destruct (negb (r =? "0")); [|discriminate]. rewrite Hs. reflexivity.
  - destruct (negb (t =? "")); [|discriminate]. rewrite Hs. reflexivity.
  - rewrite Hs. reflexivity.
Qed.

(** C9: the manifest read after the npm calls is written back with every
    top-level field and every entry of [scripts] as it was, [scripts.mcp]
    apart.  When the manifest is an object whose [scripts] field is absent,
    falsy or an object, [scripts.mcp] is bound to the launch command,
    whether or not it was bound before.  When [scripts] holds a truthy
    value that is not an object, or the manifest is an array, the
    assignment leaves no trace and the manifest is written back unchanged.
    When the manifest is [null] or another primitive the installation
    fails. *)
Theorem installMCPServer_rewrites_only_mcp_script
    (w w1 : world) (text : string) (packageJson : json) :
  installPackage w = Ok w1 ->
  readFileSync w1 packageJsonPath = Ok text ->
  JSON_parse text = Some packageJson ->
  match packageJson with
  | JObject o =>
      match scriptsTable o with
      | Some scripts =>
          exists w2 o' scripts',
            installMCPServer w = Ok w2 /\
            readFileSync w2 packageJsonPath = Ok (JSON_stringify (JObject o')) /\
            (forall k, k <> "scripts" -> obj_get k o' = obj_get k o) /\
            obj_get "scripts" o' = Some (JObject scripts') /\
            obj_get "mcp" scripts'
              = Some (JString "modelcontextprotocol-memory-server --port 3002") /\
            (forall k, k <> "mcp" -> obj_get k scripts' = obj_get k scripts)
      | None =>
          exists w2,
            installMCPServer w = Ok w2 /\
            readFileSync w2 packageJsonPath = Ok (JSON_stringify (JObject o))
      end
  | JArray items =>
      exists w2,
        installMCPServer w = Ok w2 /\
        readFileSync w2 packageJsonPath = Ok (JSON_stringify (JArray items))
  | _ => installMCPServer w = Throw (InstallError TypeError)
  end.
Proof.
  intros Hinst Hr Hp.
  pose proof (readFileSync_node _ _ _ Hr) as Hnode.
  assert (Hwrite : forall v,
             addMcpScript packageJson = Ok v ->
             exists w2, installMCPServer w = Ok w2 /\
                        readFileSync w2 packageJsonPath = Ok (JSON_stringify v)).
  { intros v Ha.
    destruct (writeFileSync_over_file w1 packageJsonPath _ (JSON_stringify v) Hnode)
      as [w2 Hw2].
    exists w2. split; [|exact (readFileSync_writeFileSync _ _ _ _ Hw2)].
    unfold installMCPServer, updatePackageJson, parseJSON.
    rewrite Hinst. cbn [bind]. rewrite Hr. cbn [bind]. rewrite Hp. cbn [bind].
    rewrite Ha. cbn [bind]. rewrite Hw2. reflexivity. }
  assert (Hfail : addMcpScript packageJson = Throw TypeError ->
                  installMCPServer w = Throw (InstallError TypeError)).
  { intros Ha. unfold installMCPServer, updatePackageJson, parseJSON.
    rewrite Hinst. cbn [bind]. rewrite Hr. cbn [bind]. rewrite Hp. cbn [bind].
    rewrite Ha. reflexivity. }
  destruct packageJson as [|b|r|t|items|o]; try (apply Hfail; reflexivity).
  - exact (Hwrite _ eq_refl).
  - destruct (scriptsTable o) as [scripts|] eqn:Ht.
    + destruct (addMcpScript_object o scripts Ht) as (o' & scripts' & Ha & Hrest).
      destruct (Hwrite _ Ha) as (w2 & Hw2 & Hread).
      exists w2, o', scripts'. split; [exact Hw2|]. split; [exact Hread | exact Hrest].
    + exact (Hwrite _ (addMcpScript_lost o Ht)).
Qed.

(** *** The IDE-global configuration *)

(** C10: [configureCursor] replaces [claude_desktop_config.json], whatever
    it held and whether or not it existed, by the fixed document with the
    launch command and the [MEMORY_FILE_PATH] variable; the old content has
    no part in the result: had the file held any other text, the world
    afterwards would be the same. *)
Theorem configureCursor_overwrites (w : world) (dir : segments) :
  configDir w = Ok dir ->
  statSync w (Abs dir) = Ok IsDirectory ->
  statSync w (configPathIn dir) <> Ok IsDirectory ->
  exists w',
    configureCursor w = Ok w' /\
    readFileSync w' (configPathIn dir) =
    Ok (JSON_stringify
          (JObject
             [("mcp",
               JObject
                 [("server",
                   JObject
                     [("command",
                       JString "npx modelcontextprotocol-memory-server --port 3002");
                      ("env",
                       JObject
                         [("MEMORY_FILE_PATH",
                           JString (path_text w (cwd w ++ [".mcp"; "ai_memory.json"])%list))])])])])) /\
    (forall old w0,
        writeFileSync w (configPathIn dir) old = Ok w0 ->
        configureCursor w0 = Ok w').
Proof.
  intros Hdir Hd Hfile.
  assert (Hex : existsSync w (Abs dir) = true).
  { apply statSync_directory in Hd. destruct Hd as (l & es & Hd).
    unfold existsSync. rewrite Hd. reflexivity. }
  destruct (writeFileSync_below_absolute w dir "claude_desktop_config.json"
              (JSON_stringify (cursorConfig
                 (path_text w (cwd w ++ [CONFIG_memoryDirName; CONFIG_memoryFileName])%list)))
              Hd Hfile) as [w' Hw'].
  exists w'. unfold configureCursor. rewrite Hdir. cbn [bind]. rewrite Hex. cbn [bind].
  split; [exact Hw'|].
  split; [exact (readFileSync_writeFileSync _ _ _ _ Hw')|].
  intros old w0 Hold.
  assert (Hex0 : existsSync w0 (Abs dir) = true).
  { pose proof (readFileSync_node _ _ _ (readFileSync_writeFileSync _ _ _ _ Hold)) as Hn.
    unfold node_at, configPathIn in Hn. simpl resolve in Hn.
    apply lookup_below in Hn. destruct Hn as (l & es & Hn).
    unfold existsSync, node_at. simpl resolve. rewrite Hn. reflexivity. }
  destruct (writeFileSync_root _ _ _ _ Hold) as [r Hr].
  assert (Hdir0 : configDir w0 = Ok dir) by (subst w0; exact Hdir).
  rewrite Hdir0. cbn [bind]. rewrite Hex0. cbn [bind].
  replace (path_text w0 (cwd w0 ++ [CONFIG_memoryDirName; CONFIG_memoryFileName])%list)
    with (path_text w (cwd w ++ [CONFIG_memoryDirName; CONFIG_memoryFileName])%list)
    by (subst w0; reflexivity).
  rewrite (writeFileSync_twice _ _ _ _ _ Hold). exact Hw'.
Qed.

(** *** The best-practices rule *)


End RendererProperties.

(** a file can be written into an existing directory, over whatever is not a
    directory *)
Lemma writeFileSync_file_in_directory (w : world) (dir : segments) (s text : string) :
  statSync w (Rel dir) = Ok IsDirectory ->
  statSync w (Rel (dir ++ [s])%list) <> Ok IsDirectory ->
  exists w', writeFileSync w (Rel (dir ++ [s])%list) text = Ok w'.
Proof.
  intros Hd He. apply statSync_directory in Hd. destruct Hd as (l & es & Hd).
  unfold node_at in Hd. simpl in Hd.
  destruct (put_in_directory _ s _ (File (Some text)) _ _ Hd) as [r Hr].
  unfold writeFileSync. unfold statSync in He.
  simpl resolve. rewrite app_assoc, Hr.
  destruct (node_at w (Rel (dir ++ [s])%list)) as [[c|l' es'|]|];
    try (eexists; reflexivity).
  exfalso. apply He. reflexivity.
Qed.

Section MemoryFileProperties.

Context `{Runtime}.






End MemoryFileProperties.

(** ** The fingerprinter *)

Ltac branches :=
  repeat match goal with
         | |- context [if ?b then _ else _] => destruct b
         end.

(** *** What each detection step leaves alone *)

Lemma detectTesting_frame (deps : members) (p : ProjectInfo) :
  type (detectTesting deps p) = type p /\
  frameworks (detectTesting deps p) = frameworks p /\
  patterns (detectTesting deps p) = patterns p.
Proof. unfold detectTesting, when. branches; repeat split; reflexivity. Qed.

Lemma detectState_frame (deps : members) (p : ProjectInfo) :
  type (detectState deps p) = type p /\
  patterns (detectState deps p) = patterns p /\
  exists added, frameworks (detectState deps p) = (frameworks p ++ added)%list.
Proof.
  split; [|split].
  - unfold detectState, when. branches; reflexivity.
  - unfold detectState, when. branches; reflexivity.
  - exists ((if dep deps "redux" || dep deps "@reduxjs/toolkit" then ["Redux"] else [])
            ++ (if dep deps "mobx" then ["MobX"] else [])
            ++ (if dep deps "zustand" then ["Zustand"] else [])
            ++ (if dep deps "jotai" then ["Jotai"] else [])
            ++ (if dep deps "recoil" then ["Recoil"] else []))%list.
    unfold detectState, when. branches; cbn [frameworks push_framework];
      rewrite <- ?app_assoc; cbn [app]; rewrite ?app_nil_r; reflexivity.
Qed.

Lemma detectAuth_frame (deps : members) (p : ProjectInfo) :
  type (detectAuth deps p) = type p /\
  dataManagement (patterns (detectAuth deps p)) = dataManagement (patterns p) /\
  ui (patterns (detectAuth deps p)) = ui (patterns p) /\
  exists added, frameworks (detectAuth deps p) = (frameworks p ++ added)%list.
Proof.
  split; [|split; [|split]].
  - unfold detectAuth. branches; reflexivity.
  - unfold detectAuth. branches; reflexivity.
  - unfold detectAuth. branches; reflexivity.
  - exists (if dep deps "firebase" || dep deps "firebase-admin" then ["Firebase"] else []).
    unfold detectAuth. branches; cbn [frameworks set_auth set_patterns push_framework];
      rewrite ?app_nil_r; reflexivity.
Qed.

Lemma detectData_frame (deps : members) (p : ProjectInfo) :
  type (detectData deps p) = type p /\
  frameworks (detectData deps p) = frameworks p /\
  auth (patterns (detectData deps p)) = auth (patterns p) /\
  ui (patterns (detectData deps p)) = ui (patterns p).
Proof. unfold detectData. branches; repeat split; reflexivity. Qed.

Lemma detectUI_frame (deps : members) (p : ProjectInfo) :
  type (detectUI deps p) = type p /\
  frameworks (detectUI deps p) = frameworks p /\
  auth (patterns (detectUI deps p)) = auth (patterns p) /\
  dataManagement (patterns (detectUI deps p)) = dataManagement (patterns p).
Proof. unfold detectUI. branches; repeat split; reflexivity. Qed.

(** how the result of the manifest branch reads off its six passes *)
Lemma detectFromDeps_type (deps : members) (p : ProjectInfo) :
  type (detectFromDeps deps p) = type (detectPrimary deps (detectTesting deps p)).
Proof.
  unfold detectFromDeps.
  rewrite (proj1 (detectUI_frame _ _)), (proj1 (detectData_frame _ _)),
          (proj1 (detectAuth_frame _ _)), (proj1 (detectState_frame _ _)).
  reflexivity.
Qed.

Lemma detectFromDeps_auth (deps : members) (p : ProjectInfo) :
  auth (patterns (detectFromDeps deps p))
  = auth (patterns (detectAuth deps (detectState deps
            (detectPrimary deps (detectTesting deps p))))).
Proof.
  unfold detectFromDeps.
  rewrite (proj1 (proj2 (proj2 (detectUI_frame _ _)))),
          (proj1 (proj2 (proj2 (detectData_frame _ _)))).
  reflexivity.
Qed.

Lemma detectFromDeps_dataManagement (deps : members) (p : ProjectInfo) :
  dataManagement (patterns (detectFromDeps deps p))
  = dataManagement (patterns (detectData deps (detectAuth deps (detectState deps
            (detectPrimary deps (detectTesting deps p)))))).
Proof.
  unfold detectFromDeps.
  rewrite (proj2 (proj2 (proj2 (detectUI_frame _ _)))). reflexivity.
Qed.

Lemma detectFromDeps_frameworks (deps : members) (p : ProjectInfo) :
  frameworks (detectFromDeps deps p)
  = frameworks (detectAuth deps (detectState deps
            (detectPrimary deps (detectTesting deps p)))).
Proof.
  unfold detectFromDeps.
  rewrite (proj1 (proj2 (detectUI_frame _ _))), (proj1 (proj2 (detectData_frame _ _))).
  reflexivity.
Qed.

Lemma scanConfigFiles_frame (w : world) (p : ProjectInfo) :
  name (scanConfigFiles w p) = name p /\
  type (scanConfigFiles w p) = type p /\
  frameworks (scanConfigFiles w p) = frameworks p /\
  patterns (scanConfigFiles w p) = patterns p /\
  testing (scanConfigFiles w p) = testing p /\
  isMonorepo (scanConfigFiles w p) = isMonorepo p /\
  repoRoot (scanConfigFiles w p) = repoRoot p.
Proof.
  unfold scanConfigFiles. generalize configFiles. intros files. revert p.
  induction files as [|file files IH]; intros p; simpl.
  - repeat split; reflexivity.
  - destruct (IH (when (existsSync w (Rel [file])) (push_config file) p))
      as (H1 & H2 & H3 & H4 & H5 & H6 & H7).
    rewrite H1, H2, H3, H4, H5, H6, H7.
    unfold when. destruct (existsSync w (Rel [file])); repeat split; reflexivity.
Qed.

Lemma scanConfigFiles_config (w : world) (p : ProjectInfo) :
  config (scanConfigFiles w p)
  = (config p ++ filter (fun file => existsSync w (Rel [file])) configFiles)%list.
Proof.
  unfold scanConfigFiles. generalize configFiles. intros files. revert p.
  induction files as [|file files IH]; intros p; simpl.
  - rewrite app_nil_r. reflexivity.
  - rewrite IH. unfold when. destruct (existsSync w (Rel [file])); simpl.
    + rewrite <- app_assoc. reflexivity.
    + reflexivity.
Qed.

Lemma findRepoRoot_frame (w : world) (p : ProjectInfo) :
  name (findRepoRoot w p) = name p /\
  type (findRepoRoot w p) = type p /\
  frameworks (findRepoRoot w p) = frameworks p /\
  patterns (findRepoRoot w p) = patterns p /\
  testing (findRepoRoot w p) = testing p /\
  config (findRepoRoot w p) = config p /\
  isMonorepo (findRepoRoot w p) = isMonorepo p.
Proof. unfold findRepoRoot. branches; repeat split; reflexivity. Qed.

(** *** The structural scan *)

Lemma scanStructure_detected (w : world) (p q : ProjectInfo) :
  scanStructure w p = Ok q -> sameDetection p q.
Proof.
  unfold scanStructure. destruct (readdirSync w (Rel [])) as [names|e]; cbn [bind];
    [|discriminate].
  destruct (filter_r _ names) as [dirs|e]; cbn [bind]; [|discriminate].
  intros E. injection E as <-. repeat split; reflexivity.
Qed.

Lemma analyzeStructure_detected (w : world) (p : ProjectInfo) :
  sameDetection p (analyzeStructure w p).
Proof.
  unfold analyzeStructure. destruct (scanStructure w p) as [q|e] eqn:E.
  - exact (scanStructure_detected _ _ _ E).
  - repeat split; reflexivity.
Qed.

Lemma filter_r_throws {A : Type} (f : A -> result bool) (l : list A) (x : A) (e : exn) :
  In x l -> f x = Throw e -> is_ok (filter_r f l) = false.
Proof.
  induction l as [|y l IH]; simpl; intros Hin Hx.
  - destruct Hin.
  - destruct Hin as [->|Hin].
    + rewrite Hx. reflexivity.
    + destruct (f y) as [b|e']; cbn [bind]; [|reflexivity].
      specialize (IH Hin Hx). destruct (filter_r f l); [discriminate|reflexivity].
Qed.

Lemma detectFromDeps_config (deps : members) (p : ProjectInfo) :
  config (detectFromDeps deps p) = config p.
Proof.
  unfold detectFromDeps.
  assert (Hui : forall q, config (detectUI deps q) = config q)
    by (intros q; unfold detectUI; branches; reflexivity).
  assert (Hdata : forall q, config (detectData deps q) = config q)
    by (intros q; unfold detectData; branches; reflexivity).
  assert (Hauth : forall q, config (detectAuth deps q) = config q)
    by (intros q; unfold detectAuth; branches; reflexivity).
  assert (Hstate : forall q, config (detectState deps q) = config q)
    by (intros q; unfold detectState, when; branches; reflexivity).
  assert (Hprim : forall q, config (detectPrimary deps q) = config q)
    by (intros q; unfold detectPrimary, when; branches; reflexivity).
  assert (Htest : forall q, config (detectTesting deps q) = config q)
    by (intros q; unfold detectTesting, when; branches; reflexivity).
  rewrite Hui, Hdata, Hauth, Hstate, Hprim, Htest. reflexivity.
Qed.

Lemma detectPython_config (w : world) (p q : ProjectInfo) :
  detectPython w p = Ok q -> config q = config p.
Proof.
  unfold detectPython, existsOrMentions, when. intros Hq.
  repeat (cbn [bind] in Hq;
          match type of Hq with
          | context [if ?b then _ else _] => destruct b
          | context [bind (pySourceMentions ?w0 ?n) _] =>
              destruct (pySourceMentions w0 n)
          end);
    try discriminate; injection Hq as <-; reflexivity.
Qed.

Section FingerprinterProperties.

Context `{Runtime}.

Lemma detectEcosystem_config (w : world) (p q : ProjectInfo) :
  detectEcosystem w p = Ok q -> config q = config p.
Proof.
  unfold detectEcosystem, detectPackageJson. intros Hq.
  destruct (existsSync w packageJsonPath).
  - destruct (readFileSync w packageJsonPath); cbn [bind] in Hq; [|discriminate].
    destruct (parseJSON a) as [v|]; cbn [bind] in Hq; [|discriminate].
    destruct (get_prop v "name"); cbn [bind] in Hq; [|discriminate].
    destruct (get_prop v "dependencies"); cbn [bind] in Hq; [|discriminate].
    destruct (get_prop v "devDependencies"); cbn [bind] in Hq; [|discriminate].
    injection Hq as <-. rewrite detectFromDeps_config. reflexivity.
  - destruct (hasPythonMarker w).
    + exact (detectPython_config _ _ _ Hq).
    + injection Hq as <-. reflexivity.
Qed.

(** the configuration files recorded are those that exist, in list order *)
Lemma detectProject_config (w : world) (p : ProjectInfo) :
  detectProject w = Ok p ->
  config p = filter (fun file => existsSync w (Rel [file])) configFiles.
Proof.
  unfold detectProject. intros Hp.
  destruct (detectMonorepo w (findRepoRoot w (initialInfo w))) as [p2|e] eqn:Hm;
    cbn [bind] in Hp; [|discriminate].
  rewrite (detectEcosystem_config _ _ _ Hp), scanConfigFiles_config.
  assert (Hc : config p2 = []).
  { unfold detectMonorepo in Hm.
    repeat (cbn [bind] in Hm;
            match type of Hm with
            | context [if ?b then _ else _] => destruct b
            | context [bind (readFileSync ?w0 ?f) _] => destruct (readFileSync w0 f)
            | context [bind (parseJSON ?t) _] => destruct (parseJSON t)
            | context [bind (get_prop ?v ?k) _] => destruct (get_prop v k)
            end);
      try discriminate; injection Hm as <-; cbn [config set_isMonorepo];
      rewrite (proj1 (proj2 (proj2 (proj2 (proj2 (proj2 (findRepoRoot_frame w _)))))));
      reflexivity. }
  rewrite Hc. reflexivity.
Qed.

(** once the earlier steps have succeeded, so does the whole analysis *)
Lemma analyzeProject_detected (w : world) (p : ProjectInfo) :
  detectProject w = Ok p ->
  analyzeProject w = Ok (analyzeStructure w p) /\
  sameDetection p (analyzeStructure w p).
Proof.
  intros Hp. split.
  - unfold analyzeProject. rewrite Hp. reflexivity.
  - apply analyzeStructure_detected.
Qed.

(** the analysis throws exactly when one of the earlier steps does *)
Lemma analyzeProject_throws (w : world) (e : exn) :
  analyzeProject w = Throw e <-> detectProject w = Throw e.
Proof.
  unfold analyzeProject. destruct (detectProject w) as [p|e']; cbn [bind].
  - split; discriminate.
  - reflexivity.
Qed.

(** C1: an error of the structural scan (the listing of the working
    directory, or the inspection of one of its entries) is caught: once the
    earlier steps have produced a profile, [analyzeProject] returns, the
    fields those steps detected are kept, and a failed scan adds nothing.
    The configuration files recorded are those that exist: their scan only
    tests existence, which cannot throw. *)
Theorem analyzeProject_catches_structure_errors (w : world) (p : ProjectInfo) :
  detectProject w = Ok p ->
  exists q,
    analyzeProject w = Ok q /\
    sameDetection p q /\
    config q = filter (fun file => existsSync w (Rel [file])) configFiles /\
    (forall e, readdirSync w (Rel []) = Throw e -> q = p) /\
    (forall names f e,
        readdirSync w (Rel []) = Ok names -> In f names ->
        statSync w (Rel [f]) = Throw e -> q = p).
Proof.
  intros Hp. exists (analyzeStructure w p).
  destruct (analyzeProject_detected _ _ Hp) as [Hq Hsame].
  split; [exact Hq|].
  split; [exact Hsame|].
  split.
  { destruct Hsame as (_ & _ & _ & _ & _ & Hc & _).
    rewrite Hc. apply detectProject_config. exact Hp. }
  split.
  - intros e He. unfold analyzeStructure, scanStructure. rewrite He. reflexivity.
  - intros names f e Hn Hin Hf. unfold analyzeStructure, scanStructure.
    rewrite Hn. cbn [bind].
    pose proof (filter_r_throws
                  (fun f => st <- statSync w (Rel [f]) ;; Ok (isDirectory st))
                  names f e Hin) as Hthrow.
    cbv beta in Hthrow. rewrite Hf in Hthrow. specialize (Hthrow eq_refl).
    destruct (filter_r _ names); [discriminate|reflexivity].
Qed.

Lemma filter_none {A : Type} (f : A -> bool) (l : list A) :
  forallb (fun x => negb (f x)) l = true -> filter f l = [].
Proof.
  induction l as [|x l IH]; simpl; intros Hall.
  - reflexivity.
  - apply andb_true_iff in Hall. destruct Hall as [Hx Hl].
    destruct (f x); [discriminate|]. apply IH. exact Hl.
Qed.

(** C2: in a working directory without any of the recognized markers the
    profile is returned, with type [unknown], no framework and the three
    pattern slots unset (and no configuration file, no monorepo flag). *)
Theorem analyzeProject_unknown (w : world) :
  noMarkers w = true ->
  exists p,
    analyzeProject w = Ok p /\
    type p = "unknown" /\
    frameworks p = [] /\
    auth (patterns p) = None /\
    dataManagement (patterns p) = None /\
    ui (patterns p) = None /\
    config p = [] /\
    isMonorepo p = false.
Proof.
  unfold noMarkers. intros Hno.
  apply andb_true_iff in Hno. destruct Hno as [Hno Hcfg].
  apply andb_true_iff in Hno. destruct Hno as [Hno Hpnpm].
  apply andb_true_iff in Hno. destruct Hno as [Hno Hlerna].
  apply andb_true_iff in Hno. destruct Hno as [Hno _].
  apply andb_true_iff in Hno. destruct Hno as [Hpkg Hpy].
  apply negb_true_iff in Hpkg, Hpy, Hlerna, Hpnpm.
  set (p1 := findRepoRoot w (initialInfo w)).
  assert (Hd : detectProject w = Ok (scanConfigFiles w p1)).
  { unfold detectProject, detectMonorepo, detectEcosystem. fold p1.
    rewrite Hlerna, Hpnpm, Hpkg, Hpy. reflexivity. }
  destruct (analyzeProject_detected _ _ Hd)
    as (Hq & (_ & Ht & Hf & Hpat & _ & Hc & Hm & _)).
  destruct (scanConfigFiles_frame w p1) as (_ & Ht1 & Hf1 & Hpat1 & _ & Hm1 & _).
  destruct (findRepoRoot_frame w (initialInfo w))
    as (_ & Ht0 & Hf0 & Hpat0 & _ & Hc0 & Hm0).
  fold p1 in Ht0, Hf0, Hpat0, Hc0, Hm0.
  exists (analyzeStructure w (scanConfigFiles w p1)). split; [exact Hq|].
  rewrite Ht, Hf, Hpat, Hc, Hm, Ht1, Hf1, Hpat1, Hm1, Ht0, Hf0, Hpat0, Hm0.
  rewrite scanConfigFiles_config, Hc0.
  rewrite (filter_none _ _ Hcfg).
  repeat split; reflexivity.
Qed.

(** *** The manifest branch *)

Lemma detectProject_manifest (w : world) (text : string) (o : members) :
  readFileSync w packageJsonPath = Ok text ->
  JSON_parse text = Some (JObject o) ->
  exists p0,
    detectProject w = Ok (detectFromDeps (manifestDeps (JObject o)) p0) /\
    type p0 = "unknown" /\
    frameworks p0 = [] /\
    patterns p0 = {| auth := None; dataManagement := None; ui := None |}.
Proof.
  intros Hr Hp. pose proof (readFileSync_exists _ _ _ Hr) as Hex.
  set (p1 := findRepoRoot w (initialInfo w)).
  assert (Hm : exists b : bool,
             detectMonorepo w p1 = Ok (if b then set_isMonorepo true p1 else p1)).
  { unfold detectMonorepo, parseJSON. rewrite Hex, Hr. cbn [bind]. rewrite Hp.
    cbn [bind get_prop].
    destruct (existsSync w (Rel ["lerna.json"])); [exists true; reflexivity|].
    destruct (existsSync w (Rel ["pnpm-workspace.yaml"])); [exists true; reflexivity|].
    destruct (truthy_opt (obj_get "workspaces" o));
      [exists true; reflexivity | exists false; reflexivity]. }
  destruct Hm as [b Hm].
  set (p2 := if b then set_isMonorepo true p1 else p1) in Hm.
  exists (set_name (declaredName (obj_get "name" o) (scanConfigFiles w p2))
                   (scanConfigFiles w p2)).
  split.
  - unfold detectProject. fold p1. rewrite Hm. cbn [bind].
    unfold detectEcosystem, detectPackageJson, parseJSON.
    rewrite Hex, Hr. cbn [bind]. rewrite Hp. reflexivity.
  - cbn [type frameworks patterns set_name].
    destruct (scanConfigFiles_frame w p2) as (_ & Ht & Hf & Hpat & _).
    rewrite Ht, Hf, Hpat.
    destruct (findRepoRoot_frame w (initialInfo w)) as (_ & Ht0 & Hf0 & Hpat0 & _).
    fold p1 in Ht0, Hf0, Hpat0.
    unfold p2. destruct b; cbn [type frameworks patterns set_isMonorepo];
      rewrite Ht0, Hf0, Hpat0; repeat split; reflexivity.
Qed.

(** a table with a truthy binding belongs to a manifest that is an object *)
Lemma manifestDeps_object (packageJson : json) (k : string) :
  dep (manifestDeps packageJson) k = true -> exists o, packageJson = JObject o.
Proof.
  destruct packageJson as [| | | | |o]; try discriminate.
  intros _. exists o. reflexivity.
Qed.

Lemma analyzeProject_manifest (w : world) (text : string) (o : members) :
  readFileSync w packageJsonPath = Ok text ->
  JSON_parse text = Some (JObject o) ->
  exists p0 p,
    analyzeProject w = Ok p /\
    type p = type (detectFromDeps (manifestDeps (JObject o)) p0) /\
    frameworks p = frameworks (detectFromDeps (manifestDeps (JObject o)) p0) /\
    patterns p = patterns (detectFromDeps (manifestDeps (JObject o)) p0) /\
    type p0 = "unknown" /\
    frameworks p0 = [] /\
    patterns p0 = {| auth := None; dataManagement := None; ui := None |}.
Proof.
  intros Hr Hp.
  destruct (detectProject_manifest w text o Hr Hp) as (p0 & Hd & H0).
  destruct (analyzeProject_detected _ _ Hd) as (Hq & (_ & Ht & Hf & Hpat & _)).
  exists p0, (analyzeStructure w (detectFromDeps (manifestDeps (JObject o)) p0)).
  repeat split; try assumption; apply H0.
Qed.

End FingerprinterProperties.

(** *** What the cascades select *)

Lemma detectPrimary_none (deps : members) (p : ProjectInfo) :
  (forall k, In k primaryKeys -> dep deps k = false) ->
  detectPrimary deps p = p.
Proof.
  intros Hk. unfold detectPrimary.
  rewrite (Hk "react"), (Hk "vue"), (Hk "angular"), (Hk "svelte"), (Hk "express"),
          (Hk "koa"), (Hk "hapi"), (Hk "fastify") by (simpl; tauto).
  reflexivity.
Qed.

Lemma detectPrimary_next (deps : members) (p : ProjectInfo) :
  dep deps "react" = true ->
  dep deps "next" = true ->
  detectPrimary deps p
  = push_framework "Next.js" (set_type "Next.js" (push_framework "React" p)).
Proof. intros Hr Hn. unfold detectPrimary. rewrite Hr, Hn. reflexivity. Qed.

Lemma detectAuth_label (deps : members) (p : ProjectInfo) (key label : string) :
  In (key, label) authLibraries ->
  dep deps key = true ->
  (forall k l, In (k, l) authLibraries -> k <> key -> dep deps k = false) ->
  auth (patterns (detectAuth deps p)) = Some label.
Proof.
  intros Hin Hkey Hothers.
  assert (Hk : forall k l, In (k, l) authLibraries -> dep deps k = (k =? key)).
  { intros k l Hkl. destruct (String.eqb_spec k key) as [->|Hne].
    - exact Hkey.
    - exact (Hothers k l Hkl Hne). }
  unfold detectAuth.
  rewrite (Hk "firebase" "Firebase Authentication"),
          (Hk "firebase-admin" "Firebase Authentication"),
          (Hk "auth0" "Auth0"), (Hk "@clerk/nextjs" "Clerk"),
          (Hk "@clerk/clerk-react" "Clerk"), (Hk "next-auth" "NextAuth.js"),
          (Hk "passport" "Passport.js"), (Hk "keycloak" "Keycloak")
    by (simpl; tauto).
  simpl in Hin.
  repeat (destruct Hin as [E|Hin]; [injection E as <- <-; reflexivity|]).
  destruct Hin.
Qed.

Lemma detectAuth_firebase (deps : members) (p : ProjectInfo) :
  dep deps "firebase" || dep deps "firebase-admin" = true ->
  detectAuth deps p = set_auth "Firebase Authentication" (push_framework "Firebase" p).
Proof. intros Hf. unfold detectAuth. rewrite Hf. reflexivity. Qed.

Lemma detectData_firebase (deps : members) (p : ProjectInfo) :
  dep deps "firebase" || dep deps "firebase-admin" = true ->
  detectData deps p = set_dataManagement "Firebase Firestore" p.
Proof. intros Hf. unfold detectData. rewrite Hf. reflexivity. Qed.

Section ManifestProperties.

Context `{Runtime}.

(** C3: the auth slot does not depend on the primary type.  When the merged
    table binds one known authentication library to a truthy value, binds no
    other one so, and binds none of the keys of the primary chain so, the
    auth slot holds the label of that library and the type stays [unknown]. *)
Theorem auth_detected_without_primary
    (w : world) (text : string) (packageJson : json) (key label : string) :
  readFileSync w packageJsonPath = Ok text ->
  JSON_parse text = Some packageJson ->
  In (key, label) authLibraries ->
  dep (manifestDeps packageJson) key = true ->
  (forall k l, In (k, l) authLibraries -> k <> key ->
               dep (manifestDeps packageJson) k = false) ->
  (forall k, In k primaryKeys -> dep (manifestDeps packageJson) k = false) ->
  exists p,
    analyzeProject w = Ok p /\
    type p = "unknown" /\
    auth (patterns p) = Some label.
Proof.
  intros Hr Hp Hin Hkey Hothers Hprim.
  destruct (manifestDeps_object _ _ Hkey) as [o ->].
  destruct (analyzeProject_manifest w text o Hr Hp)
    as (p0 & p & Hq & Ht & _ & Hpat & Ht0 & _).
  exists p. split; [exact Hq|]. split.
  - rewrite Ht, detectFromDeps_type, (detectPrimary_none _ _ Hprim),
            (proj1 (detectTesting_frame _ _)). exact Ht0.
  - rewrite Hpat, detectFromDeps_auth.
    exact (detectAuth_label _ _ key label Hin Hkey Hothers).
Qed.

(** C7: when the merged table binds [react] and [next] to truthy values, the
    type is [Next.js], the frameworks start with [React] and [Next.js], and
    the React/Next glob is selected for the project rule; the rule file is
    written with this glob in its front matter whenever the name of the
    project renders as text, and nothing is written when it does not (the
    template literal throws before the write). *)
Theorem next_project_rule (w : world) (text : string) (packageJson : json) :
  readFileSync w packageJsonPath = Ok text ->
  JSON_parse text = Some packageJson ->
  dep (manifestDeps packageJson) "react" = true ->
  dep (manifestDeps packageJson) "next" = true ->
  exists p others,
    analyzeProject w = Ok p /\
    type p = "Next.js" /\
    frameworks p = "React" :: "Next.js" :: others /\
    projectGlobs p = dq ++ "**/*.{ts,tsx,js,jsx}" ++ dq /\
    (forall w2,
        statSync w2 (Rel CONFIG_rulesDirName) = Ok IsDirectory ->
        statSync w2 (rulePath "project-rules.mdc") <> Ok IsDirectory ->
        match ToString (name p) with
        | Ok _ =>
            exists w3 body,
              createProjectRule w2 p = Ok w3 /\
              readFileSync w3 (rulePath "project-rules.mdc") =
              Ok ("---
description: Main project rules and context
globs: " ++ dq ++ "**/*.{ts,tsx,js,jsx}" ++ dq ++ "
---
" ++ body)
        | Throw e => createProjectRule w2 p = Throw e
        end).
Proof.
  intros Hr Hp Hreact Hnext.
  destruct (manifestDeps_object _ _ Hreact) as [o ->].
  destruct (analyzeProject_manifest w text o Hr Hp)
    as (p0 & p & Hq & Ht & Hf & _ & _ & Hf0 & _).
  set (deps := manifestDeps (JObject o)) in *.
  assert (Htype : type p = "Next.js").
  { rewrite Ht, detectFromDeps_type, (detectPrimary_next _ _ Hreact Hnext).
    reflexivity. }
  assert (Hglobs : projectGlobs p = dq ++ "**/*.{ts,tsx,js,jsx}" ++ dq)
    by (unfold projectGlobs; rewrite Htype; reflexivity).
  destruct (detectAuth_frame deps
              (detectState deps (detectPrimary deps (detectTesting deps p0))))
    as (_ & _ & _ & byAuth & Hauth).
  destruct (detectState_frame deps (detectPrimary deps (detectTesting deps p0)))
    as (_ & _ & byState & Hstate).
  exists p, (byState ++ byAuth)%list.
  split; [exact Hq|]. split; [exact Htype|]. split.
  { rewrite Hf, detectFromDeps_frameworks, Hauth, Hstate,
            (detectPrimary_next _ _ Hreact Hnext).
    cbn [frameworks push_framework set_type].
    rewrite (proj1 (proj2 (detectTesting_frame _ _))), Hf0, <- app_assoc.
    reflexivity. }
  split; [exact Hglobs|].
  intros w2 Hdir Hfile. unfold createProjectRule, projectRuleContent.
  destruct (ToString (name p)) as [projectName|e]; cbn [bind]; [|reflexivity].
  destruct (writeFileSync_file_in_directory w2 CONFIG_rulesDirName "project-rules.mdc"
              (projectRuleText projectName p) Hdir Hfile) as [w3 Hw3].
  exists w3. eexists. split; [exact Hw3|].
  unfold rulePath. rewrite (readFileSync_writeFileSync _ _ _ _ Hw3).
  unfold projectRuleText. rewrite Hglobs. reflexivity.
Qed.

(** C8: when the merged table binds [firebase] or [firebase-admin] to a truthy
    value, the auth slot is [Firebase Authentication], the data slot is
    [Firebase Firestore] and [Firebase] is the last framework, whatever other
    authentication or data libraries the table holds. *)
Theorem firebase_preempts (w : world) (text : string) (packageJson : json) :
  readFileSync w packageJsonPath = Ok text ->
  JSON_parse text = Some packageJson ->
  dep (manifestDeps packageJson) "firebase"
  || dep (manifestDeps packageJson) "firebase-admin" = true ->
  exists p earlier,
    analyzeProject w = Ok p /\
    auth (patterns p) = Some "Firebase Authentication" /\
    dataManagement (patterns p) = Some "Firebase Firestore" /\
    frameworks p = (earlier ++ ["Firebase"])%list.
Proof.
  intros Hr Hp Hfire.
  assert (Hobj : exists o, packageJson = JObject o).
  { apply orb_true_iff in Hfire.
    destruct Hfire as [Hk|Hk]; exact (manifestDeps_object _ _ Hk). }
  destruct Hobj as [o ->].
  destruct (analyzeProject_manifest w text o Hr Hp)
    as (p0 & p & Hq & _ & Hf & Hpat & _).
  set (deps := manifestDeps (JObject o)) in *.
  exists p, (frameworks (detectState deps (detectPrimary deps (detectTesting deps p0)))).
  split; [exact Hq|]. split; [|split].
  - rewrite Hpat, detectFromDeps_auth, (detectAuth_firebase _ _ Hfire). reflexivity.
  - rewrite Hpat, detectFromDeps_dataManagement, (detectData_firebase _ _ Hfire).
    reflexivity.
  - rewrite Hf, detectFromDeps_frameworks, (detectAuth_firebase _ _ Hfire).
    reflexivity.
Qed.

End ManifestProperties.

(** ** The reference runtime *)

(** every rendering of a time has the shape [YYYY-MM-DDTHH:mm:ss.sssZ] *)
Lemma isoString_shape (ms : Z) :
  String.length (Reference.isoString ms) = 24 /\
  get 4 (Reference.isoString ms) = Some "-"%char /\
  get 10 (Reference.isoString ms) = Some "T"%char /\
  get 23 (Reference.isoString ms) = Some "Z"%char.
Proof.
  unfold Reference.isoString. destruct (Reference.civil (ms / 86400000)) as [[y m] d].
  repeat split; reflexivity.
Qed.



(** ** The properties at the sample directories *)

Module Checks.

Import Sample.

(** Against C1 as stated: in the Python branch, with no manifest at all,
    the read of a source file that cannot be read is not caught. *)
Lemma unreadable_python_source_propagates :
  existsSync unreadableSource packageJsonPath = false /\
  hasPythonMarker unreadableSource = true /\
  readFileSync unreadableSource (Rel ["secret.py"]) = Throw EACCES /\
  @analyzeProject Reference.runtime unreadableSource = Throw EACCES.
Proof. repeat split; vm_compute; reflexivity. Qed.

(** Witness of C1: a dangling link makes the structural scan fail, and the
    profile of the earlier steps is returned as it is. *)
Lemma structure_errors_caught_at_brokenLink :
  statSync brokenLink (Rel ["old"]) = Throw ENOENT /\
  exists p,
    @detectProject Reference.runtime brokenLink = Ok p /\
    @analyzeProject Reference.runtime brokenLink = Ok p /\
    type p = "Next.js".
Proof.
  split; [reflexivity|].
  eexists. split; [vm_compute; reflexivity|].
  destruct (@analyzeProject_catches_structure_errors Reference.runtime brokenLink _
              eq_refl) as (q & Hq & _ & _ & _ & Hstat).
  rewrite Hq.
  rewrite (Hstat _ "old" ENOENT eq_refl (or_introl eq_refl) eq_refl).
  split; reflexivity.
Defined.

(** Witness of C2: a directory that holds only a text file. *)
Lemma unknown_at_emptyProject :
  noMarkers emptyProject = true /\
  exists p,
    @analyzeProject Reference.runtime emptyProject = Ok p /\
    type p = "unknown" /\ frameworks p = [] /\ patterns p
    = {| auth := None; dataManagement := None; ui := None |}.
Proof.
  split; [reflexivity|].
  destruct (@analyzeProject_unknown Reference.runtime emptyProject eq_refl)
    as (p & Hp & Ht & Hf & Ha & Hd & Hu & _).
  exists p. repeat split; try assumption.
  destruct (patterns p) as [a d u]. simpl in Ha, Hd, Hu. subst. reflexivity.
Defined.

(** Against C3 as stated: the table holds [auth0], bound to the empty
    version range, and no other key, and the auth slot stays unset. *)
Lemma auth0_any_version_undetected :
  exists text packageJson p,
    readFileSync auth0AnyVersion packageJsonPath = Ok text /\
    Reference.parse text = Some packageJson /\
    manifestDeps packageJson = [("auth0", JString "")] /\
    @analyzeProject Reference.runtime auth0AnyVersion = Ok p /\
    type p = "unknown" /\
    auth (patterns p) = None.
Proof.
  do 3 eexists.
  split; [reflexivity|]. split; [vm_compute; reflexivity|].
  split; [reflexivity|]. split; [vm_compute; reflexivity|].
  split; reflexivity.
Qed.

Ltac other_keys Hin Hne :=
  simpl in Hin;
  repeat (destruct Hin as [E|Hin];
          [ first [ injection E as <- <- | subst ];
            first [ reflexivity | exfalso; apply Hne; reflexivity ] | ]);
  destruct Hin.

(** Witness of C3: [auth0] with a version, and nothing else. *)
Lemma auth0_detected_at_auth0Project :
  exists p,
    @analyzeProject Reference.runtime auth0Project = Ok p /\
    type p = "unknown" /\
    auth (patterns p) = Some "Auth0".
Proof.
  eapply (@auth_detected_without_primary Reference.runtime auth0Project _ _
            "auth0" "Auth0").
  - reflexivity.
  - vm_compute. reflexivity.
  - simpl. tauto.
  - reflexivity.
  - intros k l Hin Hne. other_keys Hin Hne.
  - intros k Hin.
    assert (Hne : k <> "auth0") by (intros ->; simpl in Hin; intuition discriminate).
    other_keys Hin Hne.
Defined.

(** Against C7 as stated: the manifest declares both dependencies, with
    empty version ranges, and the type stays [unknown]. *)
Lemma next_any_version_unknown :
  exists text packageJson p,
    readFileSync nextAnyVersion packageJsonPath = Ok text /\
    Reference.parse text = Some packageJson /\
    manifestDeps packageJson = [("react", JString ""); ("next", JString "")] /\
    @analyzeProject Reference.runtime nextAnyVersion = Ok p /\
    type p = "unknown" /\
    frameworks p = [] /\
    projectGlobs p = dq ++ "**/*" ++ dq.
Proof.
  do 3 eexists.
  split; [reflexivity|]. split; [vm_compute; reflexivity|].
  split; [reflexivity|]. split; [vm_compute; reflexivity|].
  repeat split; reflexivity.
Qed.

(** Witness of C7: the manifest [{"dependencies": {"react": "*", "next": "*"}}]. *)
Lemma next_rule_at_nextProject :
  exists p,
    @analyzeProject Reference.runtime nextProject = Ok p /\
    type p = "Next.js" /\
    firstn 2 (frameworks p) = ["React"; "Next.js"] /\
    projectGlobs p = dq ++ "**/*.{ts,tsx,js,jsx}" ++ dq.
Proof.
  destruct (@next_project_rule Reference.runtime nextProject _ _
              eq_refl eq_refl eq_refl eq_refl)
    as (p & others & Hp & Ht & Hf & Hg & _).
  exists p. rewrite Hf. repeat split; assumption.
Defined.

(** Against C8 as stated: the table holds [firebase], bound to the empty
    version range, and [auth0] takes the auth slot. *)
Lemma firebase_any_version_not_preempting :
  exists text packageJson p,
    readFileSync firebaseAnyVersion packageJsonPath = Ok text /\
    Reference.parse text = Some packageJson /\
    manifestDeps packageJson
    = [("firebase", JString ""); ("auth0", JString "^4.0.0")] /\
    @analyzeProject Reference.runtime firebaseAnyVersion = Ok p /\
    auth (patterns p) = Some "Auth0" /\
    dataManagement (patterns p) = None /\
    frameworks p = [].
Proof.
  do 3 eexists.
  split; [reflexivity|]. split; [vm_compute; reflexivity|].
  split; [reflexivity|]. split; [vm_compute; reflexivity|].
  repeat split; reflexivity.
Qed.

(** Witness of C8: [firebase] next to [auth0] and [prisma]. *)
Lemma firebase_preempts_at_firebaseProject :
  exists p,
    @analyzeProject Reference.runtime firebaseProject = Ok p /\
    auth (patterns p) = Some "Firebase Authentication" /\
    dataManagement (patterns p) = Some "Firebase Firestore" /\
    last (frameworks p) "" = "Firebase".
Proof.
  destruct (@firebase_preempts Reference.runtime firebaseProject _ _
              eq_refl eq_refl eq_refl)
    as (p & earlier & Hp & Ha & Hd & Hf).
  exists p. rewrite Hf, last_last. repeat split; assumption.
Defined.




(** the document written at the sample directory, read back by the
    reference parser *)
Example memory_file_parses_back :
  exists w' text,
    @createMemoryFile Reference.runtime (withRulesDir [])
                      (initialInfo (withRulesDir [])) "No notes." = Ok w' /\
    readFileSync w' memoryPath = Ok text /\
    Reference.parse text =
    Some (JObject
            [("entries",
              JArray
                [JObject
                   [("id", JString "initial-setup");
                    ("timestamp", JString "2023-05-10T12:34:56.789Z");
                    ("content",
                     JString "MCP Memory Server successfully configured for app. This project uses unknown.   ")];
                 JObject
                   [("id", JString "project-context");
                    ("timestamp", JString "2023-05-10T12:34:56.791Z");
                    ("content", JString "No notes.")]])]).
Proof.
  do 2 eexists.
  split; [vm_compute; reflexivity|]. split; vm_compute; reflexivity.
Qed.

(** Witness of C6: a settings document with a font size and one of the AI
    keys. *)
Lemma settings_merge_at_withSettings :
  exists text w' merged,
    readFileSync (withSettings "{'editor.fontSize': 14, 'ai.modelResponsiveness': 'slow'}")
                 settingsPath = Ok text /\
    @createCursorWorkspaceSettings Reference.runtime
      (withSettings "{'editor.fontSize': 14, 'ai.modelResponsiveness': 'slow'}") = Ok w' /\
    readFileSync w' settingsPath = Ok (Reference.stringify (JObject merged)) /\
    obj_get "ai.modelResponsiveness" merged = Some (JString "fast").
Proof.
  eexists.
  destruct (@createCursorWorkspaceSettings_shallow_merge Reference.runtime
              (withSettings "{'editor.fontSize': 14, 'ai.modelResponsiveness': 'slow'}")
              _ eq_refl)
    as (w' & merged & Hw' & Hr & Hai & _).
  exists w', merged. split; [reflexivity|]. split; [exact Hw'|]. split; [exact Hr|].
  apply Hai. simpl. tauto.
Defined.

(** Witness of C9: a manifest without scripts. *)
Lemma manifest_rewrite_at_nextProject :
  exists w2 o',
    @installMCPServer Reference.runtime nextProject = Ok w2 /\
    readFileSync w2 packageJsonPath = Ok (Reference.stringify (JObject o')) /\
    obj_get "dependencies" o'
    = Some (JObject [("react", JString "*"); ("next", JString "*")]).
Proof.
  destruct (@installMCPServer_rewrites_only_mcp_script Reference.runtime
              nextProject nextProject _
              (JObject
                 [("dependencies",
                   JObject [("react", JString "*"); ("next", JString "*")])])
              eq_refl eq_refl eq_refl)
    as (w2 & o' & scripts' & Hw2 & Hr & Hother & _).
  exists w2, o'. split; [exact Hw2|]. split; [exact Hr|].
  rewrite Hother by discriminate. reflexivity.
Defined.

(** Counterexample to C9: with [scripts] bound to a string the installation
    succeeds and the manifest is written back without [scripts.mcp]. *)
Lemma scripts_string_loses_mcp :
  exists w2 text,
    @installMCPServer Reference.runtime scriptsAsText = Ok w2 /\
    readFileSync w2 packageJsonPath = Ok text /\
    Reference.parse text
    = Some (JObject [("name", JString "app"); ("scripts", JString "build")]) /\
    includes "mcp" text = false.
Proof.
  do 2 eexists. split; [vm_compute; reflexivity|].
  split; [reflexivity|]. split; vm_compute; reflexivity.
Qed.

(** The assignment to the [mcp] property of a string is lost. *)
Example scripts_string_kept :
  addMcpScript (JObject [("name", JString "app"); ("scripts", JString "build")])
  = Ok (JObject [("name", JString "app"); ("scripts", JString "build")]).
Proof. reflexivity. Qed.

(** Witness of C10: a configuration file that held a theme setting. *)
Lemma cursor_config_at_withCursorConfig :
  exists w',
    @configureCursor Reference.runtime (withCursorConfig "{'theme': 'dark'}") = Ok w' /\
    exists text,
      readFileSync w' (configPathIn ["home"; "dev"; ".config"; "Cursor"; "User"])
      = Ok text /\
      includes "theme" text = false /\
      includes "/home/dev/app/.mcp/ai_memory.json" text = true.
Proof.
  destruct (@configureCursor_overwrites Reference.runtime
              (withCursorConfig "{'theme': 'dark'}")
              ["home"; "dev"; ".config"; "Cursor"; "User"] eq_refl eq_refl)
    as (w' & Hw' & Hr & _).
  - intros E. vm_compute in E. discriminate E.
  - exists w'. split; [exact Hw'|].
    eexists. split; [exact Hr|]. split; vm_compute; reflexivity.
Defined.

End Checks.

(** * Further properties *)

(** ** What the file operations keep *)

Lemma entry_get_set_other (s s2 : string) (n : node) (es : entries) :
  s2 <> s -> entry_get s2 (entry_set s n es) = entry_get s2 es.
Proof.
  intros Hne. induction es as [|[s1 n1] es IH]; simpl.
  - apply not_eq_sym in Hne. apply String.eqb_neq in Hne. rewrite Hne. reflexivity.
  - destruct (s1 =? s) eqn:E; simpl.
    + apply String.eqb_eq in E. subst s1.
      apply not_eq_sym in Hne. apply String.eqb_neq in Hne. rewrite Hne. reflexivity.
    + destruct (s1 =? s2); [reflexivity | exact IH].
Qed.

Lemma lookup_not_dir (n : node) (s : string) (q : segments) :
  kind n <> Some IsDirectory -> lookup n (s :: q) = None.
Proof. destruct n; simpl; intros Hk; try reflexivity. exfalso. apply Hk. reflexivity. Qed.

(** a node put where there was nothing, or a file put over a file, leaves
    the kind of everything in place *)
Lemma put_kind (p : segments) : forall (n n' new : node) (q : segments) (k : stats),
  put n p new = Some n' ->
  kind new <> None ->
  (kind_at n p = None \/ (kind_at n p = Some IsFile /\ kind new = Some IsFile)) ->
  kind_at n q = Some k ->
  kind_at n' q = Some k.
Proof.
  unfold kind_at.
  induction p as [|s p IH]; intros n n' new q k Hput Hnew Hguard Hq.
  - simpl in Hput. injection Hput as <-. simpl in Hguard.
    destruct q as [|s2 q].
    + simpl in *. destruct Hguard as [Hg|[Hg Hg']]; congruence.
    + rewrite lookup_not_dir in Hq; [discriminate|].
      destruct Hguard as [Hg|[Hg _]]; rewrite Hg; discriminate.
  - destruct n as [c|l es|]; try discriminate.
    destruct q as [|s2 q].
    + simpl in Hq. injection Hq as <-.
      simpl in Hput. destruct p as [|s3 p].
      * injection Hput as <-. reflexivity.
      * destruct (entry_get s es) as [c|]; try discriminate.
        destruct (put c (s3 :: p) new); try discriminate.
        injection Hput as <-. reflexivity.
    + destruct (String.eqb_spec s2 s) as [->|Hne].
      * simpl in Hput, Hq, Hguard. destruct p as [|s3 p].
        -- injection Hput as <-. cbn [lookup]. rewrite entry_get_set_same.
           destruct (entry_get s es) as [c|] eqn:Hc; [|discriminate].
           destruct q as [|s4 q].
           ++ simpl in *. destruct Hguard as [Hg|[Hg Hg']]; congruence.
           ++ rewrite lookup_not_dir in Hq; [discriminate|].
              simpl in Hguard.
              destruct Hguard as [Hg|[Hg _]]; rewrite Hg; discriminate.
        -- destruct (entry_get s es) as [c|] eqn:Hc; [|discriminate].
           destruct (put c (s3 :: p) new) as [c'|] eqn:Hc'; [|discriminate].
           injection Hput as <-. cbn [lookup]. rewrite entry_get_set_same.
           exact (IH c c' new q k Hc' Hnew Hguard Hq).
      * assert (Hn' : exists es', n' = Dir l es' /\ entry_get s2 es' = entry_get s2 es).
        { simpl in Hput. destruct p as [|s3 p].
          - injection Hput as <-. eexists. split; [reflexivity|].
            apply entry_get_set_other. exact Hne.
          - destruct (entry_get s es) as [c|]; try discriminate.
            destruct (put c (s3 :: p) new); try discriminate.
            injection Hput as <-. eexists. split; [reflexivity|].
            apply entry_get_set_other. exact Hne. }
        destruct Hn' as (es' & -> & Hes'). simpl in Hq |- *. rewrite Hes'. exact Hq.
Qed.

Lemma mkdirp_kind (p : segments) : forall (n n' : node) (q : segments) (k : stats),
  mkdirp n p = Some n' ->
  kind_at n q = Some k ->
  kind_at n' q = Some k.
Proof.
  unfold kind_at.
  induction p as [|s p IH]; intros n n' q k Hmk Hq; simpl in Hmk.
  - destruct n; try discriminate. injection Hmk as <-. exact Hq.
  - destruct n as [c|l es|]; try discriminate.
    destruct (mkdirp (match entry_get s es with Some c => c | None => Dir true [] end) p)
      as [c'|] eqn:Hc'; [|discriminate].
    injection Hmk as <-.
    destruct q as [|s2 q].
    + simpl in Hq |- *. exact Hq.
    + simpl in Hq |- *. destruct (String.eqb_spec s2 s) as [->|Hne].
      * rewrite entry_get_set_same.
        destruct (entry_get s es) as [c|] eqn:Hc; [|discriminate].
        exact (IH c c' q k Hc' Hq).
      * rewrite (entry_get_set_other _ _ _ _ Hne). exact Hq.
Qed.

(** a directory made with its ancestors is a directory *)
Lemma mkdirp_directory (p : segments) : forall (n n' : node),
  mkdirp n p = Some n' -> kind_at n' p = Some IsDirectory.
Proof.
  unfold kind_at.
  induction p as [|s p IH]; intros n n' Hmk; simpl in Hmk.
  - destruct n; try discriminate. injection Hmk as <-. reflexivity.
  - destruct n as [c|l es|]; try discriminate.
    destruct (mkdirp (match entry_get s es with Some c => c | None => Dir true [] end) p)
      as [c'|] eqn:Hc'; [|discriminate].
    injection Hmk as <-. cbn [lookup]. rewrite entry_get_set_same.
    exact (IH _ _ Hc').
Qed.

Lemma statSync_kind (w : world) (p : fpath) (st : stats) :
  statSync w p = Ok st <-> kind_at (root w) (resolve w p) = Some st.
Proof.
  unfold statSync, kind_at, node_at.
  destruct (lookup (root w) (resolve w p)) as [[c|l es|]|]; simpl;
    split; intros E; try discriminate; congruence.
Qed.

Lemma existsSync_statSync (w : world) (p : fpath) :
  existsSync w p = true <-> exists st, statSync w p = Ok st.
Proof.
  unfold existsSync, statSync.
  destruct (node_at w p) as [[c|l es|]|]; split; intros E;
    try discriminate; try reflexivity; try (eexists; reflexivity);
    destruct E as [st E]; discriminate.
Qed.

Lemma keeps_refl (w : world) : keeps w w.
Proof. split; [repeat split | intros q st E; exact E]. Qed.

Lemma keeps_trans (w1 w2 w3 : world) : keeps w1 w2 -> keeps w2 w3 -> keeps w1 w3.
Proof.
  intros [(A1 & A2 & A3 & A4 & A5) K1] [(B1 & B2 & B3 & B4 & B5) K2].
  split; [repeat split; congruence|].
  intros q st E. apply K2, K1. exact E.
Qed.

Lemma keeps_existsSync (w w' : world) (p : fpath) :
  keeps w w' -> existsSync w p = true -> existsSync w' p = true.
Proof.
  intros [_ K] E. apply existsSync_statSync in E. destruct E as [st E].
  apply existsSync_statSync. exists st. apply K. exact E.
Qed.

Lemma with_root_keeps (w : world) (r : node) :
  (forall q k, kind_at (root w) q = Some k -> kind_at r q = Some k) ->
  keeps w (with_root r w).
Proof.
  intros Hk. split; [repeat split|].
  intros q st E. apply statSync_kind. apply statSync_kind in E.
  apply Hk. exact E.
Qed.

Lemma writeFileSync_keeps (w w' : world) (p : fpath) (text : string) :
  writeFileSync w p text = Ok w' -> keeps w w'.
Proof.
  unfold writeFileSync, node_at. intros Hw.
  destruct (put (root w) (resolve w p) (File (Some text))) as [r|] eqn:Hput;
    [|destruct (lookup (root w) (resolve w p)) as [[c|l es|]|]; discriminate].
  assert (Hguard : kind_at (root w) (resolve w p) = None
                   \/ (kind_at (root w) (resolve w p) = Some IsFile
                       /\ kind (File (Some text)) = Some IsFile)).
  { unfold kind_at.
    destruct (lookup (root w) (resolve w p)) as [[c|l es|]|];
      try discriminate; simpl; auto. }
  assert (Hw' : w' = with_root r w)
    by (destruct (lookup (root w) (resolve w p)) as [[c|l es|]|]; congruence).
  subst w'. apply with_root_keeps. intros q k Hq.
  apply (put_kind _ _ _ _ _ _ Hput); [discriminate | exact Hguard | exact Hq].
Qed.

Lemma mkdirSync_keeps (w w' : world) (p : fpath) (recursive : bool) :
  mkdirSync w p recursive = Ok w' -> keeps w w'.
Proof.
  unfold mkdirSync, node_at. destruct recursive.
  - destruct (mkdirp (root w) (resolve w p)) as [r|] eqn:Hmk; [|discriminate].
    intros E. injection E as <-. apply with_root_keeps.
    intros q k Hq. exact (mkdirp_kind _ _ _ _ _ Hmk Hq).
  - destruct (lookup (root w) (resolve w p)) as [x|] eqn:Hx; [discriminate|].
    destruct (put (root w) (resolve w p) (Dir true [])) as [r|] eqn:Hput; [|discriminate].
    intros E. injection E as <-. apply with_root_keeps.
    intros q k Hq.
    apply (put_kind _ _ _ _ _ _ Hput); [discriminate| |exact Hq].
    left. unfold kind_at. rewrite Hx. reflexivity.
Qed.

Lemma mkdirSync_directory (w w' : world) (p : fpath) (recursive : bool) :
  mkdirSync w p recursive = Ok w' -> statSync w' p = Ok IsDirectory.
Proof.
  unfold mkdirSync, node_at. destruct recursive.
  - destruct (mkdirp (root w) (resolve w p)) as [r|] eqn:Hmk; [|discriminate].
    intros E. injection E as <-. apply statSync_kind.
    exact (mkdirp_directory _ _ _ Hmk).
  - destruct (lookup (root w) (resolve w p)) as [x|] eqn:Hx; [discriminate|].
    destruct (put (root w) (resolve w p) (Dir true [])) as [r|] eqn:Hput; [|discriminate].
    intros E. injection E as <-. apply statSync_kind. unfold kind_at.
    change (resolve (with_root r w) p) with (resolve w p).
    change (root (with_root r w)) with r.
    rewrite (lookup_put _ _ _ _ Hput). reflexivity.
Qed.

Lemma new_Date_keeps (w : world) : keeps w (snd (new_Date w)).
Proof. split; [repeat split | intros q st E; exact E]. Qed.

(** ** What a write leaves untouched *)

Lemma lookup_put_apart (p : segments) : forall (n n' new : node) (q : segments),
  apart p q = true -> put n p new = Some n' -> lookup n' q = lookup n q.
Proof.
  induction p as [|a p IH]; intros n n' new q Hap Hput.
  - discriminate.
  - destruct q as [|b q]; [discriminate|]. simpl in Hap.
    destruct n as [c|l es|]; try discriminate.
    destruct (String.eqb_spec a b) as [->|Hne].
    + simpl in Hput. destruct p as [|a2 p]; [discriminate|].
      destruct (entry_get b es) as [c|] eqn:Hc; [|discriminate].
      destruct (put c (a2 :: p) new) as [c'|] eqn:Hc'; [|discriminate].
      injection Hput as <-. cbn [lookup]. rewrite entry_get_set_same, Hc.
      exact (IH c c' new q Hap Hc').
    + assert (Hn' : exists es', n' = Dir l es' /\ entry_get b es' = entry_get b es).
      { simpl in Hput. destruct p as [|a2 p].
        - injection Hput as <-. eexists. split; [reflexivity|].
          apply entry_get_set_other. intros E. apply Hne. symmetry. exact E.
        - destruct (entry_get a es) as [c|]; try discriminate.
          destruct (put c (a2 :: p) new); try discriminate.
          injection Hput as <-. eexists. split; [reflexivity|].
          apply entry_get_set_other. intros E. apply Hne. symmetry. exact E. }
      destruct Hn' as (es' & -> & Hes'). simpl. rewrite Hes'. reflexivity.
Qed.

Lemma apart_app (c p q : segments) : apart (c ++ p)%list (c ++ q)%list = apart p q.
Proof.
  induction c as [|a c IH]; simpl; [reflexivity|]. rewrite String.eqb_refl. exact IH.
Qed.

Lemma writeFileSync_apart (w w' : world) (p q : segments) (text : string) :
  apart p q = true ->
  writeFileSync w (Rel p) text = Ok w' ->
  node_at w' (Rel q) = node_at w (Rel q).
Proof.
  intros Hap Hw. unfold writeFileSync in Hw.
  destruct (put (root w) (resolve w (Rel p)) (File (Some text))) as [r|] eqn:Hput;
    [|destruct (node_at w (Rel p)) as [[c|l es|]|]; discriminate].
  assert (Hw' : w' = with_root r w)
    by (destruct (node_at w (Rel p)) as [[c|l es|]|]; congruence).
  subst w'. rewrite node_at_with_root. unfold node_at.
  apply (lookup_put_apart _ _ _ _ _ (eq_trans (apart_app _ _ _) Hap) Hput).
Qed.

Lemma readFileSync_node_at (w1 w2 : world) (p q : fpath) :
  node_at w1 p = node_at w2 q -> readFileSync w1 p = readFileSync w2 q.
Proof. unfold readFileSync. intros ->. reflexivity. Qed.

Lemma existsSync_node_at (w1 w2 : world) (p q : fpath) :
  node_at w1 p = node_at w2 q -> existsSync w1 p = existsSync w2 q.
Proof. unfold existsSync. intros ->. reflexivity. Qed.

Lemma statSync_node_at (w1 w2 : world) (p q : fpath) :
  node_at w1 p = node_at w2 q -> statSync w1 p = statSync w2 q.
Proof. unfold statSync. intros ->. reflexivity. Qed.

(** a write into a directory: it succeeds, the file holds the text, nothing
    is removed, and no path that parts from the file changes *)
Lemma writeFileSync_child (w : world) (dir : segments) (f text : string) :
  statSync w (Rel dir) = Ok IsDirectory ->
  statSync w (Rel (dir ++ [f])%list) <> Ok IsDirectory ->
  exists w',
    writeFileSync w (Rel (dir ++ [f])%list) text = Ok w' /\
    keeps w w' /\
    readFileSync w' (Rel (dir ++ [f])%list) = Ok text /\
    (forall q, apart (dir ++ [f])%list q = true ->
               node_at w' (Rel q) = node_at w (Rel q)).
Proof.
  intros Hd Hf.
  destruct (writeFileSync_file_in_directory w dir f text Hd Hf) as [w' Hw'].
  exists w'. split; [exact Hw'|].
  split; [exact (writeFileSync_keeps _ _ _ _ Hw')|].
  split; [exact (readFileSync_writeFileSync _ _ _ _ Hw')|].
  intros q Hq. exact (writeFileSync_apart _ _ _ _ _ Hq Hw').
Qed.

Lemma apart_siblings (dir : segments) (f g : string) :
  g <> f -> apart (dir ++ [f])%list (dir ++ [g])%list = true.
Proof.
  intros Hne. rewrite apart_app. simpl.
  destruct (String.eqb_spec f g) as [E|_]; [|reflexivity].
  exfalso. apply Hne. symmetry. exact E.
Qed.

Lemma chmodSync_same (w w' : world) (p : fpath) (mode : string) :
  chmodSync w p mode = Ok w' -> w' = w.
Proof.
  unfold chmodSync. destruct (statSync w p); cbn [bind]; [|discriminate].
  intros E. injection E as <-. reflexivity.
Qed.

Lemma chmodSync_after_write (w w' : world) (p : fpath) (text mode : string) :
  writeFileSync w p text = Ok w' -> chmodSync w' p mode = Ok w'.
Proof.
  intros Hw. apply existsSync_writeFileSync in Hw.
  apply existsSync_statSync in Hw. destruct Hw as [st Hst].
  unfold chmodSync. rewrite Hst. reflexivity.
Qed.

(** ** The rule documents *)

Lemma rulesReady_writable (w : world) : rulesReady w -> rulesWritable w.
Proof. intros [Hd Hf]. split; [exact Hd|]. intros file _. apply Hf. Qed.

(** one step of the generation: a rule file written, or skipped *)
Lemma rule_step (w : world) (write : bool) (f text : string) :
  rulesWritable w ->
  In f ruleFiles ->
  exists w',
    (if write then writeFileSync w (rulePath f) text else Ok w) = Ok w' /\
    rulesWritable w' /\
    keeps w w' /\
    (if write then readFileSync w' (rulePath f) = Ok text
     else node_at w' (rulePath f) = node_at w (rulePath f)) /\
    (forall g, g <> f -> node_at w' (rulePath g) = node_at w (rulePath g)).
Proof.
  intros [Hd Hf] Hin. destruct write.
  - destruct (writeFileSync_child w CONFIG_rulesDirName f text Hd (Hf f Hin))
      as (w' & Hw' & Hk & Hr & Hother).
    exists w'. split; [exact Hw'|].
    assert (Hsib : forall g, g <> f -> node_at w' (rulePath g) = node_at w (rulePath g)).
    { intros g Hg. apply Hother. apply apart_siblings. exact Hg. }
    split.
    { split; [apply Hk; exact Hd|].
      intros g Hg. destruct (string_dec g f) as [->|Hne].
      - unfold rulePath. intros E. unfold statSync in E. unfold readFileSync in Hr.
        destruct (node_at w' (Rel (CONFIG_rulesDirName ++ [f])%list)) as [[[c|]|l es|]|];
          discriminate.
      - rewrite (statSync_node_at _ _ _ _ (Hsib g Hne)). exact (Hf g Hg). }
    split; [exact Hk|]. split; [exact Hr | exact Hsib].
  - exists w. split; [reflexivity|]. split; [split; assumption|].
    split; [apply keeps_refl|]. split; reflexivity.
Qed.

Lemma rule_file_kept (w w1 w2 : world) (f : string) (text : string) :
  readFileSync w1 (rulePath f) = Ok text ->
  node_at w2 (rulePath f) = node_at w1 (rulePath f) ->
  readFileSync w2 (rulePath f) = Ok text.
Proof. intros Hr Hn. rewrite (readFileSync_node_at _ _ _ _ Hn). exact Hr. Qed.

(** X1.  In a project whose rules directory exists and in which none of the
    five rule files is a directory, and for a profile whose name renders as
    text, [generateRules] succeeds and removes nothing.  Afterwards the
    project rule holds the document rendered for the profile; the
    authentication, data and UI rules hold theirs exactly when the profile's
    slot is set to a non-empty label, and are otherwise left as they were, a
    file of an earlier run included; the best-practices rule is written
    only when it did not exist and is otherwise left as it was. *)
Theorem generateRules_files (w : world) (p : ProjectInfo) (projectName : string) :
  rulesWritable w ->
  ToString (name p) = Ok projectName ->
  exists w',
    generateRules w p = Ok w' /\
    keeps w w' /\
    readFileSync w' (rulePath "project-rules.mdc") = Ok (projectRuleText projectName p) /\
    (if slot_truthy (auth (patterns p))
     then readFileSync w' (rulePath "auth-rules.mdc") = Ok (authRuleContent p)
     else node_at w' (rulePath "auth-rules.mdc") = node_at w (rulePath "auth-rules.mdc")) /\
    (if slot_truthy (dataManagement (patterns p))
     then readFileSync w' (rulePath "data-management-rules.mdc") = Ok (dataRuleContent p)
     else node_at w' (rulePath "data-management-rules.mdc")
          = node_at w (rulePath "data-management-rules.mdc")) /\
    (if slot_truthy (ui (patterns p))
     then readFileSync w' (rulePath "ui-components-rules.mdc") = Ok (uiRuleContent p)
     else node_at w' (rulePath "ui-components-rules.mdc")
          = node_at w (rulePath "ui-components-rules.mdc")) /\
    (if existsSync w bestPracticesPath
     then node_at w' bestPracticesPath = node_at w bestPracticesPath
     else readFileSync w' bestPracticesPath = Ok (bestPracticesContent p)).
Proof.
  intros R0 Hname.
  assert (In1 : In "project-rules.mdc" ruleFiles) by (simpl; tauto).
  assert (In2 : In "auth-rules.mdc" ruleFiles) by (simpl; tauto).
  assert (In3 : In "data-management-rules.mdc" ruleFiles) by (simpl; tauto).
  assert (In4 : In "ui-components-rules.mdc" ruleFiles) by (simpl; tauto).
  assert (In5 : In "best-practices.mdc" ruleFiles) by (simpl; tauto).
  destruct (rule_step w true "project-rules.mdc" (projectRuleText projectName p) R0 In1)
    as (w1 & E1 & R1 & K1 & P1 & O1).
  destruct (rule_step w1 (slot_truthy (auth (patterns p))) "auth-rules.mdc"
                      (authRuleContent p) R1 In2)
    as (w2 & E2 & R2 & K2 & P2 & O2).
  destruct (rule_step w2 (slot_truthy (dataManagement (patterns p)))
                      "data-management-rules.mdc" (dataRuleContent p) R2 In3)
    as (w3 & E3 & R3 & K3 & P3 & O3).
  destruct (rule_step w3 (slot_truthy (ui (patterns p))) "ui-components-rules.mdc"
                      (uiRuleContent p) R3 In4)
    as (w4 & E4 & R4 & K4 & P4 & O4).
  destruct (rule_step w4 (negb (existsSync w4 bestPracticesPath)) "best-practices.mdc"
                      (bestPracticesContent p) R4 In5)
    as (w5 & E5 & R5 & K5 & P5 & O5).
  assert (B : node_at w4 bestPracticesPath = node_at w bestPracticesPath).
  { unfold bestPracticesPath.
    rewrite O4, O3, O2, O1 by (intros E; discriminate E). reflexivity. }
  exists w5. split.
  { unfold generateRules, createProjectRule, projectRuleContent, createAuthRule,
      createDataManagementRule, createUIComponentsRule, createBestPracticesRule.
    rewrite Hname. cbn [bind]. rewrite E1. cbn [bind].
    replace (if slot_truthy (auth (patterns p))
             then writeFileSync w1 (rulePath "auth-rules.mdc") (authRuleContent p)
             else Ok w1) with (Ok w2) by (symmetry; exact E2).
    cbn [bind].
    replace (if slot_truthy (dataManagement (patterns p))
             then writeFileSync w2 (rulePath "data-management-rules.mdc") (dataRuleContent p)
             else Ok w2) with (Ok w3) by (symmetry; exact E3).
    cbn [bind].
    replace (if slot_truthy (ui (patterns p))
             then writeFileSync w3 (rulePath "ui-components-rules.mdc") (uiRuleContent p)
             else Ok w3) with (Ok w4) by (symmetry; exact E4).
    cbn [bind]. rewrite <- E5. unfold bestPracticesPath.
    destruct (existsSync w4 (rulePath "best-practices.mdc")); reflexivity. }
  split.
  { exact (keeps_trans _ _ _ (keeps_trans _ _ _ (keeps_trans _ _ _
             (keeps_trans _ _ _ K1 K2) K3) K4) K5). }
  split.
  { apply (rule_file_kept w w1 w5 _ _ P1).
    rewrite O5, O4, O3, O2 by (intros E; discriminate E). reflexivity. }
  split.
  { destruct (slot_truthy (auth (patterns p))).
    - apply (rule_file_kept w w2 w5 _ _ P2).
      rewrite O5, O4, O3 by (intros E; discriminate E). reflexivity.
    - rewrite O5, O4, O3, P2, O1 by (intros E; discriminate E). reflexivity. }
  split.
  { destruct (slot_truthy (dataManagement (patterns p))).
    - apply (rule_file_kept w w3 w5 _ _ P3).
      rewrite O5, O4 by (intros E; discriminate E). reflexivity.
    - rewrite O5, O4, P3, O2, O1 by (intros E; discriminate E). reflexivity. }
  split.
  { destruct (slot_truthy (ui (patterns p))).
    - apply (rule_file_kept w w4 w5 _ _ P4).
      rewrite O5 by (intros E; discriminate E). reflexivity.
    - rewrite O5, P4, O3, O2, O1 by (intros E; discriminate E). reflexivity. }
  rewrite <- (existsSync_node_at _ _ _ _ B). unfold bestPracticesPath in *.
  destruct (existsSync w4 (rulePath "best-practices.mdc")); cbn [negb] in P5.
  - rewrite P5. exact B.
  - exact P5.
Qed.

(** X2.  Every project rule document that is produced refers to the rule
    files that are generated with it: always to the best-practices rule,
    and to the authentication, data and UI rule whenever the profile's slot
    is set to a non-empty label. *)
Theorem projectRule_references (p : ProjectInfo) (document : string) :
  projectRuleContent p = Ok document ->
  includes "@file:.cursor/rules/best-practices.mdc" document = true /\
  (slot_truthy (auth (patterns p)) = true ->
   includes "@file:.cursor/rules/auth-rules.mdc" document = true) /\
  (slot_truthy (dataManagement (patterns p)) = true ->
   includes "@file:.cursor/rules/data-management-rules.mdc" document = true) /\
  (slot_truthy (ui (patterns p)) = true ->
   includes "@file:.cursor/rules/ui-components-rules.mdc" document = true).
Proof.
  unfold projectRuleContent. intros Hdoc.
  destruct (ToString (name p)) as [projectName|e]; cbn [bind] in Hdoc; [|discriminate].
  injection Hdoc as <-.
  assert (T : forall v : option string, slot_truthy v = true ->
                exists s, v = Some s /\ (s =? "") = false).
  { intros [s|] Hv; [|discriminate]. exists s. split; [reflexivity|].
    simpl in Hv. destruct (s =? ""); [discriminate | reflexivity]. }
  split; [|split; [|split]].
  - unfold projectRuleText.
    repeat first [ apply includes_start; reflexivity | apply includes_skip ].
  - intros Hv. destruct (T _ Hv) as (s & Hs & Hne).
    unfold projectRuleText. rewrite Hs. unfold slot. rewrite Hne.
    repeat first [ apply includes_start; reflexivity | apply includes_skip ].
  - intros Hv. destruct (T _ Hv) as (s & Hs & Hne).
    unfold projectRuleText. rewrite Hs. unfold slot at 2 5 8. rewrite Hne.
    repeat first [ apply includes_start; reflexivity | apply includes_skip ].
  - intros Hv. destruct (T _ Hv) as (s & Hs & Hne).
    unfold projectRuleText. rewrite Hs. unfold slot at 3 6 9. rewrite Hne.
    repeat first [ apply includes_start; reflexivity | apply includes_skip ].
Qed.

(** ** The memory utilities *)

(** X3.  In a project whose memory directory exists and holds no directory
    under the name of either script, [createMemoryUtilities] succeeds and
    removes nothing; the two scripts hold their fixed texts, whatever was
    there before, and every other entry of the memory directory, the memory
    file included, is left as it was. *)
Theorem createMemoryUtilities_scripts (w : world) :
  statSync w (Rel [CONFIG_memoryDirName]) = Ok IsDirectory ->
  statSync w backupScriptPath <> Ok IsDirectory ->
  statSync w explorerScriptPath <> Ok IsDirectory ->
  exists w',
    createMemoryUtilities w = Ok w' /\
    keeps w w' /\
    readFileSync w' backupScriptPath = Ok backupScript /\
    readFileSync w' explorerScriptPath = Ok explorerScript /\
    (forall f, f <> "backup-memory.js" -> f <> "memory-explorer.js" ->
               node_at w' (Rel [CONFIG_memoryDirName; f])
               = node_at w (Rel [CONFIG_memoryDirName; f])).
Proof.
  intros Hd Hb He.
  destruct (writeFileSync_child w [CONFIG_memoryDirName] "backup-memory.js"
                                backupScript Hd Hb) as (w1 & E1 & K1 & P1 & O1).
  assert (He1 : statSync w1 (Rel ([CONFIG_memoryDirName] ++ ["memory-explorer.js"])%list)
                <> Ok IsDirectory).
  { rewrite (statSync_node_at w1 w _ (Rel [CONFIG_memoryDirName; "memory-explorer.js"]));
      [exact He|].
    apply O1. reflexivity. }
  destruct (writeFileSync_child w1 [CONFIG_memoryDirName] "memory-explorer.js"
                                explorerScript (proj2 K1 _ _ Hd) He1)
    as (w2 & E2 & K2 & P2 & O2).
  exists w2. split.
  { unfold createMemoryUtilities, backupScriptPath, explorerScriptPath.
    change (Rel [CONFIG_memoryDirName; "backup-memory.js"])
      with (Rel ([CONFIG_memoryDirName] ++ ["backup-memory.js"])%list).
    rewrite E1. cbn [bind].
    rewrite (chmodSync_after_write _ _ _ _ "755" E1). cbn [bind].
    change (Rel [CONFIG_memoryDirName; "memory-explorer.js"])
      with (Rel ([CONFIG_memoryDirName] ++ ["memory-explorer.js"])%list).
    rewrite E2. cbn [bind].
    exact (chmodSync_after_write _ _ _ _ "755" E2). }
  split; [exact (keeps_trans _ _ _ K1 K2)|].
  split.
  { unfold backupScriptPath.
    rewrite (readFileSync_node_at w2 w1 _ (Rel ([CONFIG_memoryDirName] ++ ["backup-memory.js"])%list));
      [exact P1|].
    apply O2. reflexivity. }
  split; [exact P2|].
  intros f Hf1 Hf2.
  change (Rel [CONFIG_memoryDirName; f]) with (Rel ([CONFIG_memoryDirName] ++ [f])%list).
  rewrite O2 by (apply apart_siblings; exact Hf2).
  apply O1. apply apart_siblings. exact Hf1.
Qed.

(** ** The directories *)

Lemma ensure_directory (w w' : world) (p : fpath) (recursive : bool) :
  (if existsSync w p then Ok w else mkdirSync w p recursive) = Ok w' ->
  keeps w w' /\ existsSync w' p = true /\
  (existsSync w p = true -> w' = w).
Proof.
  destruct (existsSync w p) eqn:He; intros E.
  - injection E as <-. split; [apply keeps_refl|]. split; [exact He | reflexivity].
  - split; [exact (mkdirSync_keeps _ _ _ _ E)|]. split; [|discriminate].
    apply existsSync_statSync. exists IsDirectory.
    exact (mkdirSync_directory _ _ _ _ E).
Qed.

Lemma createDirectories_keeps (w w' : world) :
  createDirectories w = Ok w' ->
  keeps w w' /\
  existsSync w' (Rel [CONFIG_memoryDirName]) = true /\
  existsSync w' (Rel [CONFIG_memoryDirName; "backups"]) = true /\
  existsSync w' (Rel CONFIG_rulesDirName) = true.
Proof.
  unfold createDirectories. intros E.
  destruct (if existsSync w (Rel [CONFIG_memoryDirName]) then Ok w
            else mkdirSync w (Rel [CONFIG_memoryDirName]) false) as [w1|e] eqn:E1;
    cbn [bind] in E; [|discriminate].
  destruct (ensure_directory _ _ _ _ E1) as (K1 & Hex1 & _).
  destruct (if existsSync w1 (Rel [CONFIG_memoryDirName; "backups"]) then Ok w1
            else mkdirSync w1 (Rel [CONFIG_memoryDirName; "backups"]) false)
    as [w2|e] eqn:E2; cbn [bind] in E; [|discriminate].
  destruct (ensure_directory _ _ _ _ E2) as (K2 & Hex2 & _).
  destruct (ensure_directory _ _ _ _ E) as (K3 & Hex3 & _).
  split; [exact (keeps_trans _ _ _ (keeps_trans _ _ _ K1 K2) K3)|].
  split; [exact (keeps_existsSync _ _ _ K3 (keeps_existsSync _ _ _ K2 Hex1))|].
  split; [exact (keeps_existsSync _ _ _ K3 Hex2) | exact Hex3].
Qed.

(** X4.  When [createDirectories] returns, nothing has been removed, the
    memory directory is a directory, its [backups] entry and the rules
    directory exist, and a second call changes nothing. *)
Theorem createDirectories_ensures (w w' : world) :
  createDirectories w = Ok w' ->
  keeps w w' /\
  statSync w' (Rel [CONFIG_memoryDirName]) = Ok IsDirectory /\
  existsSync w' (Rel [CONFIG_memoryDirName; "backups"]) = true /\
  existsSync w' (Rel CONFIG_rulesDirName) = true /\
  createDirectories w' = Ok w'.
Proof.
  intros E. destruct (createDirectories_keeps _ _ E) as (K & Hex1 & Hex2 & Hex3).
  split; [exact K|]. split.
  { unfold existsSync in Hex2. unfold statSync.
    destruct (node_at w' (Rel [CONFIG_memoryDirName; "backups"])) as [x|] eqn:Hx;
      [|discriminate].
    unfold node_at in *. cbn [resolve] in *.
    change (cwd w' ++ [CONFIG_memoryDirName; "backups"])%list
      with (cwd w' ++ [CONFIG_memoryDirName] ++ ["backups"])%list in Hx.
    rewrite app_assoc in Hx.
    destruct (lookup_below _ _ _ _ Hx) as (l & es & Hd). rewrite Hd. reflexivity. }
  split; [exact Hex2|]. split; [exact Hex3|].
  unfold createDirectories. rewrite Hex1. cbn [bind]. rewrite Hex2. cbn [bind].
  rewrite Hex3. reflexivity.
Qed.

Lemma mkdirp_empty (rest : segments) :
  exists c, mkdirp (Dir true []) rest = Some c /\ lookup c rest = Some (Dir true []).
Proof.
  induction rest as [|r rest IH].
  - exists (Dir true []). split; reflexivity.
  - destruct IH as (c & Hc & Hl). exists (Dir true [(r, c)]).
    simpl. rewrite Hc. split; [reflexivity|]. rewrite String.eqb_refl. exact Hl.
Qed.

(** the directories made below an existing one, from the first missing
    segment on, are new and empty *)
Lemma mkdirp_fresh (pre : segments) (s : string) (rest : segments) :
  forall (n : node) l es,
    lookup n pre = Some (Dir l es) ->
    entry_get s es = None ->
    exists n', mkdirp n (pre ++ s :: rest)%list = Some n' /\
               lookup n' (pre ++ s :: rest)%list = Some (Dir true []).
Proof.
  induction pre as [|a pre IH]; intros n l es Hd Hs.
  - simpl in Hd. injection Hd as ->. destruct (mkdirp_empty rest) as (c & Hc & Hl).
    exists (Dir l (entry_set s c es)). simpl. rewrite Hs, Hc.
    split; [reflexivity|]. rewrite entry_get_set_same. exact Hl.
  - simpl in Hd. destruct n as [c|l0 es0|]; try discriminate.
    destruct (entry_get a es0) as [c|] eqn:Hc; [|discriminate].
    destruct (IH c l es Hd Hs) as (c' & Hc' & Hl).
    exists (Dir l0 (entry_set a c' es0)). simpl. rewrite Hc, Hc'.
    split; [reflexivity|]. rewrite entry_get_set_same. exact Hl.
Qed.

Lemma lookup_missing_entry (n : node) (pre : segments) (s : string) l es :
  lookup n pre = Some (Dir l es) ->
  lookup n (pre ++ [s])%list = None ->
  entry_get s es = None.
Proof.
  intros Hd Hn. rewrite lookup_app, Hd in Hn. simpl in Hn.
  destruct (entry_get s es); [discriminate | reflexivity].
Qed.

Lemma lookup_missing_below (n : node) (pre rest : segments) :
  lookup n pre = None -> lookup n (pre ++ rest)%list = None.
Proof. intros Hn. rewrite lookup_app, Hn. reflexivity. Qed.

Lemma lookup_in_empty (n : node) (p : segments) (s : string) :
  lookup n p = Some (Dir true []) -> lookup n (p ++ [s])%list = None.
Proof. intros Hn. rewrite lookup_app, Hn. reflexivity. Qed.

(** making directories changes no path that parts from theirs *)
Lemma mkdirp_apart (p : segments) : forall (n n' : node) (q : segments),
  apart p q = true -> mkdirp n p = Some n' -> lookup n' q = lookup n q.
Proof.
  induction p as [|a p IH]; intros n n' q Hap Hm.
  - discriminate.
  - destruct q as [|b q]; [discriminate|]. simpl in Hap.
    destruct n as [c|l es|]; try discriminate. simpl in Hm.
    destruct (mkdirp match entry_get a es with Some c => c | None => Dir true [] end p)
      as [c'|] eqn:Hc'; [|discriminate].
    injection Hm as <-. simpl.
    destruct (String.eqb_spec a b) as [->|Hne].
    + rewrite entry_get_set_same.
      rewrite (IH _ _ q Hap Hc').
      destruct (entry_get b es) as [c|]; [reflexivity|].
      destruct q as [|b2 q]; [destruct p; discriminate | reflexivity].
    + rewrite entry_get_set_other; [reflexivity|].
      intros E. apply Hne. symmetry. exact E.
Qed.

(** [fs.mkdirSync] of a missing entry of a directory *)
Lemma mkdirSync_in_directory (w : world) (dir : segments) (s : string) :
  statSync w (Rel dir) = Ok IsDirectory ->
  node_at w (Rel (dir ++ [s])%list) = None ->
  exists w',
    mkdirSync w (Rel (dir ++ [s])%list) false = Ok w' /\
    node_at w' (Rel (dir ++ [s])%list) = Some (Dir true []) /\
    (forall q, apart (dir ++ [s])%list q = true ->
               node_at w' (Rel q) = node_at w (Rel q)).
Proof.
  intros Hd Hn. destruct (statSync_directory _ _ Hd) as (l & es & Hdir).
  unfold node_at in Hdir. cbn [resolve] in Hdir.
  destruct (put_in_directory (cwd w ++ dir)%list s (root w) (Dir true []) l es Hdir)
    as [r Hr].
  rewrite <- app_assoc in Hr.
  exists (with_root r w). split.
  { unfold mkdirSync. rewrite Hn. cbn [resolve]. rewrite Hr. reflexivity. }
  split.
  { rewrite node_at_with_root. exact (lookup_put _ _ _ _ Hr). }
  intros q Hq. rewrite node_at_with_root. unfold node_at. cbn [resolve].
  apply (lookup_put_apart _ _ _ _ _ (eq_trans (apart_app _ _ _) Hq) Hr).
Qed.

(** X5.  In a project directory that has neither a memory directory nor a
    [.cursor] entry, [createDirectories] succeeds: it removes nothing, and
    leaves an empty [backups] directory in the new memory directory and an
    empty rules directory, made with its parent, so that the rules can be
    generated next. *)
Theorem createDirectories_fresh (w : world) :
  statSync w (Rel []) = Ok IsDirectory ->
  node_at w (Rel [CONFIG_memoryDirName]) = None ->
  node_at w (Rel [".cursor"]) = None ->
  exists w',
    createDirectories w = Ok w' /\
    keeps w w' /\
    statSync w' (Rel [CONFIG_memoryDirName]) = Ok IsDirectory /\
    node_at w' (Rel [CONFIG_memoryDirName; "backups"]) = Some (Dir true []) /\
    node_at w' (Rel CONFIG_rulesDirName) = Some (Dir true []) /\
    rulesReady w'.
Proof.
  intros Hroot Hm Hc.
  destruct (mkdirSync_in_directory w [] CONFIG_memoryDirName Hroot Hm)
    as (w1 & E1 & N1 & O1).
  assert (D1 : statSync w1 (Rel [CONFIG_memoryDirName]) = Ok IsDirectory).
  { unfold statSync. cbn [app] in N1. rewrite N1. reflexivity. }
  assert (B1 : node_at w1 (Rel ([CONFIG_memoryDirName] ++ ["backups"])%list) = None).
  { unfold node_at in *. cbn [resolve app] in *.
    change (cwd w1 ++ [CONFIG_memoryDirName; "backups"])%list
      with (cwd w1 ++ [CONFIG_memoryDirName] ++ ["backups"])%list.
    rewrite app_assoc. apply lookup_in_empty. exact N1. }
  destruct (mkdirSync_in_directory w1 [CONFIG_memoryDirName] "backups" D1 B1)
    as (w2 & E2 & N2 & O2).
  assert (K1 : keeps w w1) by exact (mkdirSync_keeps _ _ _ _ E1).
  assert (K2 : keeps w1 w2) by exact (mkdirSync_keeps _ _ _ _ E2).
  assert (C2 : node_at w2 (Rel [".cursor"]) = None).
  { rewrite O2 by reflexivity. rewrite O1 by reflexivity. exact Hc. }
  assert (R2 : statSync w2 (Rel []) = Ok IsDirectory).
  { apply K2. apply K1. exact Hroot. }
  destruct (statSync_directory _ _ R2) as (l & es & Hdir).
  unfold node_at in Hdir, C2. cbn [resolve] in Hdir, C2.
  rewrite app_nil_r in Hdir.
  pose proof (lookup_missing_entry _ _ _ _ _ Hdir C2) as Hs.
  destruct (mkdirp_fresh (cwd w2) ".cursor" ["rules"] (root w2) l es Hdir Hs)
    as (r & Hr & Hl).
  assert (E3 : mkdirSync w2 (Rel CONFIG_rulesDirName) true = Ok (with_root r w2)).
  { unfold mkdirSync. cbn [resolve]. unfold CONFIG_rulesDirName. rewrite Hr. reflexivity. }
  assert (Hex3 : existsSync w2 (Rel CONFIG_rulesDirName) = false).
  { unfold existsSync, node_at. cbn [resolve].
    change (cwd w2 ++ CONFIG_rulesDirName)%list
      with (cwd w2 ++ [".cursor"] ++ ["rules"])%list.
    rewrite app_assoc, (lookup_missing_below _ _ _ C2). reflexivity. }
  assert (K3 : keeps w2 (with_root r w2)) by exact (mkdirSync_keeps _ _ _ _ E3).
  assert (N3 : node_at (with_root r w2) (Rel CONFIG_rulesDirName) = Some (Dir true [])).
  { rewrite node_at_with_root. exact Hl. }
  exists (with_root r w2). split.
  { unfold createDirectories. unfold existsSync at 1. rewrite Hm.
    cbn [app] in E1. rewrite E1. cbn [bind].
    unfold existsSync at 1. cbn [app] in B1. rewrite B1.
    cbn [app] in E2. rewrite E2. cbn [bind].
    rewrite Hex3. exact E3. }
  split; [exact (keeps_trans _ _ _ (keeps_trans _ _ _ K1 K2) K3)|].
  split; [apply K3; apply K2; exact D1|].
  split.
  { rewrite node_at_with_root. cbn [app] in N2. rewrite <- N2.
    unfold node_at. cbn [resolve].
    apply (mkdirp_apart _ _ _ _
             (eq_trans (apart_app (cwd w2) [".cursor"; "rules"]
                                  [CONFIG_memoryDirName; "backups"]) eq_refl) Hr). }
  split; [exact N3|].
  split.
  - unfold statSync. rewrite N3. reflexivity.
  - intros file E. unfold statSync, rulePath, node_at in E. cbn [resolve] in E.
    unfold node_at in N3. cbn [resolve] in N3.
    rewrite app_assoc, (lookup_in_empty _ _ file N3) in E. discriminate.
Qed.

(** ** The run as a whole *)

Lemma sameProcess_path_text (w w' : world) (p : segments) :
  sameProcess w w' -> path_text w' p = path_text w p.
Proof.
  intros (_ & Hp & _ & _ & Hd). unfold path_text, sep. rewrite Hp, Hd. reflexivity.
Qed.

Section RunProperties.

Context `{Runtime} `{Matcher}.

Lemma sameProcess_configDir (w w' : world) :
  sameProcess w w' -> configDir w' = configDir w.
Proof.
  intros (_ & Hp & Hh & Ha & _). unfold configDir. rewrite Hp, Hh, Ha. reflexivity.
Qed.

(** X6.  When the configuration directory of the IDE does not exist yet,
    from some segment below an existing directory on, [configureCursor]
    makes it with its missing ancestors and writes the configuration, which
    names the memory file of the working directory; nothing is removed. *)
Theorem configureCursor_makes_directory (w : world) (pre : segments) (s : string)
    (rest : segments) :
  configDir w = Ok (pre ++ s :: rest)%list ->
  statSync w (Abs pre) = Ok IsDirectory ->
  node_at w (Abs (pre ++ [s])%list) = None ->
  exists w',
    configureCursor w = Ok w' /\
    keeps w w' /\
    statSync w' (Abs (pre ++ s :: rest)%list) = Ok IsDirectory /\
    readFileSync w' (configPathIn (pre ++ s :: rest)%list)
    = Ok (JSON_stringify
            (cursorConfig
               (path_text w (cwd w ++ [CONFIG_memoryDirName; CONFIG_memoryFileName])%list))).
Proof.
  intros Hc Hd Hn.
  destruct (statSync_directory _ _ Hd) as (l & es & Hdir).
  unfold node_at in Hdir, Hn. cbn [resolve] in Hdir, Hn.
  pose proof (lookup_missing_entry _ _ _ _ _ Hdir Hn) as Hs.
  destruct (mkdirp_fresh pre s rest (root w) l es Hdir Hs) as (r & Hr & Hl).
  assert (E1 : mkdirSync w (Abs (pre ++ s :: rest)%list) true = Ok (with_root r w)).
  { unfold mkdirSync. cbn [resolve]. rewrite Hr. reflexivity. }
  assert (Hex1 : existsSync w (Abs (pre ++ s :: rest)%list) = false).
  { unfold existsSync, node_at. cbn [resolve].
    change (pre ++ s :: rest)%list with (pre ++ [s] ++ rest)%list.
    rewrite app_assoc, (lookup_missing_below _ _ _ Hn). reflexivity. }
  assert (K1 : keeps w (with_root r w)) by exact (mkdirSync_keeps _ _ _ _ E1).
  assert (D1 : statSync (with_root r w) (Abs (pre ++ s :: rest)%list) = Ok IsDirectory)
    by exact (mkdirSync_directory _ _ _ _ E1).
  assert (F1 : statSync (with_root r w)
                        (Abs ((pre ++ s :: rest) ++ ["claude_desktop_config.json"])%list)
               <> Ok IsDirectory).
  { unfold statSync. rewrite node_at_with_root. cbn [resolve].
    rewrite (lookup_in_empty _ _ _ Hl). discriminate. }
  destruct (writeFileSync_below_absolute
              (with_root r w) (pre ++ s :: rest)%list "claude_desktop_config.json"
              (JSON_stringify
                 (cursorConfig
                    (path_text w (cwd w ++ [CONFIG_memoryDirName; CONFIG_memoryFileName])%list)))
              D1 F1) as (w2 & E2).
  exists w2. split.
  { unfold configureCursor. rewrite Hc. cbn [bind]. rewrite Hex1, E1. cbn [bind].
    exact E2. }
  pose proof (writeFileSync_keeps _ _ _ _ E2) as K2.
  split; [exact (keeps_trans _ _ _ K1 K2)|].
  split; [apply K2; exact D1|].
  exact (readFileSync_writeFileSync _ _ _ _ E2).
Qed.

Lemma configureCursor_keeps (w w' : world) :
  configureCursor w = Ok w' ->
  keeps w w' /\
  exists dir, configDir w = Ok dir /\ existsSync w' (configPathIn dir) = true.
Proof.
  unfold configureCursor. intros E.
  destruct (configDir w) as [dir|e]; cbn [bind] in E; [|discriminate].
  destruct (if existsSync w (Abs dir) then Ok w else mkdirSync w (Abs dir) true)
    as [w1|e] eqn:E1; cbn [bind] in E; [|discriminate].
  destruct (ensure_directory _ _ _ _ E1) as (K1 & _ & _).
  split; [exact (keeps_trans _ _ _ K1 (writeFileSync_keeps _ _ _ _ E))|].
  exists dir. split; [reflexivity|]. exact (existsSync_writeFileSync _ _ _ _ E).
Qed.

Lemma optional_rule_keeps (w w' : world) (write : bool) (p : fpath) (text : string) :
  (if write then writeFileSync w p text else Ok w) = Ok w' -> keeps w w'.
Proof.
  destruct write; intros E.
  - exact (writeFileSync_keeps _ _ _ _ E).
  - injection E as <-. apply keeps_refl.
Qed.

Lemma generateRules_keeps (w w' : world) (p : ProjectInfo) :
  generateRules w p = Ok w' ->
  keeps w w' /\
  existsSync w' (rulePath "project-rules.mdc") = true /\
  existsSync w' bestPracticesPath = true.
Proof.
  unfold generateRules, createProjectRule, createAuthRule, createDataManagementRule,
    createUIComponentsRule, createBestPracticesRule.
  intros E.
  destruct (projectRuleContent p) as [ruleContent|e]; cbn [bind] in E; [|discriminate].
  destruct (writeFileSync w (rulePath "project-rules.mdc") ruleContent)
    as [w1|e] eqn:E1; cbn [bind] in E; [|discriminate].
  destruct (if slot_truthy (auth (patterns p))
            then writeFileSync w1 (rulePath "auth-rules.mdc") (authRuleContent p)
            else Ok w1) as [w2|e] eqn:E2; cbn [bind] in E; [|discriminate].
  destruct (if slot_truthy (dataManagement (patterns p))
            then writeFileSync w2 (rulePath "data-management-rules.mdc") (dataRuleContent p)
            else Ok w2) as [w3|e] eqn:E3; cbn [bind] in E; [|discriminate].
  destruct (if slot_truthy (ui (patterns p))
            then writeFileSync w3 (rulePath "ui-components-rules.mdc") (uiRuleContent p)
            else Ok w3) as [w4|e] eqn:E4; cbn [bind] in E; [|discriminate].
  pose proof (writeFileSync_keeps _ _ _ _ E1) as K1.
  pose proof (optional_rule_keeps _ _ _ _ _ E2) as K2.
  pose proof (optional_rule_keeps _ _ _ _ _ E3) as K3.
  pose proof (optional_rule_keeps _ _ _ _ _ E4) as K4.
  assert (K5 : keeps w4 w' /\ existsSync w' bestPracticesPath = true).
  { destruct (existsSync w4 bestPracticesPath) eqn:X.
    - injection E as <-. split; [apply keeps_refl | exact X].
    - split; [exact (writeFileSync_keeps _ _ _ _ E)
             | exact (existsSync_writeFileSync _ _ _ _ E)]. }
  destruct K5 as [K5 Hex5].
  split.
  { exact (keeps_trans _ _ _ (keeps_trans _ _ _ (keeps_trans _ _ _
             (keeps_trans _ _ _ K1 K2) K3) K4) K5). }
  split; [|exact Hex5].
  apply (keeps_existsSync w1 w').
  - exact (keeps_trans _ _ _ (keeps_trans _ _ _ (keeps_trans _ _ _ K2 K3) K4) K5).
  - exact (existsSync_writeFileSync _ _ _ _ E1).
Qed.

Lemma createMemoryFile_keeps (w w' : world) (p : ProjectInfo) (projectContext : string) :
  createMemoryFile w p projectContext = Ok w' ->
  keeps w w' /\ existsSync w' memoryPath = true.
Proof.
  unfold createMemoryFile.
  pose proof (new_Date_keeps w) as K1.
  destruct (new_Date w) as [t1 w1]. cbn [snd] in K1.
  pose proof (new_Date_keeps w1) as K2.
  destruct (new_Date w1) as [t2 w2]. cbn [snd] in K2.
  intros E. destruct (setupContent p) as [content|e]; cbn [bind] in E; [|discriminate].
  split.
  - exact (keeps_trans _ _ _ (keeps_trans _ _ _ K1 K2) (writeFileSync_keeps _ _ _ _ E)).
  - exact (existsSync_writeFileSync _ _ _ _ E).
Qed.

Lemma createMemoryUtilities_keeps (w w' : world) :
  createMemoryUtilities w = Ok w' ->
  keeps w w' /\
  existsSync w' backupScriptPath = true /\
  existsSync w' explorerScriptPath = true.
Proof.
  unfold createMemoryUtilities. intros E.
  destruct (writeFileSync w backupScriptPath backupScript) as [w1|e] eqn:E1;
    cbn [bind] in E; [|discriminate].
  destruct (chmodSync w1 backupScriptPath "755") as [w2|e] eqn:E2;
    cbn [bind] in E; [|discriminate].
  apply chmodSync_same in E2. subst w2.
  destruct (writeFileSync w1 explorerScriptPath explorerScript) as [w3|e] eqn:E3;
    cbn [bind] in E; [|discriminate].
  apply chmodSync_same in E. subst w'.
  pose proof (writeFileSync_keeps _ _ _ _ E1) as K1.
  pose proof (writeFileSync_keeps _ _ _ _ E3) as K3.
  split; [exact (keeps_trans _ _ _ K1 K3)|].
  split.
  - exact (keeps_existsSync _ _ _ K3 (existsSync_writeFileSync _ _ _ _ E1)).
  - exact (existsSync_writeFileSync _ _ _ _ E3).
Qed.

Lemma createCursorWorkspaceSettings_keeps (w w' : world) :
  createCursorWorkspaceSettings w = Ok w' ->
  keeps w w' /\ existsSync w' settingsPath = true.
Proof.
  unfold createCursorWorkspaceSettings. intros E.
  destruct (if existsSync w cursorDir then Ok w else mkdirSync w cursorDir false)
    as [w1|e] eqn:E1; cbn [bind] in E; [|discriminate].
  destruct (ensure_directory _ _ _ _ E1) as (K1 & _ & _).
  split.
  - exact (keeps_trans _ _ _ K1 (writeFileSync_keeps _ _ _ _ E)).
  - exact (existsSync_writeFileSync _ _ _ _ E).
Qed.

Lemma installMCPServer_manifest (w w' : world) :
  installMCPServer w = Ok w' -> existsSync w' packageJsonPath = true.
Proof.
  unfold installMCPServer, try_catch, updatePackageJson. intros E.
  destruct (installPackage w) as [w1|e]; cbn [bind] in E; [|discriminate].
  destruct (readFileSync w1 packageJsonPath) as [text|e]; cbn [bind] in E;
    [|discriminate].
  destruct (parseJSON text) as [v|e]; cbn [bind] in E; [|discriminate].
  destruct (addMcpScript v) as [v'|e]; cbn [bind] in E; [|discriminate].
  destruct (writeFileSync w1 packageJsonPath (JSON_stringify v')) as [w2|e] eqn:E2;
    [|discriminate].
  injection E as <-. exact (existsSync_writeFileSync _ _ _ _ E2).
Qed.

(** X7.  When the ten steps of [setupMCP] have all run, the verification at
    the end finds the memory file and the configuration of the IDE, and the
    manifest, the memory directory with its two scripts, the project rule,
    the best-practices rule and the workspace settings all exist. *)
Theorem setupMCP_complete (w w' : world) :
  setupMCP w = Ok w' ->
  (exists report,
     performVerification w' = Ok report /\
     memoryFileFound report = true /\
     configFound report = true) /\
  existsSync w' packageJsonPath = true /\
  statSync w' (Rel [CONFIG_memoryDirName]) = Ok IsDirectory /\
  existsSync w' backupScriptPath = true /\
  existsSync w' explorerScriptPath = true /\
  existsSync w' (rulePath "project-rules.mdc") = true /\
  existsSync w' bestPracticesPath = true /\
  existsSync w' settingsPath = true.
Proof.
  unfold setupMCP. intros E.
  destruct (installMCPServer w) as [w1|e] eqn:E1; cbn [bind] in E; [|discriminate].
  destruct (analyzeProject w1) as [info|e]; cbn [bind] in E; [|discriminate].
  destruct (ToString (name info)) as [projectName|e]; cbn [bind] in E; [|discriminate].
  destruct (createDirectories w1) as [w2|e] eqn:E2; cbn [bind] in E; [|discriminate].
  destruct (configureCursor w2) as [w3|e] eqn:E3; cbn [bind] in E; [|discriminate].
  destruct (generateRules w3 info) as [w4|e] eqn:E4; cbn [bind] in E; [|discriminate].
  destruct (extractProjectContext w4) as [context|e]; cbn [bind] in E; [|discriminate].
  destruct (createMemoryFile w4 info context) as [w5|e] eqn:E5; cbn [bind] in E;
    [|discriminate].
  destruct (createMemoryUtilities w5) as [w6|e] eqn:E6; cbn [bind] in E; [|discriminate].
  destruct (createCursorWorkspaceSettings w6) as [w7|e] eqn:E7; cbn [bind] in E;
    [|discriminate].
  destruct (performVerification w7) as [report|e] eqn:E8; cbn [bind] in E;
    [|discriminate].
  injection E as <-.
  pose proof (installMCPServer_manifest _ _ E1) as M1.
  destruct (createDirectories_keeps _ _ E2) as (K2 & D2 & B2 & _).
  destruct (configureCursor_keeps _ _ E3) as (K3 & dir & Hdir & C3).
  destruct (generateRules_keeps _ _ _ E4) as (K4 & P4 & R4).
  destruct (createMemoryFile_keeps _ _ _ _ E5) as (K5 & F5).
  destruct (createMemoryUtilities_keeps _ _ E6) as (K6 & S6 & T6).
  destruct (createCursorWorkspaceSettings_keeps _ _ E7) as (K7 & U7).
  pose proof (keeps_trans _ _ _ K6 K7) as K67.
  pose proof (keeps_trans _ _ _ K5 K67) as K57.
  pose proof (keeps_trans _ _ _ K4 K57) as K47.
  pose proof (keeps_trans _ _ _ K3 K47) as K37.
  pose proof (keeps_trans _ _ _ K2 K37) as K27.
  split.
  { exists report. split; [exact E8|].
    unfold performVerification in E8.
    rewrite (sameProcess_configDir _ _ (proj1 K37)), Hdir in E8. cbn [bind] in E8.
    injection E8 as <-. cbn [memoryFileFound configFound]. split.
    - exact (keeps_existsSync _ _ _ K67 F5).
    - exact (keeps_existsSync _ _ _ K47 C3). }
  split; [exact (keeps_existsSync _ _ _ K27 M1)|].
  split.
  { apply K37.
    unfold existsSync in B2. unfold statSync.
    destruct (node_at w2 (Rel [CONFIG_memoryDirName; "backups"])) as [x|] eqn:Hx;
      [|discriminate].
    unfold node_at in *. cbn [resolve] in *.
    change (cwd w2 ++ [CONFIG_memoryDirName; "backups"])%list
      with (cwd w2 ++ [CONFIG_memoryDirName] ++ ["backups"])%list in Hx.
    rewrite app_assoc in Hx.
    destruct (lookup_below _ _ _ _ Hx) as (l & es & Hd). rewrite Hd. reflexivity. }
  split; [exact (keeps_existsSync _ _ _ K7 S6)|].
  split; [exact (keeps_existsSync _ _ _ K7 T6)|].
  split; [exact (keeps_existsSync _ _ _ K57 P4)|].
  split; [exact (keeps_existsSync _ _ _ K57 R4)|].
  exact U7.
Qed.

End RunProperties.

(** ** The fingerprinter, step by step *)

Lemma sameSetting_refl (p : ProjectInfo) : sameSetting p p.
Proof. repeat split. Qed.

Lemma sameSetting_trans (p q r : ProjectInfo) :
  sameSetting p q -> sameSetting q r -> sameSetting p r.
Proof.
  intros (A1 & A2 & A3 & A4 & A5 & A6 & A7 & A8) (B1 & B2 & B3 & B4 & B5 & B6 & B7 & B8).
  repeat split; etransitivity; eassumption.
Qed.

Lemma detectTesting_setting (deps : members) (p : ProjectInfo) :
  sameSetting p (detectTesting deps p).
Proof. unfold detectTesting, when. branches; repeat split. Qed.

Lemma detectPrimary_setting (deps : members) (p : ProjectInfo) :
  sameSetting p (detectPrimary deps p).
Proof. unfold detectPrimary, when. branches; repeat split. Qed.

Lemma detectState_setting (deps : members) (p : ProjectInfo) :
  sameSetting p (detectState deps p).
Proof. unfold detectState, when. branches; repeat split. Qed.

Lemma detectAuth_setting (deps : members) (p : ProjectInfo) :
  sameSetting p (detectAuth deps p).
Proof. unfold detectAuth. branches; repeat split. Qed.

Lemma detectData_setting (deps : members) (p : ProjectInfo) :
  sameSetting p (detectData deps p).
Proof. unfold detectData. branches; repeat split. Qed.

Lemma detectUI_setting (deps : members) (p : ProjectInfo) :
  sameSetting p (detectUI deps p).
Proof. unfold detectUI. branches; repeat split. Qed.

Lemma detectFromDeps_setting (deps : members) (p : ProjectInfo) :
  sameSetting p (detectFromDeps deps p).
Proof.
  unfold detectFromDeps.
  eapply sameSetting_trans; [|apply detectUI_setting].
  eapply sameSetting_trans; [|apply detectData_setting].
  eapply sameSetting_trans; [|apply detectAuth_setting].
  eapply sameSetting_trans; [|apply detectState_setting].
  eapply sameSetting_trans; [|apply detectPrimary_setting].
  apply detectTesting_setting.
Qed.

Section StepProperties.

Context `{Runtime}.

(** what the Python branch does to a profile *)
Lemma detectPython_shape (w : world) (p q : ProjectInfo) :
  detectPython w p = Ok q ->
  sameSetting p q /\
  name q = name p /\
  type q = "Python" /\
  patterns q = patterns p /\
  (exists fw, frameworks q = (frameworks p ++ fw)%list /\
              (fw = [] \/ exists f, In f pythonFrameworks /\ fw = [f]) /\
              (existsSync w (Rel ["manage.py"]) || existsSync w (Rel ["django_project"]) = true ->
               fw = ["Django"]) /\
              (existsSync w (Rel ["manage.py"]) || existsSync w (Rel ["django_project"]) = false ->
               existsSync w (Rel ["app.py"]) = true -> fw = ["Flask"])) /\
  (exists ts, testing q = (testing p ++ ts)%list /\
              subsequence ts ["pytest"; "unittest"] = true).
Proof.
  unfold detectPython, existsOrMentions, when. intros Hq.
  destruct (existsSync w (Rel ["manage.py"]) || existsSync w (Rel ["django_project"]));
    destruct (existsSync w (Rel ["app.py"]));
    repeat (cbn [bind] in Hq;
            match type of Hq with
            | context [if ?b then _ else _] => destruct b
            | context [bind (pySourceMentions ?w0 ?n) _] =>
                destruct (pySourceMentions w0 n)
            end);
    try discriminate; injection Hq as <-;
    (split; [repeat split|]);
    (split; [reflexivity|]); (split; [reflexivity|]); (split; [reflexivity|]);
    cbn [frameworks testing push_framework push_testing set_type];
    (split;
     [ first
         [ exists ["Django"]; split; [reflexivity|];
           split; [right; exists "Django"; split; [simpl; tauto | reflexivity]|];
           split; [reflexivity | intros; first [discriminate | reflexivity]]
         | exists ["Flask"]; split; [reflexivity|];
           split; [right; exists "Flask"; split; [simpl; tauto | reflexivity]|];
           split; intros; first [discriminate | reflexivity]
         | exists ["FastAPI"]; split; [reflexivity|];
           split; [right; exists "FastAPI"; split; [simpl; tauto | reflexivity]|];
           split; intros; discriminate
         | exists []; split; [symmetry; apply app_nil_r|];
           split; [left; reflexivity|]; split; intros; discriminate ]
     | first
         [ exists ["pytest"; "unittest"]; split; [rewrite <- app_assoc; reflexivity | reflexivity]
         | exists ["pytest"]; split; reflexivity
         | exists ["unittest"]; split; reflexivity
         | exists []; split; [symmetry; apply app_nil_r | reflexivity] ] ]).
Qed.

(** the three ways in which the ecosystem step returns *)
Lemma detectEcosystem_inv (w : world) (p q : ProjectInfo) :
  detectEcosystem w p = Ok q ->
  (existsSync w packageJsonPath = true /\
   exists text packageJson nm dependencies devDependencies,
     readFileSync w packageJsonPath = Ok text /\
     JSON_parse text = Some packageJson /\
     get_prop packageJson "name" = Ok nm /\
     get_prop packageJson "dependencies" = Ok dependencies /\
     get_prop packageJson "devDependencies" = Ok devDependencies /\
     q = detectFromDeps (mergedDeps dependencies devDependencies)
                        (set_name (declaredName nm p) p)) \/
  (existsSync w packageJsonPath = false /\ hasPythonMarker w = true /\
   detectPython w p = Ok q) \/
  (existsSync w packageJsonPath = false /\ hasPythonMarker w = false /\ q = p).
Proof.
  unfold detectEcosystem, detectPackageJson, parseJSON. intros Hq.
  destruct (existsSync w packageJsonPath).
  - left. split; [reflexivity|].
    destruct (readFileSync w packageJsonPath) as [text|] eqn:Hr; cbn [bind] in Hq;
      [|discriminate].
    destruct (JSON_parse text) as [v|] eqn:Hv; cbn [bind] in Hq; [|discriminate].
    destruct (get_prop v "name") as [nm|] eqn:Hn; cbn [bind] in Hq; [|discriminate].
    destruct (get_prop v "dependencies") as [ds|] eqn:Hd; cbn [bind] in Hq;
      [|discriminate].
    destruct (get_prop v "devDependencies") as [dds|] eqn:Hdd; cbn [bind] in Hq;
      [|discriminate].
    injection Hq as <-. exists text, v, nm, ds, dds.
    repeat split; first [assumption | reflexivity].
  - right. destruct (hasPythonMarker w).
    + left. repeat split. exact Hq.
    + right. injection Hq as <-. repeat split.
Qed.

Lemma detectEcosystem_setting (w : world) (p q : ProjectInfo) :
  detectEcosystem w p = Ok q -> sameSetting p q.
Proof.
  intros Hq. destruct (detectEcosystem_inv _ _ _ Hq)
    as [(_ & text & v & nm & ds & dds & _ & _ & _ & _ & _ & ->)
       |[(_ & _ & Hpy)|(_ & _ & ->)]].
  - eapply sameSetting_trans; [|apply detectFromDeps_setting]. repeat split.
  - exact (proj1 (detectPython_shape _ _ _ Hpy)).
  - apply sameSetting_refl.
Qed.

(** the monorepo step sets the flag or leaves the profile as it is *)
Lemma detectMonorepo_inv (w : world) (p q : ProjectInfo) :
  detectMonorepo w p = Ok q ->
  exists b : bool,
    q = (if b then set_isMonorepo true p else p) /\
    (b = true <->
     existsSync w (Rel ["lerna.json"]) = true \/
     existsSync w (Rel ["pnpm-workspace.yaml"]) = true \/
     workspacesDeclared w).
Proof.
  unfold detectMonorepo, parseJSON, workspacesDeclared. intros Hq.
  destruct (existsSync w (Rel ["lerna.json"])).
  { injection Hq as <-. exists true. split; [reflexivity|]. split; [tauto | reflexivity]. }
  destruct (existsSync w (Rel ["pnpm-workspace.yaml"])).
  { injection Hq as <-. exists true. split; [reflexivity|]. split; [tauto | reflexivity]. }
  destruct (existsSync w packageJsonPath) eqn:Hex.
  - destruct (readFileSync w packageJsonPath) as [text|] eqn:Hr; cbn [bind] in Hq;
      [|discriminate].
    destruct (JSON_parse text) as [v|] eqn:Hv; cbn [bind] in Hq; [|discriminate].
    destruct (get_prop v "workspaces") as [ws|] eqn:Hws; cbn [bind] in Hq;
      [|discriminate].
    destruct (truthy_opt ws) eqn:Ht; injection Hq as <-.
    + exists true. split; [reflexivity|]. split; [|reflexivity].
      intros _. right. right. destruct ws as [x|]; [|discriminate].
      exists text, v, x. repeat split; first [assumption | exact Ht].
    + exists false. split; [reflexivity|]. split; [discriminate|].
      intros [E|[E|(text' & v' & ws' & E1 & E2 & E3 & E4)]]; try discriminate.
      injection E1 as <-. rewrite Hv in E2. injection E2 as <-.
      rewrite Hws in E3. injection E3 as ->. simpl in Ht. congruence.
  - injection Hq as <-. exists false. split; [reflexivity|]. split; [discriminate|].
    intros [E|[E|(text' & v' & ws' & E1 & _)]]; try discriminate.
    apply readFileSync_exists in E1. congruence.
Qed.

(** the steps of [detectProject] *)
Lemma detectProject_inv (w : world) (p : ProjectInfo) :
  detectProject w = Ok p ->
  exists p1,
    detectMonorepo w (findRepoRoot w (initialInfo w)) = Ok p1 /\
    detectEcosystem w (scanConfigFiles w p1) = Ok p.
Proof.
  unfold detectProject. intros Hp.
  destruct (detectMonorepo w (findRepoRoot w (initialInfo w))) as [p1|e];
    cbn [bind] in Hp; [|discriminate].
  exists p1. split; [reflexivity | exact Hp].
Qed.

Lemma analyzeProject_inv (w : world) (p : ProjectInfo) :
  analyzeProject w = Ok p ->
  exists p0, detectProject w = Ok p0 /\ p = analyzeStructure w p0.
Proof.
  unfold analyzeProject. intros Hp.
  destruct (detectProject w) as [p0|e]; cbn [bind] in Hp; [|discriminate].
  injection Hp as <-. exists p0. split; reflexivity.
Qed.

End StepProperties.

(** ** Subsequences *)

Lemma subsequence_nil_l (m : list string) : subsequence [] m = true.
Proof. destruct m; reflexivity. Qed.

Lemma subsequence_nil_r (l : list string) : subsequence l [] = true -> l = [].
Proof. destruct l; [reflexivity | discriminate]. Qed.

Lemma subsequence_tail (x : string) (l m : list string) :
  subsequence (x :: l) m = true -> subsequence l m = true.
Proof.
  revert x l. induction m as [|y m IH]; intros x l Hs; [discriminate|].
  simpl in Hs. destruct l as [|x2 l]; [reflexivity|]. simpl.
  destruct (x =? y).
  - destruct (x2 =? y); [exact (IH _ _ Hs) | exact Hs].
  - pose proof (IH _ _ Hs) as Ht. destruct (x2 =? y); [|exact Ht].
    exact (IH _ _ Ht).
Qed.

Lemma subsequence_skip (y : string) (l m : list string) :
  subsequence l m = true -> subsequence l (y :: m) = true.
Proof.
  intros Hs. destruct l as [|x l]; [reflexivity|]. simpl.
  destruct (x =? y); [exact (subsequence_tail _ _ _ Hs) | exact Hs].
Qed.

Lemma subsequence_app (a b A B : list string) :
  subsequence a A = true -> subsequence b B = true ->
  subsequence (a ++ b) (A ++ B) = true.
Proof.
  revert a. induction A as [|y A IH]; intros a Ha Hb.
  - rewrite (subsequence_nil_r _ Ha). exact Hb.
  - destruct a as [|x a].
    + simpl app at 1. apply (subsequence_skip y). exact (IH [] (subsequence_nil_l A) Hb).
    + simpl in Ha |- *. destruct (x =? y).
      * exact (IH a Ha Hb).
      * exact (IH (x :: a) Ha Hb).
Qed.

Lemma subsequence_In (l m : list string) (x : string) :
  subsequence l m = true -> In x l -> In x m.
Proof.
  revert l. induction m as [|y m IH]; intros l Hs Hin.
  - rewrite (subsequence_nil_r _ Hs) in Hin. exact Hin.
  - destruct l as [|z l]; [destruct Hin|]. simpl in Hs.
    destruct (String.eqb_spec z y) as [->|Hne].
    + destruct Hin as [->|Hin]; [left; reflexivity|]. right. exact (IH _ Hs Hin).
    + right. exact (IH _ Hs Hin).
Qed.

Lemma subsequence_NoDup (l m : list string) :
  subsequence l m = true -> NoDup m -> NoDup l.
Proof.
  revert l. induction m as [|y m IH]; intros l Hs Hm.
  - rewrite (subsequence_nil_r _ Hs). constructor.
  - destruct l as [|z l]; [constructor|]. simpl in Hs.
    inversion Hm as [|y' m' Hy Hm']; subst.
    destruct (String.eqb_spec z y) as [->|Hne].
    + constructor; [|exact (IH _ Hs Hm')].
      intros Hin. apply Hy. exact (subsequence_In _ _ _ Hs Hin).
    + exact (IH _ Hs Hm').
Qed.

(** ** The labels of a profile *)

Lemma detectTesting_labels (deps : members) (p : ProjectInfo) :
  exists ts, testing (detectTesting deps p) = (testing p ++ ts)%list /\
             subsequence ts testingLabels = true.
Proof.
  unfold detectTesting, when.
  branches; cbn [testing push_testing]; repeat rewrite <- app_assoc;
    first [ eexists; split; [reflexivity | reflexivity]
          | exists []; split; [symmetry; apply app_nil_r | reflexivity] ].
Qed.

Lemma detectPrimary_labels (deps : members) (p : ProjectInfo) :
  type p = "unknown" ->
  In (type (detectPrimary deps p)) manifestTypes /\
  testing (detectPrimary deps p) = testing p /\
  patterns (detectPrimary deps p) = patterns p /\
  exists fw, frameworks (detectPrimary deps p) = (frameworks p ++ fw)%list /\
             subsequence fw primaryLabels = true /\
             (In (type (detectPrimary deps p)) frameworkTypes ->
              In (type (detectPrimary deps p)) fw).
Proof.
  intros Ht. unfold detectPrimary, when.
  branches; cbn [type testing patterns frameworks push_framework set_type];
    repeat rewrite <- app_assoc;
    (split; [first [rewrite Ht; simpl; tauto | simpl; tauto]|]);
    (split; [reflexivity|]); (split; [reflexivity|]);
    first [ eexists; split; [reflexivity|]; split; [reflexivity|];
            first [rewrite Ht|idtac]; simpl; intuition discriminate
          | exists []; split; [symmetry; apply app_nil_r|]; split; [reflexivity|];
            first [rewrite Ht|idtac]; simpl; intuition discriminate ].
Qed.

Lemma detectState_labels (deps : members) (p : ProjectInfo) :
  testing (detectState deps p) = testing p /\
  exists fw, frameworks (detectState deps p) = (frameworks p ++ fw)%list /\
             subsequence fw stateLabels = true.
Proof.
  unfold detectState, when.
  branches; cbn [testing frameworks push_framework]; repeat rewrite <- app_assoc;
    (split; [reflexivity|]);
    first [ eexists; split; [reflexivity | reflexivity]
          | exists []; split; [symmetry; apply app_nil_r | reflexivity] ].
Qed.

Lemma detectAuth_labels (deps : members) (p : ProjectInfo) :
  auth (patterns p) = None ->
  testing (detectAuth deps p) = testing p /\
  slot_among authLabels (auth (patterns (detectAuth deps p))) /\
  exists fw, frameworks (detectAuth deps p) = (frameworks p ++ fw)%list /\
             subsequence fw ["Firebase"] = true.
Proof.
  intros Ha. unfold detectAuth.
  branches; cbn [testing frameworks patterns auth set_auth set_patterns push_framework];
    (split; [reflexivity|]);
    (split; [first [rewrite Ha; exact I | simpl; tauto]|]);
    first [ exists ["Firebase"]; split; [reflexivity | reflexivity]
          | exists []; split; [symmetry; apply app_nil_r | reflexivity] ].
Qed.

Lemma detectData_labels (deps : members) (p : ProjectInfo) :
  dataManagement (patterns p) = None ->
  testing (detectData deps p) = testing p /\
  slot_among dataLabels (dataManagement (patterns (detectData deps p))).
Proof.
  intros Hd. unfold detectData.
  branches; cbn [testing patterns dataManagement set_dataManagement set_patterns];
    (split; [reflexivity|]); first [rewrite Hd; exact I | simpl; tauto].
Qed.

Lemma detectUI_labels (deps : members) (p : ProjectInfo) :
  ui (patterns p) = None ->
  testing (detectUI deps p) = testing p /\
  slot_among uiLabels (ui (patterns (detectUI deps p))).
Proof.
  intros Hu. unfold detectUI.
  branches; cbn [testing patterns ui set_ui set_patterns];
    (split; [reflexivity|]); first [rewrite Hu; exact I | simpl; tauto].
Qed.

Lemma manifestTypes_projectTypes (t : string) :
  In t manifestTypes -> In t projectTypes /\ t <> "Python".
Proof.
  simpl. intros Hin. split; [tauto|].
  intros ->. intuition discriminate.
Qed.

(** the manifest branch on a fresh profile *)
Lemma detectFromDeps_labels (deps : members) (p : ProjectInfo) :
  undetected p ->
  wellLabelled (detectFromDeps deps p) /\
  In (type (detectFromDeps deps p)) manifestTypes /\
  subsequence (frameworks (detectFromDeps deps p)) frameworkLabels = true.
Proof.
  intros (Ht & Hf & Hts & Hpat).
  destruct (detectTesting_labels deps p) as (ts & Hts1 & Hts2).
  destruct (detectTesting_frame deps p) as (Ht1 & Hf1 & Hp1).
  set (p1 := detectTesting deps p) in *.
  destruct (detectPrimary_labels deps p1 (eq_trans Ht1 Ht))
    as (Hty2 & Hts2' & Hp2 & fw2 & Hf2 & Hs2 & Hin2).
  set (p2 := detectPrimary deps p1) in *.
  destruct (detectState_labels deps p2) as (Hts3 & fw3 & Hf3 & Hs3).
  destruct (detectState_frame deps p2) as (Ht3 & Hp3 & _).
  set (p3 := detectState deps p2) in *.
  assert (Hpat3 : patterns p3 = noPatterns) by congruence.
  destruct (detectAuth_labels deps p3) as (Hts4 & Ha4 & fw4 & Hf4 & Hs4);
    [rewrite Hpat3; reflexivity|].
  destruct (detectAuth_frame deps p3) as (Ht4 & Hd4 & Hu4 & _).
  set (p4 := detectAuth deps p3) in *.
  destruct (detectData_labels deps p4) as (Hts5 & Hd5);
    [rewrite Hd4, Hpat3; reflexivity|].
  destruct (detectData_frame deps p4) as (Ht5 & Hf5 & Ha5 & Hu5).
  set (p5 := detectData deps p4) in *.
  destruct (detectUI_labels deps p5) as (Hts6 & Hu6);
    [rewrite Hu5, Hu4, Hpat3; reflexivity|].
  destruct (detectUI_frame deps p5) as (Ht6 & Hf6 & Ha6 & Hd6).
  change (detectFromDeps deps p) with (detectUI deps p5).
  set (p6 := detectUI deps p5) in *.
  assert (Hty : type p6 = type p2) by congruence.
  assert (Hfw : frameworks p6 = ((fw2 ++ fw3) ++ fw4)%list).
  { rewrite Hf6, Hf5, Hf4, Hf3, Hf2, Hf1, Hf. reflexivity. }
  assert (Hsub : subsequence (frameworks p6) frameworkLabels = true).
  { rewrite Hfw.
    change frameworkLabels with ((primaryLabels ++ stateLabels) ++ ["Firebase"])%list.
    apply subsequence_app; [apply subsequence_app|]; assumption. }
  split; [|split; [rewrite Hty; exact Hty2 | exact Hsub]].
  split; [rewrite Hty; exact (proj1 (manifestTypes_projectTypes _ Hty2))|].
  split; [rewrite Ha6, Ha5; exact Ha4|].
  split; [rewrite Hd6; exact Hd5|].
  split; [exact Hu6|].
  split.
  { rewrite Hty, Hfw. intros Hin. apply in_or_app. left. apply in_or_app. left.
    exact (Hin2 Hin). }
  split.
  { rewrite <- (app_nil_r (frameworks p6)).
    apply subsequence_app; [exact Hsub | reflexivity]. }
  rewrite Hts6, Hts5, Hts4, Hts3, Hts2', Hts1, Hts.
  rewrite <- (app_nil_r ([] ++ ts)%list).
  apply subsequence_app; [exact Hts2 | reflexivity].
Qed.

Section ProfileProperties.

Context `{Runtime}.

(** the profile that the ecosystem step receives *)
Lemma detectProject_before_ecosystem (w : world) (p : ProjectInfo) :
  detectProject w = Ok p ->
  exists p2,
    detectEcosystem w p2 = Ok p /\
    undetected p2 /\
    name p2 = JString (basename (cwd w)) /\
    repoRoot p2 = repoRoot (findRepoRoot w (initialInfo w)) /\
    (isMonorepo p2 = true <->
     existsSync w (Rel ["lerna.json"]) = true \/
     existsSync w (Rel ["pnpm-workspace.yaml"]) = true \/
     workspacesDeclared w) /\
    hasSourceDir p2 = false /\ hasTestsDir p2 = false /\
    hasDocsDir p2 = false /\ hasScriptsDir p2 = false /\
    componentPattern p2 = None.
Proof.
  intros Hp. destruct (detectProject_inv _ _ Hp) as (p1 & Hm & He).
  destruct (detectMonorepo_inv _ _ _ Hm) as (b & Hp1 & Hb).
  exists (scanConfigFiles w p1). split; [exact He|].
  destruct (scanConfigFiles_frame w p1) as (Hn & Ht & Hf & Hpat & Hts & Hmono & Hrepo).
  destruct (findRepoRoot_frame w (initialInfo w))
    as (Hn0 & Ht0 & Hf0 & Hpat0 & Hts0 & _ & Hmono0).
  set (p0 := findRepoRoot w (initialInfo w)) in *.
  assert (Hp1' : name p1 = name p0 /\ type p1 = type p0 /\ frameworks p1 = frameworks p0 /\
                 patterns p1 = patterns p0 /\ testing p1 = testing p0 /\
                 repoRoot p1 = repoRoot p0 /\ isMonorepo p1 = b /\
                 hasSourceDir p1 = hasSourceDir p0 /\ hasTestsDir p1 = hasTestsDir p0 /\
                 hasDocsDir p1 = hasDocsDir p0 /\ hasScriptsDir p1 = hasScriptsDir p0 /\
                 componentPattern p1 = componentPattern p0).
  { subst p1. destruct b; cbn; repeat split; try reflexivity.
    rewrite Hmono0. reflexivity. }
  destruct Hp1' as (A1 & A2 & A3 & A4 & A5 & A6 & A7 & A8 & A9 & A10 & A11 & A12).
  split.
  { unfold undetected. rewrite Ht, Hf, Hts, Hpat, A2, A3, A5, A4, Ht0, Hf0, Hts0, Hpat0.
    repeat split. }
  split; [rewrite Hn, A1, Hn0; reflexivity|].
  split; [rewrite Hrepo, A6; reflexivity|].
  split; [rewrite Hmono, A7; exact Hb|].
  assert (Hflags : forall q, hasSourceDir (scanConfigFiles w q) = hasSourceDir q /\
                             hasTestsDir (scanConfigFiles w q) = hasTestsDir q /\
                             hasDocsDir (scanConfigFiles w q) = hasDocsDir q /\
                             hasScriptsDir (scanConfigFiles w q) = hasScriptsDir q /\
                             componentPattern (scanConfigFiles w q) = componentPattern q).
  { intros q. unfold scanConfigFiles. generalize configFiles. intros files. revert q.
    induction files as [|f files IH]; intros q; [repeat split|].
    simpl. destruct (IH (when (existsSync w (Rel [f])) (push_config f) q))
      as (B1 & B2 & B3 & B4 & B5).
    rewrite B1, B2, B3, B4, B5. unfold when.
    destruct (existsSync w (Rel [f])); repeat split. }
  destruct (Hflags p1) as (B1 & B2 & B3 & B4 & B5).
  rewrite B1, B2, B3, B4, B5, A8, A9, A10, A11, A12.
  unfold p0, findRepoRoot. destruct (existsSync w (Rel [".git"])); repeat split.
Qed.

(** X8.  With a manifest that can be read, [analyzeProject] fails exactly
    when the manifest is not JSON, with a SyntaxError, or is [null], with a
    TypeError; for every other manifest it returns a profile. *)
Theorem analyzeProject_manifest_outcome (w : world) (text : string) :
  readFileSync w packageJsonPath = Ok text ->
  match JSON_parse text with
  | None => analyzeProject w = Throw SyntaxError
  | Some JNull => analyzeProject w = Throw TypeError
  | Some _ => is_ok (analyzeProject w) = true
  end.
Proof.
  intros Hr. pose proof (readFileSync_exists _ _ _ Hr) as Hex.
  unfold analyzeProject, detectProject, detectMonorepo, detectEcosystem,
    detectPackageJson, parseJSON.
  rewrite Hex, Hr. cbn [bind].
  destruct (JSON_parse text) as [v|].
  - destruct v; cbn [bind get_prop];
      destruct (existsSync w (Rel ["lerna.json"]));
      destruct (existsSync w (Rel ["pnpm-workspace.yaml"])); cbn [bind];
      try reflexivity;
      repeat match goal with
             | |- context [if ?b then _ else _] => destruct b; cbn [bind]
             end; reflexivity.
  - destruct (existsSync w (Rel ["lerna.json"]));
      destruct (existsSync w (Rel ["pnpm-workspace.yaml"])); reflexivity.
Qed.

Lemma firstn_snoc {A : Type} (l : list A) : forall k,
  S k <= List.length l -> exists x, firstn (S k) l = (firstn k l ++ [x])%list.
Proof.
  induction l as [|a l IH]; intros k Hk; [simpl in Hk; lia|].
  destruct k as [|k].
  - exists a. reflexivity.
  - simpl in Hk. destruct (IH k) as [x Hx]; [lia|].
    exists x. change (firstn (S (S k)) (a :: l)) with (a :: firstn (S k) l).
    rewrite Hx. reflexivity.
Qed.

(** the walk over the ancestors, from the [k] first segments of the working
    directory upwards *)
Lemma gitAbove_nearest (w : world) : forall k,
  k <= List.length (cwd w) ->
  match gitAbove w (rev (firstn k (cwd w))) with
  | Some r =>
      exists j, 0 < j /\ j <= k /\ r = firstn j (cwd w) /\ gitAt w j = true /\
                forall i, j < i -> i <= k -> gitAt w i = false
  | None => forall i, 0 < i -> i <= k -> gitAt w i = false
  end.
Proof.
  induction k as [|k IH]; intros Hk.
  - simpl. intros i H0 Hi. lia.
  - destruct (firstn_snoc (cwd w) k Hk) as [x Hx].
    assert (Hrev : rev (firstn (S k) (cwd w)) = x :: rev (firstn k (cwd w))).
    { rewrite Hx, rev_app_distr. reflexivity. }
    rewrite Hrev. cbn [gitAbove]. rewrite <- Hrev, rev_involutive.
    destruct (existsSync w (Abs (firstn (S k) (cwd w) ++ [".git"])%list)) eqn:Hg.
    + exists (S k). repeat split; try lia. exact Hg.
    + specialize (IH ltac:(lia)).
      destruct (gitAbove w (rev (firstn k (cwd w)))) as [r|].
      * destruct IH as (j & H0 & Hj & Hr & Hgj & Hnone).
        exists j. repeat split; try assumption; try lia.
        intros i Hi1 Hi2. destruct (Nat.eq_dec i (S k)) as [->|Hne].
        -- exact Hg.
        -- apply Hnone; lia.
      * intros i Hi1 Hi2. destruct (Nat.eq_dec i (S k)) as [->|Hne].
        -- exact Hg.
        -- apply IH; lia.
Qed.

Lemma gitAt_cwd (w : world) :
  gitAt w (List.length (cwd w)) = existsSync w (Rel [".git"]).
Proof. unfold gitAt. rewrite firstn_all. reflexivity. Qed.

(** X9.  The repository root of a profile is the nearest directory, from
    the working directory upwards, that holds a [.git] entry.  The
    filesystem root is not examined by the walk over the ancestors: it is
    found only when it is the working directory itself. *)
Theorem analyzeProject_repoRoot (w : world) (p : ProjectInfo) :
  analyzeProject w = Ok p ->
  match repoRoot p with
  | Some r =>
      exists k, k <= List.length (cwd w) /\ (0 < k \/ cwd w = []) /\
                r = firstn k (cwd w) /\ gitAt w k = true /\
                forall j, k < j -> j <= List.length (cwd w) -> gitAt w j = false
  | None =>
      forall j, j <= List.length (cwd w) -> 0 < j \/ cwd w = [] -> gitAt w j = false
  end.
Proof.
  intros Hp. destruct (analyzeProject_inv _ _ Hp) as (p0 & Hd & ->).
  destruct (analyzeStructure_detected w p0) as (_ & _ & _ & _ & _ & _ & _ & Hrepo).
  rewrite Hrepo.
  destruct (detectProject_before_ecosystem _ _ Hd) as (p2 & He & _ & _ & Hr2 & _).
  destruct (detectEcosystem_setting _ _ _ He) as (_ & _ & Hr0 & _).
  rewrite Hr0, Hr2. unfold findRepoRoot.
  destruct (existsSync w (Rel [".git"])) eqn:Hg; cbn [repoRoot set_repoRoot].
  - exists (List.length (cwd w)). split; [lia|]. split.
    { destruct (cwd w); [right; reflexivity | left; simpl; lia]. }
    split; [symmetry; apply firstn_all|].
    split; [rewrite gitAt_cwd; exact Hg|]. intros j H1 H2. lia.
  - pose proof (gitAbove_nearest w (List.length (cwd w)) (le_n _)) as Hwalk.
    rewrite firstn_all in Hwalk.
    destruct (gitAbove w (rev (cwd w))) as [r|].
    + destruct Hwalk as (j & H0 & Hj & Hr & Hgj & Hnone).
      exists j. repeat split; try assumption. left. exact H0.
    + intros j Hj [H0|Hnil]; [exact (Hwalk j H0 Hj)|].
      rewrite Hnil in Hj. simpl in Hj.
      assert (j = List.length (cwd w)) by (rewrite Hnil; simpl; lia). subst j.
      rewrite gitAt_cwd. exact Hg.
Qed.

(** X10.  A profile is flagged as a monorepo exactly when the working
    directory holds [lerna.json] or [pnpm-workspace.yaml], or its manifest
    declares workspaces with a truthy value. *)
Theorem analyzeProject_isMonorepo (w : world) (p : ProjectInfo) :
  analyzeProject w = Ok p ->
  (isMonorepo p = true <->
   existsSync w (Rel ["lerna.json"]) = true \/
   existsSync w (Rel ["pnpm-workspace.yaml"]) = true \/
   workspacesDeclared w).
Proof.
  intros Hp. destruct (analyzeProject_inv _ _ Hp) as (p0 & Hd & ->).
  destruct (analyzeStructure_detected w p0) as (_ & _ & _ & _ & _ & _ & Hmono & _).
  rewrite Hmono.
  destruct (detectProject_before_ecosystem _ _ Hd) as (p2 & He & _ & _ & _ & Hm2 & _).
  destruct (detectEcosystem_setting _ _ _ He) as (_ & Hm0 & _).
  rewrite Hm0. exact Hm2.
Qed.

End ProfileProperties.

Section EcosystemProperties.

Context `{Runtime}.

Lemma undetected_set_name (v : json) (p : ProjectInfo) :
  undetected p -> undetected (set_name v p).
Proof. intros U. exact U. Qed.

Lemma analyzeStructure_componentPattern (w : world) (p : ProjectInfo) :
  componentPattern p = None ->
  isUIProject p = false ->
  componentPattern (analyzeStructure w p) = None.
Proof.
  intros Hc Hui. unfold analyzeStructure, scanStructure.
  destruct (readdirSync w (Rel [])) as [names|]; cbn [bind]; [|exact Hc].
  destruct (filter_r _ names) as [tops|]; cbn [bind]; [|exact Hc].
  cbn [componentPattern set_structure]. unfold detectComponentPattern.
  rewrite Hui. exact Hc.
Qed.

(** X11.  In a directory without a manifest and with a Python marker, a
    profile that [analyzeProject] returns has type Python, the name of the
    directory, no pattern slot set and no component pattern; it lists at
    most one framework, Django when [manage.py] or [django_project] exists
    whatever else is there, and Flask when they do not and [app.py] exists;
    its testing labels are among pytest and unittest, in this order. *)
Theorem analyzeProject_python (w : world) (p : ProjectInfo) :
  existsSync w packageJsonPath = false ->
  hasPythonMarker w = true ->
  analyzeProject w = Ok p ->
  type p = "Python" /\
  name p = JString (basename (cwd w)) /\
  patterns p = noPatterns /\
  componentPattern p = None /\
  (frameworks p = [] \/ exists f, In f pythonFrameworks /\ frameworks p = [f]) /\
  (existsSync w (Rel ["manage.py"]) || existsSync w (Rel ["django_project"]) = true ->
   frameworks p = ["Django"]) /\
  (existsSync w (Rel ["manage.py"]) || existsSync w (Rel ["django_project"]) = false ->
   existsSync w (Rel ["app.py"]) = true -> frameworks p = ["Flask"]) /\
  subsequence (testing p) ["pytest"; "unittest"] = true.
Proof.
  intros Hex Hpy Hp. destruct (analyzeProject_inv _ _ Hp) as (p0 & Hd & ->).
  destruct (detectProject_before_ecosystem _ _ Hd)
    as (p2 & He & (Ht2 & Hf2 & Hts2 & Hpat2) & Hn2 & _ & _ & _ & _ & _ & _ & Hc2).
  destruct (detectEcosystem_inv _ _ _ He)
    as [(Hex' & _)|[(_ & _ & Hq)|(_ & Hpy' & _)]]; [congruence| |congruence].
  destruct (detectPython_shape _ _ _ Hq)
    as (Hset & Hn & Ht & Hpat & (fw & Hfw & Hcases & Hdj & Hfl) & (ts & Hts & Hsub)).
  destruct (analyzeStructure_detected w p0) as (Sn & St & Sf & Sp & Sts & _).
  rewrite St, Sn, Sf, Sp, Sts, Ht, Hn, Hn2, Hpat, Hpat2, Hfw, Hf2, Hts, Hts2.
  cbn [app].
  split; [reflexivity|]. split; [reflexivity|]. split; [reflexivity|].
  split.
  { apply analyzeStructure_componentPattern.
    - destruct Hset as (_ & _ & _ & _ & _ & _ & _ & Hc). rewrite Hc. exact Hc2.
    - unfold isUIProject. rewrite Ht. reflexivity. }
  split; [exact Hcases|]. split; [exact Hdj|]. split; [exact Hfl | exact Hsub].
Qed.

Lemma detectPython_labels (w : world) (p q : ProjectInfo) :
  undetected p -> detectPython w p = Ok q -> wellLabelled q.
Proof.
  intros (Ht & Hf & Hts & Hpat) Hq.
  destruct (detectPython_shape _ _ _ Hq)
    as (_ & _ & Htq & Hpq & (fw & Hfw & Hcases & _) & (ts & Htsq & Hsub)).
  unfold wellLabelled. rewrite Htq, Hpq, Hpat, Hfw, Hf, Htsq, Hts. cbn [app].
  split; [simpl; tauto|].
  split; [exact I|]. split; [exact I|]. split; [exact I|].
  split; [simpl; intuition discriminate|].
  split.
  - destruct Hcases as [->|(f & Hin & ->)]; [reflexivity|].
    simpl in Hin. destruct Hin as [<-|[<-|[<-|[]]]]; reflexivity.
  - change (testingLabels ++ ["pytest"; "unittest"])%list
      with (testingLabels ++ ["pytest"; "unittest"])%list.
    rewrite <- (app_nil_l ts).
    apply subsequence_app; [reflexivity | exact Hsub].
Qed.

Lemma undetected_labels (p : ProjectInfo) : undetected p -> wellLabelled p.
Proof.
  intros (Ht & Hf & Hts & Hpat). unfold wellLabelled.
  rewrite Ht, Hf, Hts, Hpat.
  split; [simpl; tauto|].
  split; [exact I|]. split; [exact I|]. split; [exact I|].
  split; [simpl; intuition discriminate|]. split; reflexivity.
Qed.

Lemma detectProject_labels (w : world) (p : ProjectInfo) :
  detectProject w = Ok p ->
  wellLabelled p /\
  (existsSync w packageJsonPath = true ->
   In (type p) manifestTypes /\ subsequence (frameworks p) frameworkLabels = true).
Proof.
  intros Hd.
  destruct (detectProject_before_ecosystem _ _ Hd) as (p2 & He & U & _).
  destruct (detectEcosystem_inv _ _ _ He)
    as [(Hex & text & v & nm & ds & dds & _ & _ & _ & _ & _ & ->)
       |[(Hex & _ & Hq)|(Hex & _ & ->)]].
  - destruct (detectFromDeps_labels (mergedDeps ds dds) _
                (undetected_set_name (declaredName nm p2) _ U)) as (L & T & S).
    split; [exact L|]. intros _. split; assumption.
  - split; [exact (detectPython_labels _ _ _ U Hq) | congruence].
  - split; [exact (undetected_labels _ U) | congruence].
Qed.

(** X12.  Every profile that [analyzeProject] returns is labelled from
    fixed lists: its type is one of nine, each pattern slot is unset or
    holds a label of its own list, its frameworks are a selection of the
    framework labels in their fixed order, hence without repetition, and so
    are its testing labels; a type that names a framework is listed among
    the frameworks. *)
Theorem analyzeProject_labels (w : world) (p : ProjectInfo) :
  analyzeProject w = Ok p ->
  wellLabelled p /\ NoDup (frameworks p) /\ NoDup (testing p).
Proof.
  intros Hp. destruct (analyzeProject_inv _ _ Hp) as (p0 & Hd & ->).
  destruct (analyzeStructure_detected w p0) as (_ & St & Sf & Sp & Sts & _).
  destruct (detectProject_labels _ _ Hd) as (L & _).
  assert (L' : wellLabelled (analyzeStructure w p0)).
  { unfold wellLabelled. rewrite St, Sf, Sp, Sts. exact L. }
  split; [exact L'|].
  destruct L' as (_ & _ & _ & _ & _ & Hfw & Hts).
  split.
  - apply (subsequence_NoDup _ _ Hfw).
    repeat (constructor; [simpl; intuition discriminate|]). constructor.
  - apply (subsequence_NoDup _ _ Hts).
    repeat (constructor; [simpl; intuition discriminate|]). constructor.
Qed.

End EcosystemProperties.

(** ** The search for a directory *)

Lemma isDirectory_true (st : stats) : isDirectory st = true -> st = IsDirectory.
Proof. destruct st; [discriminate | reflexivity]. Qed.

(** X13.  When [findDir] answers [true] there is a directory of the target
    name below the base directory, at the end of a chain of fewer than
    [maxDepth] directories none of which is hidden or [node_modules]. *)
Theorem findDir_sound (w : world) (targetDir : string) :
  forall (maxDepth : nat) (baseDir : segments),
    findDir w baseDir targetDir maxDepth = true ->
    exists path,
      List.length path < maxDepth /\
      forallb visited path = true /\
      statSync w (Rel (baseDir ++ path ++ [targetDir])%list) = Ok IsDirectory.
Proof.
  induction maxDepth as [|depth IH]; intros baseDir Hf; [discriminate|].
  cbn [findDir] in Hf.
  destruct (readdirSync w (Rel baseDir)) as [entries|]; cbn [bind] in Hf;
    [|discriminate].
  destruct (if list_includes targetDir entries
            then st <- statSync w (Rel (baseDir ++ [targetDir])%list) ;; Ok (isDirectory st)
            else Ok false) as [here|] eqn:Hhere; cbn [bind] in Hf; [|discriminate].
  destruct here.
  - exists []. split; [simpl; lia|]. split; [reflexivity|].
    destruct (list_includes targetDir entries); [|discriminate].
    destruct (statSync w (Rel (baseDir ++ [targetDir])%list)) as [st|] eqn:Hst;
      cbn [bind] in Hhere; [|discriminate].
    injection Hhere as Hd. rewrite (isDirectory_true _ Hd) in Hst. exact Hst.
  - clear Hhere. induction entries as [|entry es IHes]; [discriminate|].
    destruct (statSync w (Rel (baseDir ++ [entry])%list)) as [st|]; cbn [bind] in Hf;
      [|discriminate].
    destruct (isDirectory st && negb (startsWith "." entry) && negb (entry =? "node_modules"))
      eqn:Hv.
    + destruct (findDir w (baseDir ++ [entry])%list targetDir depth) eqn:Hrec.
      * destruct (IH _ Hrec) as (path & Hlen & Hvis & Hst).
        exists (entry :: path). split; [simpl; lia|]. split.
        -- simpl. rewrite Hvis, andb_true_r. unfold visited.
           apply andb_true_iff in Hv. destruct Hv as [Hv Hn].
           apply andb_true_iff in Hv. destruct Hv as [_ Hs]. rewrite Hs, Hn. reflexivity.
        -- rewrite <- app_assoc in Hst. exact Hst.
      * exact (IHes Hf).
    + exact (IHes Hf).
Qed.

Lemma entry_get_In (s : string) (es : entries) (x : node) :
  entry_get s es = Some x -> In s (map fst es).
Proof.
  induction es as [|[k v] es IH]; [discriminate|]. simpl.
  destruct (String.eqb_spec k s) as [->|_]; [left; reflexivity|].
  intros Hx. right. exact (IH Hx).
Qed.

(** one more level of search finds whatever the search found *)
Lemma findDir_one_deeper (w : world) (targetDir : string) :
  forall (maxDepth : nat) (baseDir : segments),
    findDir w baseDir targetDir maxDepth = true ->
    findDir w baseDir targetDir (S maxDepth) = true.
Proof.
  induction maxDepth as [|depth IH]; intros baseDir Hf; [discriminate|].
  cbn [findDir] in Hf.
  remember (S depth) as d eqn:Hd. cbn [findDir]. subst d.
  destruct (readdirSync w (Rel baseDir)) as [entries|]; cbn [bind] in Hf |- *;
    [|discriminate].
  destruct (if list_includes targetDir entries
            then st <- statSync w (Rel (baseDir ++ [targetDir])%list) ;; Ok (isDirectory st)
            else Ok false) as [[|]|]; cbn [bind] in Hf |- *;
    [reflexivity | | discriminate].
  induction entries as [|entry es IHes]; [discriminate|].
  destruct (statSync w (Rel (baseDir ++ [entry])%list)) as [st|];
    cbn [bind] in Hf |- *; [|discriminate].
  destruct (isDirectory st && negb (startsWith "." entry)
            && negb (entry =? "node_modules")).
  - destruct (findDir w (baseDir ++ [entry])%list targetDir depth) eqn:Hrec.
    + rewrite (IH _ Hrec). reflexivity.
    + destruct (findDir w (baseDir ++ [entry])%list targetDir (S depth));
        [reflexivity | exact (IHes Hf)].
  - exact (IHes Hf).
Qed.

(** X14.  A search to a greater depth finds whatever a search to a smaller
    depth finds: an entry that cannot be inspected ends the search of its
    directory at either depth, and a deeper descent never throws. *)
Theorem findDir_deeper (w : world) (targetDir : string) (baseDir : segments)
    (depth deeper : nat) :
  depth <= deeper ->
  findDir w baseDir targetDir depth = true ->
  findDir w baseDir targetDir deeper = true.
Proof.
  intros Hle Hf. induction Hle as [|deeper Hle IH]; [exact Hf|].
  exact (findDir_one_deeper _ _ _ _ IH).
Qed.

(** ** The structural hints *)

Lemma filter_r_In {A : Type} (f : A -> result bool) (l r : list A) (x : A) :
  filter_r f l = Ok r -> In x r -> f x = Ok true.
Proof.
  revert r. induction l as [|a l IH]; intros r Hr Hin; simpl in Hr.
  - injection Hr as <-. destruct Hin.
  - destruct (f a) as [b|] eqn:Ha; cbn [bind] in Hr; [|discriminate].
    destruct (filter_r f l) as [rest|]; cbn [bind] in Hr; [|discriminate].
    injection Hr as <-. destruct b.
    + destruct Hin as [<-|Hin]; [exact Ha | exact (IH _ eq_refl Hin)].
    + exact (IH _ eq_refl Hin).
Qed.

Lemma list_includes_In (x : string) (l : list string) :
  list_includes x l = true -> In x l.
Proof.
  unfold list_includes. intros Hx. apply existsb_exists in Hx.
  destruct Hx as (y & Hin & Hy). apply String.eqb_eq in Hy. subst y. exact Hin.
Qed.

Lemma topLevelDirs_directory (w : world) (names tops : list string) (x : string) :
  filter_r (fun f => st <- statSync w (Rel [f]) ;; Ok (isDirectory st)) names = Ok tops ->
  list_includes x tops = true ->
  statSync w (Rel [x]) = Ok IsDirectory.
Proof.
  intros Hf Hx. pose proof (filter_r_In _ _ _ x Hf (list_includes_In _ _ Hx)) as Hst.
  cbn beta in Hst. destruct (statSync w (Rel [x])) as [st|]; cbn [bind] in Hst;
    [|discriminate].
  injection Hst as Hd. rewrite (isDirectory_true _ Hd). reflexivity.
Qed.

Section StructureProperties.

Context `{Runtime}.

(** X15.  The structural hints of a profile are sound: a directory flag is
    set only when the working directory holds a directory of that name
    ([tests] or [__tests__] for the tests flag), and a component pattern is
    named only for a React or Next.js profile, each name standing for
    directories that [findDir] found from the working directory: the four
    of atomic design, else [features], else [pages]. *)
Theorem analyzeProject_structure (w : world) (p : ProjectInfo) :
  analyzeProject w = Ok p ->
  (if hasSourceDir p then statSync w (Rel ["src"]) = Ok IsDirectory else True) /\
  (if hasTestsDir p
   then statSync w (Rel ["tests"]) = Ok IsDirectory \/
        statSync w (Rel ["__tests__"]) = Ok IsDirectory
   else True) /\
  (if hasDocsDir p then statSync w (Rel ["docs"]) = Ok IsDirectory else True) /\
  (if hasScriptsDir p then statSync w (Rel ["scripts"]) = Ok IsDirectory else True) /\
  match componentPattern p with
  | Some c =>
      isUIProject p = true /\
      let atomic := forallb (fun dir => findDir w [] dir 3)
                            ["atoms"; "molecules"; "organisms"; "templates"] in
      (c = "Atomic Design" /\ atomic = true) \/
      (c = "Feature-based" /\ atomic = false /\ findDir w [] "features" 3 = true) \/
      (c = "Page-based" /\ atomic = false /\ findDir w [] "features" 3 = false /\
       findDir w [] "pages" 3 = true)
  | None => True
  end.
Proof.
  intros Hp. destruct (analyzeProject_inv _ _ Hp) as (p0 & Hd & ->).
  destruct (detectProject_before_ecosystem _ _ Hd)
    as (p2 & He & _ & _ & _ & _ & F1 & F2 & F3 & F4 & F5).
  destruct (detectEcosystem_setting _ _ _ He) as (_ & _ & _ & G1 & G2 & G3 & G4 & G5).
  rewrite F1 in G1. rewrite F2 in G2. rewrite F3 in G3. rewrite F4 in G4.
  rewrite F5 in G5.
  unfold analyzeStructure, scanStructure.
  destruct (readdirSync w (Rel [])) as [names|]; cbn [bind];
    [|rewrite G1, G2, G3, G4, G5; repeat split].
  destruct (filter_r _ names) as [tops|] eqn:Hf; cbn [bind];
    [|rewrite G1, G2, G3, G4, G5; repeat split].
  cbn [hasSourceDir hasTestsDir hasDocsDir hasScriptsDir componentPattern set_structure].
  unfold isUIProject. cbn [type set_structure]. fold (isUIProject p0).
  rewrite G1, G2, G3, G4, !orb_false_r.
  split.
  { destruct (list_includes "src" tops) eqn:E; [|exact I].
    exact (topLevelDirs_directory _ _ _ _ Hf E). }
  split.
  { destruct (list_includes "tests" tops) eqn:E1.
    - left. exact (topLevelDirs_directory _ _ _ _ Hf E1).
    - destruct (list_includes "__tests__" tops) eqn:E2; [|exact I].
      right. exact (topLevelDirs_directory _ _ _ _ Hf E2). }
  split.
  { destruct (list_includes "docs" tops) eqn:E; [|exact I].
    exact (topLevelDirs_directory _ _ _ _ Hf E). }
  split.
  { destruct (list_includes "scripts" tops) eqn:E; [|exact I].
    exact (topLevelDirs_directory _ _ _ _ Hf E). }
  unfold detectComponentPattern. rewrite G5.
  destruct (isUIProject p0); [|exact I].
  destruct (forallb (fun dir => findDir w [] dir 3)
                    ["atoms"; "molecules"; "organisms"; "templates"]) eqn:Ha.
  { split; [reflexivity|]. left. split; reflexivity. }
  destruct (findDir w [] "features" 3) eqn:Hfe.
  { split; [reflexivity|]. right. left. repeat split. }
  destruct (findDir w [] "pages" 3) eqn:Hpa; [|exact I].
  split; [reflexivity|]. right. right. repeat split.
Qed.

End StructureProperties.

(** ** The profile of a run *)

Lemma readFileSync_apart (w w' : world) (p q : segments) (text : string) :
  apart p q = true ->
  writeFileSync w (Rel p) text = Ok w' ->
  readFileSync w' (Rel q) = readFileSync w (Rel q).
Proof.
  intros Hap Hw. apply readFileSync_node_at. exact (writeFileSync_apart _ _ _ _ _ Hap Hw).
Qed.

Lemma optional_write_apart (w w' : world) (write : bool) (p q : segments) (text : string) :
  apart p q = true ->
  (if write then writeFileSync w (Rel p) text else Ok w) = Ok w' ->
  readFileSync w' (Rel q) = readFileSync w (Rel q).
Proof.
  intros Hap. destruct write; intros E.
  - exact (readFileSync_apart _ _ _ _ _ Hap E).
  - injection E as <-. reflexivity.
Qed.

Lemma generateRules_project_rule (w w' : world) (p : ProjectInfo) :
  generateRules w p = Ok w' ->
  readFileSync w' (rulePath "project-rules.mdc") = projectRuleContent p.
Proof.
  unfold generateRules, createProjectRule, createAuthRule, createDataManagementRule,
    createUIComponentsRule, createBestPracticesRule.
  intros E.
  destruct (projectRuleContent p) as [ruleContent|e]; cbn [bind] in E; [|discriminate].
  destruct (writeFileSync w (rulePath "project-rules.mdc") ruleContent)
    as [w1|e] eqn:E1; cbn [bind] in E; [|discriminate].
  destruct (if slot_truthy (auth (patterns p))
            then writeFileSync w1 (rulePath "auth-rules.mdc") (authRuleContent p)
            else Ok w1) as [w2|e] eqn:E2; cbn [bind] in E; [|discriminate].
  destruct (if slot_truthy (dataManagement (patterns p))
            then writeFileSync w2 (rulePath "data-management-rules.mdc") (dataRuleContent p)
            else Ok w2) as [w3|e] eqn:E3; cbn [bind] in E; [|discriminate].
  destruct (if slot_truthy (ui (patterns p))
            then writeFileSync w3 (rulePath "ui-components-rules.mdc") (uiRuleContent p)
            else Ok w3) as [w4|e] eqn:E4; cbn [bind] in E; [|discriminate].
  pose proof (readFileSync_writeFileSync _ _ _ _ E1) as R1.
  unfold rulePath in *.
  set (q := (CONFIG_rulesDirName ++ ["project-rules.mdc"])%list) in *.
  rewrite <- (optional_write_apart _ _ _ (CONFIG_rulesDirName ++ ["auth-rules.mdc"])%list
                q _ eq_refl E2) in R1.
  rewrite <- (optional_write_apart _ _ _
                (CONFIG_rulesDirName ++ ["data-management-rules.mdc"])%list
                q _ eq_refl E3) in R1.
  rewrite <- (optional_write_apart _ _ _
                (CONFIG_rulesDirName ++ ["ui-components-rules.mdc"])%list
                q _ eq_refl E4) in R1.
  unfold bestPracticesPath, rulePath in E.
  destruct (existsSync w4 (Rel (CONFIG_rulesDirName ++ ["best-practices.mdc"])%list)).
  - injection E as <-. exact R1.
  - rewrite (readFileSync_apart _ _ (CONFIG_rulesDirName ++ ["best-practices.mdc"])%list
               q _ eq_refl E).
    exact R1.
Qed.

Section ProfileOfRun.

Context `{Runtime} `{Matcher}.

Lemma createMemoryFile_apart (w w' : world) (p : ProjectInfo) (projectContext : string)
    (q : segments) :
  apart [CONFIG_memoryDirName; CONFIG_memoryFileName] q = true ->
  createMemoryFile w p projectContext = Ok w' ->
  readFileSync w' (Rel q) = readFileSync w (Rel q).
Proof.
  intros Hap. unfold createMemoryFile, new_Date, memoryPath. cbv zeta.
  intros E. destruct (setupContent p) as [content|e]; cbn [bind] in E; [|discriminate].
  rewrite (readFileSync_apart _ _ _ _ _ Hap E). reflexivity.
Qed.

Lemma createMemoryUtilities_apart (w w' : world) (q : segments) :
  apart [CONFIG_memoryDirName; "backup-memory.js"] q = true ->
  apart [CONFIG_memoryDirName; "memory-explorer.js"] q = true ->
  createMemoryUtilities w = Ok w' ->
  readFileSync w' (Rel q) = readFileSync w (Rel q).
Proof.
  intros Hb He. unfold createMemoryUtilities, backupScriptPath, explorerScriptPath.
  intros E.
  destruct (writeFileSync w (Rel [CONFIG_memoryDirName; "backup-memory.js"]) backupScript)
    as [w1|e] eqn:E1; cbn [bind] in E; [|discriminate].
  destruct (chmodSync w1 (Rel [CONFIG_memoryDirName; "backup-memory.js"]) "755")
    as [w2|e] eqn:E2; cbn [bind] in E; [|discriminate].
  apply chmodSync_same in E2. subst w2.
  destruct (writeFileSync w1 (Rel [CONFIG_memoryDirName; "memory-explorer.js"])
                          explorerScript) as [w3|e] eqn:E3; cbn [bind] in E;
    [|discriminate].
  apply chmodSync_same in E. subst w'.
  rewrite (readFileSync_apart _ _ _ _ _ He E3).
  exact (readFileSync_apart _ _ _ _ _ Hb E1).
Qed.

Lemma createCursorWorkspaceSettings_apart (w w' : world) (q : segments) :
  existsSync w cursorDir = true ->
  apart [".cursor"; "settings.json"] q = true ->
  createCursorWorkspaceSettings w = Ok w' ->
  readFileSync w' (Rel q) = readFileSync w (Rel q).
Proof.
  intros Hex Hap. unfold createCursorWorkspaceSettings. rewrite Hex. cbn [bind].
  unfold settingsPath. intros E. exact (readFileSync_apart _ _ _ _ _ Hap E).
Qed.

Lemma rule_file_cursorDir (w : world) (file text : string) :
  readFileSync w (rulePath file) = Ok text -> existsSync w cursorDir = true.
Proof.
  intros Hr. apply readFileSync_node in Hr. unfold node_at, rulePath in Hr.
  cbn [resolve] in Hr. rewrite app_assoc in Hr.
  destruct (lookup_below _ _ _ _ Hr) as (l & es & Hd).
  change (cwd w ++ CONFIG_rulesDirName)%list
    with (cwd w ++ [".cursor"] ++ ["rules"])%list in Hd.
  rewrite app_assoc in Hd.
  destruct (lookup_below _ _ _ _ Hd) as (l2 & es2 & Hd2).
  unfold existsSync, node_at, cursorDir. cbn [resolve]. rewrite Hd2. reflexivity.
Qed.

(** X16.  In a run of [setupMCP] that completes, the project is analysed
    after the installation, which leaves a manifest in the working
    directory: the profile comes from the manifest branch, so that its type
    is never Python, whatever Python markers the directory holds; and the
    project rule on disk at the end is the document rendered for this
    profile, whose name renders as text. *)
Theorem setupMCP_profile (w w' : world) :
  setupMCP w = Ok w' ->
  exists w1 info,
    installMCPServer w = Ok w1 /\
    analyzeProject w1 = Ok info /\
    In (type info) manifestTypes /\
    type info <> "Python" /\
    exists document,
      projectRuleContent info = Ok document /\
      readFileSync w' (rulePath "project-rules.mdc") = Ok document.
Proof.
  unfold setupMCP. intros E.
  destruct (installMCPServer w) as [w1|e] eqn:E1; cbn [bind] in E; [|discriminate].
  destruct (analyzeProject w1) as [info|e] eqn:Ea; cbn [bind] in E; [|discriminate].
  destruct (ToString (name info)) as [projectName|e] eqn:En; cbn [bind] in E;
    [|discriminate].
  destruct (createDirectories w1) as [w2|e] eqn:E2; cbn [bind] in E; [|discriminate].
  destruct (configureCursor w2) as [w3|e] eqn:E3; cbn [bind] in E; [|discriminate].
  destruct (generateRules w3 info) as [w4|e] eqn:E4; cbn [bind] in E; [|discriminate].
  destruct (extractProjectContext w4) as [context|e]; cbn [bind] in E; [|discriminate].
  destruct (createMemoryFile w4 info context) as [w5|e] eqn:E5; cbn [bind] in E;
    [|discriminate].
  destruct (createMemoryUtilities w5) as [w6|e] eqn:E6; cbn [bind] in E; [|discriminate].
  destruct (createCursorWorkspaceSettings w6) as [w7|e] eqn:E7; cbn [bind] in E;
    [|discriminate].
  destruct (performVerification w7) as [report|e]; cbn [bind] in E; [|discriminate].
  injection E as <-.
  exists w1, info. split; [reflexivity|]. split; [exact Ea|].
  assert (Hty : In (type info) manifestTypes).
  { destruct (analyzeProject_inv _ _ Ea) as (p0 & Hd & ->).
    destruct (analyzeStructure_detected w1 p0) as (_ & St & _).
    rewrite St.
    exact (proj1 (proj2 (detectProject_labels _ _ Hd) (installMCPServer_manifest _ _ E1))). }
  split; [exact Hty|].
  split; [exact (proj2 (manifestTypes_projectTypes _ Hty))|].
  exists (projectRuleText projectName info).
  assert (Hdoc : projectRuleContent info = Ok (projectRuleText projectName info))
    by (unfold projectRuleContent; rewrite En; reflexivity).
  split; [exact Hdoc|].
  pose proof (generateRules_project_rule _ _ _ E4) as R4. rewrite Hdoc in R4.
  assert (R5 : readFileSync w5 (rulePath "project-rules.mdc")
               = Ok (projectRuleText projectName info)).
  { unfold rulePath in *.
    rewrite (createMemoryFile_apart _ _ _ _
               (CONFIG_rulesDirName ++ ["project-rules.mdc"])%list eq_refl E5).
    exact R4. }
  assert (R6 : readFileSync w6 (rulePath "project-rules.mdc")
               = Ok (projectRuleText projectName info)).
  { unfold rulePath in *.
    rewrite (createMemoryUtilities_apart _ _
               (CONFIG_rulesDirName ++ ["project-rules.mdc"])%list eq_refl eq_refl E6).
    exact R5. }
  pose proof (rule_file_cursorDir _ _ _ R6) as C6.
  unfold rulePath in *.
  rewrite (createCursorWorkspaceSettings_apart _ _
             (CONFIG_rulesDirName ++ ["project-rules.mdc"])%list C6 eq_refl E7).
  exact R6.
Qed.

(** X17.  A run of [setupMCP] on a project whose manifest, after the
    package is installed, is not JSON stops at its first step with the
    installation error that wraps the SyntaxError: the project is not
    analysed and no later step runs. *)
Theorem setupMCP_stops_at_manifest (w w1 : world) (text : string) :
  installPackage w = Ok w1 ->
  readFileSync w1 packageJsonPath = Ok text ->
  JSON_parse text = None ->
  installMCPServer w = Throw (InstallError SyntaxError) /\
  setupMCP w = Throw (InstallError SyntaxError).
Proof.
  intros Hi Hr Hp.
  assert (E : installMCPServer w = Throw (InstallError SyntaxError)).
  { unfold installMCPServer, try_catch, updatePackageJson, parseJSON.
    rewrite Hi. cbn [bind]. rewrite Hr. cbn [bind]. rewrite Hp. reflexivity. }
  split; [exact E|]. unfold setupMCP. rewrite E. reflexivity.
Qed.

End ProfileOfRun.

(** ** The project context *)

Lemma firstExisting_none (w : world) (files : list (segments * string)) :
  firstExisting w files = None <->
  forall path file, In (path, file) files -> existsSync w (Rel path) = false.
Proof.
  induction files as [|[path file] files IH]; simpl.
  - split; [intros _ ? ? [] | reflexivity].
  - destruct (existsSync w (Rel path)) eqn:Hex.
    + split; [discriminate|]. intros Hall.
      rewrite (Hall path file (or_introl eq_refl)) in Hex. discriminate.
    + rewrite IH. split.
      * intros Hall p f [E|Hin]; [injection E as <- <-; exact Hex | exact (Hall p f Hin)].
      * intros Hall p f Hin. exact (Hall p f (or_intror Hin)).
Qed.

Lemma includes_empty (n : string) : n <> "" -> includes n "" = false.
Proof. destruct n; [intros E; destruct (E eq_refl) | reflexivity]. Qed.

Section ContextProperties.

Context `{Matcher}.

(** X18.  The context that [extractProjectContext] returns is never empty,
    and it is the default sentence exactly when the working directory has
    no README, none of the four architecture documents and no contribution
    guide. *)
Theorem extractProjectContext_default (w : world) (context : string) :
  extractProjectContext w = Ok context ->
  context <> "" /\
  (context = "No detailed project documentation found." <->
   existsSync w (Rel ["README.md"]) = false /\
   (forall path file, In (path, file) docFiles -> existsSync w (Rel path) = false) /\
   existsSync w (Rel ["CONTRIBUTING.md"]) = false).
Proof.
  unfold extractProjectContext. intros E.
  rewrite <- firstExisting_none.
  remember (firstExisting w docFiles) as doc eqn:Hdoc. clear Hdoc.
  assert (Hnl : forall c : string,
             includes newline c = true ->
             (if c =? "" then "No detailed project documentation found." else c) = context ->
             context <> "" /\
             (context = "No detailed project documentation found." -> False)).
  { intros c Hc Hctx. destruct (String.eqb_spec c "") as [->|Hne]; [discriminate|].
    subst context. split; [exact Hne|]. intros ->. discriminate. }
  assert (Hsome : forall c : string,
             includes newline c = true ->
             Ok (if c =? "" then "No detailed project documentation found." else c)
             = Ok context ->
             context <> "" /\
             (context = "No detailed project documentation found." -> False)).
  { intros c Hc Hctx. injection Hctx as Hctx. exact (Hnl c Hc Hctx). }
  clear Hnl.
  destruct (existsSync w (Rel ["README.md"])) eqn:Hreadme.
  - destruct (readFileSync w (Rel ["README.md"])) as [readme|]; cbn [bind] in E;
      [|discriminate].
    assert (Hc : context <> "" /\
                 (context = "No detailed project documentation found." -> False)).
    { revert E. apply Hsome. unfold readmeContext.
      destruct doc; destruct (existsSync w (Rel ["CONTRIBUTING.md"]));
        repeat first [ reflexivity | apply includes_start; reflexivity
                     | apply includes_skip ]. }
    destruct Hc as [Hne Hnot]. split; [exact Hne|].
    split; [intros Hd; destruct (Hnot Hd) | intros (Hf & _); discriminate].
  - cbn [bind] in E.
    destruct doc as [file|].
    + assert (Hc : context <> "" /\
                   (context = "No detailed project documentation found." -> False)).
      { revert E. apply Hsome.
        destruct (existsSync w (Rel ["CONTRIBUTING.md"]));
          repeat first [ reflexivity | apply includes_start; reflexivity
                       | apply includes_skip ]. }
      destruct Hc as [Hne Hnot]. split; [exact Hne|].
      split; [intros Hd; destruct (Hnot Hd) | intros (_ & Hf & _); discriminate].
    + destruct (existsSync w (Rel ["CONTRIBUTING.md"])) eqn:Hcontrib.
      * assert (Hc : context <> "" /\
                     (context = "No detailed project documentation found." -> False)).
        { revert E. apply Hsome.
          repeat first [ reflexivity | apply includes_start; reflexivity
                       | apply includes_skip ]. }
        destruct Hc as [Hne Hnot]. split; [exact Hne|].
        split; [intros Hd; destruct (Hnot Hd) | intros (_ & _ & Hf); discriminate].
      * injection E as E. simpl in E. subst context. split; [discriminate|].
        split; [intros _; repeat split | reflexivity].
Qed.

End ContextProperties.

(** ** The workspace settings *)

Section SettingsProperties.

Context `{Runtime}.

Lemma existingSettings_missing (w : world) :
  existsSync w settingsPath = false -> existingSettings w = JObject [].
Proof. unfold existingSettings. intros ->. reflexivity. Qed.

(** X19.  Without a settings file, [createCursorWorkspaceSettings] writes
    the four AI keys and nothing else; it makes the [.cursor] directory
    when the working directory has no such entry, and removes nothing. *)
Theorem createCursorWorkspaceSettings_fresh (w : world) :
  existsSync w settingsPath = false ->
  statSync w cursorDir = Ok IsDirectory \/
  (statSync w (Rel []) = Ok IsDirectory /\ node_at w cursorDir = None) ->
  exists w',
    createCursorWorkspaceSettings w = Ok w' /\
    keeps w w' /\
    statSync w' cursorDir = Ok IsDirectory /\
    readFileSync w' settingsPath = Ok (JSON_stringify (JObject aiSettings)).
Proof.
  intros Hmissing Hcases.
  assert (Hdir : exists w1,
             (if existsSync w cursorDir then Ok w else mkdirSync w cursorDir false) = Ok w1 /\
             keeps w w1 /\
             statSync w1 cursorDir = Ok IsDirectory /\
             existsSync w1 settingsPath = false).
  { destruct Hcases as [Hd|[Hroot Hnone]].
    - exists w. assert (Hex : existsSync w cursorDir = true)
        by (apply existsSync_statSync; exists IsDirectory; exact Hd).
      rewrite Hex. split; [reflexivity|]. split; [apply keeps_refl|].
      split; assumption.
    - destruct (mkdirSync_in_directory w [] ".cursor" Hroot Hnone) as (w1 & E1 & N1 & _).
      cbn [app] in E1, N1. exists w1.
      unfold existsSync at 1. rewrite Hnone.
      split; [exact E1|]. split; [exact (mkdirSync_keeps _ _ _ _ E1)|].
      split; [unfold statSync, cursorDir; rewrite N1; reflexivity|].
      unfold existsSync, settingsPath, node_at in *. cbn [resolve] in *.
      change (cwd w1 ++ [".cursor"; "settings.json"])%list
        with (cwd w1 ++ [".cursor"] ++ ["settings.json"])%list.
      rewrite app_assoc, (lookup_in_empty _ _ _ N1). reflexivity. }
  destruct Hdir as (w1 & E1 & K1 & D1 & M1).
  assert (F1 : statSync w1 (Rel ([".cursor"] ++ ["settings.json"])%list) <> Ok IsDirectory).
  { intros E. assert (Hex : existsSync w1 settingsPath = true)
      by (apply existsSync_statSync; exists IsDirectory; exact E).
    congruence. }
  destruct (writeFileSync_file_in_directory w1 [".cursor"] "settings.json"
              (JSON_stringify (JObject aiSettings)) D1 F1) as (w2 & E2).
  exists w2. split.
  { unfold createCursorWorkspaceSettings. rewrite E1. cbn [bind].
    rewrite (existingSettings_missing _ M1). exact E2. }
  pose proof (writeFileSync_keeps _ _ _ _ E2) as K2.
  split; [exact (keeps_trans _ _ _ K1 K2)|].
  split; [apply K2; exact D1|].
  exact (readFileSync_writeFileSync _ _ _ _ E2).
Qed.

End SettingsProperties.

(** *** The merge applied twice *)

Lemma has_key_In (k : string) (o : members) :
  has_key k o = true <-> In k (map fst o).
Proof.
  unfold has_key. rewrite existsb_exists. split.
  - intros ([k' v] & Hin & Hk). apply String.eqb_eq in Hk. simpl in Hk. subst k'.
    apply in_map_iff. exists (k, v). split; [reflexivity | exact Hin].
  - intros Hin. apply in_map_iff in Hin. destruct Hin as ([k' v] & Hk & Hin).
    simpl in Hk. subst k'. exists (k, v). split; [exact Hin | apply String.eqb_refl].
Qed.

Lemma has_key_not_In (k : string) (o : members) :
  has_key k o = false <-> ~ In k (map fst o).
Proof.
  rewrite <- has_key_In. destruct (has_key k o); split; intros E;
    try discriminate; try reflexivity; try (intros E'; discriminate).
  destruct (E eq_refl).
Qed.

Lemma replace_keys (k : string) (v : json) (o : members) :
  map fst (map (fun kv : string * json => if fst kv =? k then (k, v) else kv) o)
  = map fst o.
Proof.
  induction o as [|[k' v'] o IH]; [reflexivity|]. simpl. rewrite IH.
  destruct (String.eqb_spec k' k) as [->|_]; reflexivity.
Qed.

Lemma replace_absent (k : string) (v : json) (o : members) :
  has_key k o = false ->
  map (fun kv : string * json => if fst kv =? k then (k, v) else kv) o = o.
Proof.
  induction o as [|[k' v'] o IH]; [reflexivity|]. unfold has_key. simpl.
  destruct (k' =? k); [discriminate|]. intros Ho. rewrite (IH Ho). reflexivity.
Qed.

Lemma obj_set_NoDup (k : string) (v : json) (o : members) :
  NoDup (map fst o) -> NoDup (map fst (obj_set k v o)).
Proof.
  intros Hn. unfold obj_set. destruct (has_key k o) eqn:Hk.
  - rewrite replace_keys. exact Hn.
  - rewrite map_app. simpl. apply has_key_not_In in Hk.
    clear v. induction (map fst o) as [|a l IH]; simpl.
    + constructor; [intros [] | constructor].
    + inversion Hn as [|a' l' Ha Hl]; subst. constructor.
      * intros Hin. apply in_app_or in Hin. destruct Hin as [Hin|[E|[]]].
        -- exact (Ha Hin).
        -- apply Hk. left. symmetry. exact E.
      * apply IH; [exact Hl|]. intros Hin. apply Hk. right. exact Hin.
Qed.

Lemma spread_into_NoDup (src : members) : forall acc,
  NoDup (map fst acc) -> NoDup (map fst (spread_into acc src)).
Proof.
  unfold spread_into. induction src as [|[k v] src IH]; intros acc Hn; [exact Hn|].
  simpl. apply IH. apply obj_set_NoDup. exact Hn.
Qed.

Lemma obj_get_has_key (k : string) (o : members) (v : json) :
  obj_get k o = Some v -> has_key k o = true.
Proof.
  intros Hg. destruct (has_key k o) eqn:Hk; [reflexivity|].
  rewrite (has_key_false_get _ _ Hk) in Hg. discriminate.
Qed.

(** setting a key to the value it has changes nothing *)
Lemma obj_set_same (k : string) (v : json) (o : members) :
  NoDup (map fst o) -> obj_get k o = Some v -> obj_set k v o = o.
Proof.
  intros Hn Hg. unfold obj_set. rewrite (obj_get_has_key _ _ _ Hg).
  induction o as [|[k' v'] o IH]; [discriminate|].
  simpl in Hn. inversion Hn as [|a l Ha Hl]; subst.
  simpl in Hg |- *. destruct (String.eqb_spec k' k) as [->|Hne].
  - assert (Hk : has_key k o = false) by (apply has_key_not_In; exact Ha).
    rewrite (has_key_false_get _ _ Hk) in Hg. injection Hg as ->.
    rewrite (replace_absent _ _ _ Hk). reflexivity.
  - destruct (obj_get k o) as [x|] eqn:Hx; [|discriminate].
    rewrite (IH Hl Hg). reflexivity.
Qed.

Lemma spread_into_same (src : members) (acc : members) :
  NoDup (map fst acc) ->
  (forall k v, In (k, v) src -> obj_get k acc = Some v) ->
  spread_into acc src = acc.
Proof.
  intros Hn. unfold spread_into. induction src as [|[k v] src IH]; intros Hall;
    [reflexivity|].
  simpl. rewrite (obj_set_same _ _ _ Hn (Hall k v (or_introl eq_refl))).
  apply IH. intros k' v' Hin. exact (Hall k' v' (or_intror Hin)).
Qed.

Lemma spread_into_fresh (src : members) : forall acc,
  NoDup (map fst (acc ++ src)) -> spread_into acc src = (acc ++ src)%list.
Proof.
  unfold spread_into. induction src as [|[k v] src IH]; intros acc Hn.
  - rewrite app_nil_r. reflexivity.
  - simpl. assert (Hk : has_key k acc = false).
    { apply has_key_not_In. intros Hin. rewrite map_app in Hn. simpl in Hn.
      apply NoDup_remove_2 in Hn. apply Hn. apply in_or_app. left. exact Hin. }
    unfold obj_set at 2. rewrite Hk.
    change (acc ++ (k, v) :: src)%list with (acc ++ [(k, v)] ++ src)%list in Hn |- *.
    rewrite app_assoc in Hn |- *. exact (IH _ Hn).
Qed.

Lemma mergedSettings_NoDup (settings : json) :
  NoDup (map fst (mergedSettings settings)).
Proof.
  unfold mergedSettings. apply spread_into_NoDup. apply spread_into_NoDup. constructor.
Qed.

Lemma mergedSettings_again (settings : json) :
  mergedSettings (JObject (mergedSettings settings)) = mergedSettings settings.
Proof.
  pose proof (mergedSettings_NoDup settings) as Hn.
  unfold mergedSettings at 1. cbn [own_props].
  rewrite (spread_into_fresh _ []) by exact Hn. cbn [app].
  apply spread_into_same; [exact Hn|].
  intros k v Hin. unfold mergedSettings. rewrite obj_get_spread_into.
  simpl in Hin. destruct Hin as [E|[E|[E|[E|[]]]]]; injection E as <- <-; reflexivity.
Qed.

Section SettingsTwice.

Context `{Runtime}.

Lemma existingSettings_after_mkdir (w w1 : world) :
  (if existsSync w cursorDir then Ok w else mkdirSync w cursorDir false) = Ok w1 ->
  existingSettings w1 = existingSettings w.
Proof.
  destruct (existsSync w cursorDir) eqn:Hex; intros E; [injection E as <-; reflexivity|].
  unfold mkdirSync in E.
  destruct (node_at w cursorDir) as [x|] eqn:Hn; [discriminate|].
  destruct (put (root w) (resolve w cursorDir) (Dir true [])) as [r|] eqn:Hr;
    [|discriminate].
  injection E as <-.
  assert (M0 : existsSync w settingsPath = false).
  { unfold existsSync, settingsPath, node_at in *. cbn [resolve] in *.
    change (cwd w ++ [".cursor"; "settings.json"])%list
      with (cwd w ++ [".cursor"] ++ ["settings.json"])%list.
    rewrite app_assoc, (lookup_missing_below _ _ _ Hn). reflexivity. }
  assert (M1 : existsSync (with_root r w) settingsPath = false).
  { unfold existsSync. rewrite node_at_with_root. unfold settingsPath. cbn [resolve].
    change (cwd w ++ [".cursor"; "settings.json"])%list
      with (cwd w ++ [".cursor"] ++ ["settings.json"])%list.
    rewrite app_assoc, (lookup_in_empty _ _ _ (lookup_put _ _ _ _ Hr)). reflexivity. }
  rewrite (existingSettings_missing _ M0), (existingSettings_missing _ M1). reflexivity.
Qed.

(** X20.  [createCursorWorkspaceSettings] is idempotent: when the document
    it has written reads back as the value that was printed, a second call
    leaves the project exactly as the first call left it. *)
Theorem createCursorWorkspaceSettings_twice (w w1 : world) :
  createCursorWorkspaceSettings w = Ok w1 ->
  JSON_parse (JSON_stringify (JObject (mergedSettings (existingSettings w))))
  = Some (JObject (mergedSettings (existingSettings w))) ->
  createCursorWorkspaceSettings w1 = Ok w1.
Proof.
  unfold createCursorWorkspaceSettings at 1. intros E Hround.
  destruct (if existsSync w cursorDir then Ok w else mkdirSync w cursorDir false)
    as [w0|e] eqn:E0; cbn [bind] in E; [|discriminate].
  rewrite (existingSettings_after_mkdir _ _ E0) in E.
  set (doc := JObject (mergedSettings (existingSettings w))) in *.
  pose proof (readFileSync_writeFileSync _ _ _ _ E) as Hr.
  pose proof (existsSync_cursorDir _ _ Hr) as Hdir.
  pose proof (readFileSync_exists _ _ _ Hr) as Hex.
  assert (Hs : existingSettings w1 = doc).
  { unfold existingSettings, parseJSON. rewrite Hex, Hr. cbn [bind].
    rewrite Hround. reflexivity. }
  unfold createCursorWorkspaceSettings. rewrite Hdir. cbn [bind]. rewrite Hs.
  unfold doc at 1. rewrite mergedSettings_again. fold doc.
  rewrite (writeFileSync_twice _ _ _ _ (JSON_stringify doc) E). exact E.
Qed.

End SettingsTwice.

(** ** Name and configuration files *)

Section NameProperties.

Context `{Runtime}.

(** X21.  The name of a profile is the [name] of the manifest when the
    manifest is an object that has one with a truthy value, of whatever
    JSON type, and the name of the working directory otherwise. *)
Theorem analyzeProject_name (w : world) (text : string) (o : members) (p : ProjectInfo) :
  readFileSync w packageJsonPath = Ok text ->
  JSON_parse text = Some (JObject o) ->
  analyzeProject w = Ok p ->
  name p = match obj_get "name" o with
           | Some v => if truthy v then v else JString (basename (cwd w))
           | None => JString (basename (cwd w))
           end.
Proof.
  intros Hr Hparse Hp. destruct (analyzeProject_inv _ _ Hp) as (p0 & Hd & ->).
  destruct (analyzeStructure_detected w p0) as (Sn & _). rewrite Sn.
  destruct (detectProject_before_ecosystem _ _ Hd) as (p2 & He & _ & Hn2 & _).
  unfold detectEcosystem, detectPackageJson, parseJSON in He.
  rewrite (readFileSync_exists _ _ _ Hr), Hr in He. cbn [bind] in He.
  rewrite Hparse in He. cbn [bind get_prop] in He. injection He as <-.
  set (deps := mergedDeps _ _).
  set (q := set_name _ p2).
  assert (Hname : forall q0, name (detectFromDeps deps q0) = name q0).
  { intros q0. unfold detectFromDeps.
    assert (H1 : forall x, name (detectTesting deps x) = name x)
      by (intros x; unfold detectTesting, when; branches; reflexivity).
    assert (H2 : forall x, name (detectPrimary deps x) = name x)
      by (intros x; unfold detectPrimary, when; branches; reflexivity).
    assert (H3 : forall x, name (detectState deps x) = name x)
      by (intros x; unfold detectState, when; branches; reflexivity).
    assert (H4 : forall x, name (detectAuth deps x) = name x)
      by (intros x; unfold detectAuth; branches; reflexivity).
    assert (H5 : forall x, name (detectData deps x) = name x)
      by (intros x; unfold detectData; branches; reflexivity).
    assert (H6 : forall x, name (detectUI deps x) = name x)
      by (intros x; unfold detectUI; branches; reflexivity).
    rewrite H6, H5, H4, H3, H2, H1. reflexivity. }
  rewrite Hname. unfold q. cbn [name set_name]. unfold declaredName. rewrite Hn2.
  reflexivity.
Qed.

(** X22.  The configuration files of a profile are exactly those of the
    eighteen known names that exist in the working directory, in the order
    of that list, whichever branch the detection takes. *)
Theorem analyzeProject_config (w : world) (p : ProjectInfo) :
  analyzeProject w = Ok p ->
  config p = filter (fun file => existsSync w (Rel [file])) configFiles.
Proof.
  intros Hp. destruct (analyzeProject_inv _ _ Hp) as (p0 & Hd & ->).
  destruct (analyzeStructure_detected w p0) as (_ & _ & _ & _ & _ & Sc & _).
  rewrite Sc. exact (detectProject_config _ _ Hd).
Qed.

End NameProperties.

(** ** Installation and verification *)

Lemma hasMcpScript_added (o : members) :
  exists v',
    addMcpScript (JObject o) = Ok v' /\
    hasMcpScript v' = Ok (match scriptsTable o with Some _ => true | None => false end).
Proof.
  unfold addMcpScript, scriptsTable.
  destruct (obj_get "scripts" o) as [v|] eqn:Hs.
  - destruct v as [|b|r|s|items|scripts]; cbn [truthy_opt truthy].
    + (* null *)
      rewrite obj_get_set_same. eexists. split; [reflexivity|].
      unfold hasMcpScript. cbn [get_prop bind]. rewrite obj_get_set_same.
      cbn [truthy get_prop bind]. rewrite obj_get_set_same. reflexivity.
    + destruct b.
      * rewrite Hs. eexists. split; [reflexivity|].
        unfold hasMcpScript. cbn [get_prop bind]. rewrite Hs. reflexivity.
      * rewrite obj_get_set_same. eexists. split; [reflexivity|].
        unfold hasMcpScript. cbn [get_prop bind]. rewrite obj_get_set_same.
        cbn [truthy get_prop bind]. rewrite obj_get_set_same. reflexivity.
    + destruct (negb (r =? "0")).
      * rewrite Hs. eexists. split; [reflexivity|].
        unfold hasMcpScript. cbn [get_prop bind]. rewrite Hs.
        destruct (truthy (JNumber r)); reflexivity.
      * rewrite obj_get_set_same. eexists. split; [reflexivity|].
        unfold hasMcpScript. cbn [get_prop bind]. rewrite obj_get_set_same.
        cbn [truthy get_prop bind]. rewrite obj_get_set_same. reflexivity.
    + destruct (negb (s =? "")).
      * rewrite Hs. eexists. split; [reflexivity|].
        unfold hasMcpScript. cbn [get_prop bind]. rewrite Hs.
        destruct (truthy (JString s)); reflexivity.
      * rewrite obj_get_set_same. eexists. split; [reflexivity|].
        unfold hasMcpScript. cbn [get_prop bind]. rewrite obj_get_set_same.
        cbn [truthy get_prop bind]. rewrite obj_get_set_same. reflexivity.
    + rewrite Hs. eexists. split; [reflexivity|].
      unfold hasMcpScript. cbn [get_prop bind]. rewrite Hs. reflexivity.
    + rewrite Hs. eexists. split; [reflexivity|].
      unfold hasMcpScript. cbn [get_prop bind]. rewrite obj_get_set_same.
      cbn [truthy get_prop bind]. rewrite obj_get_set_same. reflexivity.
  - cbn [truthy_opt]. rewrite obj_get_set_same. eexists. split; [reflexivity|].
    unfold hasMcpScript. cbn [get_prop bind]. rewrite obj_get_set_same.
    cbn [truthy get_prop bind]. rewrite obj_get_set_same. reflexivity.
Qed.

Section InstallProperties.

Context `{Runtime} `{Matcher}.

(** X23.  After an installation on a manifest that is an object, and when
    the manifest written reads back as the value that was printed, the
    verification finds the [mcp] script, unless the [scripts] field of the
    manifest held a truthy value that is not an object: the assignment of
    the script is then lost, the installation still succeeds, and the
    verification reports the script as missing. *)
Theorem performVerification_after_install (w w1 : world) (text : string) (o : members) :
  installPackage w = Ok w1 ->
  readFileSync w1 packageJsonPath = Ok text ->
  JSON_parse text = Some (JObject o) ->
  match addMcpScript (JObject o) with
  | Ok v' => JSON_parse (JSON_stringify v') = Some v'
  | Throw _ => True
  end ->
  exists w2,
    installMCPServer w = Ok w2 /\
    forall report,
      performVerification w2 = Ok report ->
      mcpScriptFound report
      = Some (match scriptsTable o with Some _ => true | None => false end).
Proof.
  intros Hinst Hr Hp Hround.
  destruct (hasMcpScript_added o) as (v' & Ha & Hhas). rewrite Ha in Hround.
  pose proof (readFileSync_node _ _ _ Hr) as Hnode.
  destruct (writeFileSync_over_file w1 packageJsonPath _ (JSON_stringify v') Hnode)
    as [w2 Hw2].
  exists w2. split.
  - unfold installMCPServer, updatePackageJson, parseJSON.
    rewrite Hinst. cbn [bind]. rewrite Hr. cbn [bind]. rewrite Hp. cbn [bind].
    rewrite Ha. cbn [bind]. rewrite Hw2. reflexivity.
  - intros report Hv. unfold performVerification, parseJSON in Hv.
    rewrite (readFileSync_writeFileSync _ _ _ _ Hw2) in Hv. cbn [bind] in Hv.
    rewrite Hround in Hv. cbn [bind] in Hv. rewrite Hhas in Hv.
    destruct (configDir w2); cbn [bind] in Hv; [|discriminate].
    injection Hv as <-. reflexivity.
Qed.

End InstallProperties.

(** ** The further properties on the sample projects *)

Module MoreChecks.

Import Sample.
Import Sample2.

Lemma staleRules_writable : rulesWritable staleRules.
Proof.
  split; [reflexivity|]. intros file Hin. simpl in Hin.
  destruct Hin as [<-|[<-|[<-|[<-|[<-|[]]]]]]; discriminate.
Qed.

(** the rules of a profile with an authentication slot, over the files of an
    earlier run: the authentication rule is replaced, the best-practices
    rule is kept, no data rule appears, the user's directory stays *)
Lemma rules_generated_at_staleRules :
  exists w',
    generateRules staleRules (auth0Profile staleRules) = Ok w' /\
    readFileSync w' (rulePath "auth-rules.mdc")
    = Ok (authRuleContent (auth0Profile staleRules)) /\
    readFileSync w' bestPracticesPath = Ok "edited by hand" /\
    existsSync w' (rulePath "data-management-rules.mdc") = false /\
    statSync w' (rulePath "archive") = Ok IsDirectory.
Proof.
  destruct (generateRules_files staleRules (auth0Profile staleRules) "app"
              staleRules_writable eq_refl)
    as (w' & Hw' & Hk & _ & Hauth & Hdata & _ & Hbest).
  exists w'. split; [exact Hw'|]. split; [exact Hauth|]. split; [|split].
  - assert (Hb : node_at w' bestPracticesPath = node_at staleRules bestPracticesPath)
      by exact Hbest.
    rewrite (readFileSync_node_at _ _ _ _ Hb). reflexivity.
  - assert (Hd : node_at w' (rulePath "data-management-rules.mdc")
                 = node_at staleRules (rulePath "data-management-rules.mdc"))
      by exact Hdata.
    rewrite (existsSync_node_at _ _ _ _ Hd). reflexivity.
  - apply Hk. reflexivity.
Defined.

Lemma references_at_auth0Profile :
  includes "@file:.cursor/rules/auth-rules.mdc"
           (projectRuleText "app" (auth0Profile emptyProject)) = true.
Proof.
  exact (proj1 (proj2 (projectRule_references (auth0Profile emptyProject)
                         (projectRuleText "app" (auth0Profile emptyProject))
                         eq_refl)) eq_refl).
Defined.

Lemma utilities_at_staleRules :
  exists w',
    createMemoryUtilities staleRules = Ok w' /\
    readFileSync w' backupScriptPath = Ok backupScript /\
    readFileSync w' memoryPath = Ok "{}".
Proof.
  assert (Hb : statSync staleRules backupScriptPath <> Ok IsDirectory) by discriminate.
  assert (He : statSync staleRules explorerScriptPath <> Ok IsDirectory) by discriminate.
  destruct (createMemoryUtilities_scripts staleRules eq_refl Hb He)
    as (w' & Hw' & _ & Hbackup & _ & Hother).
  exists w'. split; [exact Hw'|]. split; [exact Hbackup|].
  unfold memoryPath.
  rewrite (readFileSync_node_at _ _ _ _
             (Hother CONFIG_memoryFileName ltac:(discriminate) ltac:(discriminate))).
  reflexivity.
Defined.

Lemma directories_ensured_at_withSettings :
  exists w',
    createDirectories (withSettings "{}") = Ok w' /\
    existsSync w' (Rel CONFIG_rulesDirName) = true /\
    createDirectories w' = Ok w'.
Proof.
  destruct (createDirectories (withSettings "{}")) as [w'|e] eqn:E;
    [|vm_compute in E; discriminate].
  destruct (createDirectories_ensures _ _ E) as (_ & _ & _ & Hrules & Hagain).
  exists w'. split; [reflexivity|]. split; [exact Hrules | exact Hagain].
Defined.

Lemma directories_made_at_emptyProject :
  exists w',
    createDirectories emptyProject = Ok w' /\
    node_at w' (Rel CONFIG_rulesDirName) = Some (Dir true []) /\
    rulesReady w'.
Proof.
  destruct (createDirectories_fresh emptyProject eq_refl eq_refl eq_refl)
    as (w' & Hw' & _ & _ & _ & Hrules & Hready).
  exists w'. split; [exact Hw'|]. split; [exact Hrules | exact Hready].
Defined.

Lemma cursor_directory_made_at_emptyProject :
  exists w',
    @configureCursor Reference.runtime emptyProject = Ok w' /\
    statSync w' (Abs ["home"; "dev"; ".config"; "Cursor"; "User"]) = Ok IsDirectory /\
    existsSync w' (configPathIn ["home"; "dev"; ".config"; "Cursor"; "User"]) = true.
Proof.
  destruct (@configureCursor_makes_directory Reference.runtime emptyProject
              ["home"; "dev"] ".config" ["Cursor"; "User"] eq_refl eq_refl eq_refl)
    as (w' & Hw' & _ & Hdir & Hread).
  exists w'. split; [exact Hw'|]. split; [exact Hdir|].
  exact (readFileSync_exists _ _ _ Hread).
Defined.

Lemma setup_complete_at_documentedAtHome :
  exists w' report,
    @setupMCP Reference.runtime ReferenceMatcher.matcher documentedAtHome = Ok w' /\
    @performVerification Reference.runtime w' = Ok report /\
    memoryFileFound report = true /\
    configFound report = true /\
    existsSync w' settingsPath = true.
Proof.
  destruct (@setupMCP Reference.runtime ReferenceMatcher.matcher documentedAtHome)
    as [w'|e] eqn:E; [|vm_compute in E; discriminate].
  destruct (@setupMCP_complete Reference.runtime ReferenceMatcher.matcher _ _ E)
    as ((report & Hv & Hm & Hc) & _ & _ & _ & _ & _ & _ & Hs).
  exists w', report. repeat split; assumption.
Defined.

Lemma broken_manifest_rejected :
  @analyzeProject Reference.runtime brokenManifest = Throw SyntaxError.
Proof.
  exact (@analyzeProject_manifest_outcome Reference.runtime brokenManifest
           "{name: shop}" eq_refl).
Defined.

Lemma repoRoot_at_nested :
  exists p,
    @analyzeProject Reference.runtime (nested []) = Ok p /\
    repoRoot p = Some ["srv"; "repo"] /\
    gitAt (nested []) 2 = true /\ gitAt (nested []) 4 = false.
Proof.
  destruct (@analyzeProject Reference.runtime (nested [])) as [p|e] eqn:E;
    [|vm_compute in E; discriminate].
  pose proof (@analyzeProject_repoRoot Reference.runtime _ _ E) as T.
  assert (Hr : repoRoot p = Some ["srv"; "repo"])
    by (vm_compute in E; injection E as <-; reflexivity).
  rewrite Hr in T. destruct T as (k & Hk & _ & Hfirst & Hgit & Hnone).
  exists p. split; [reflexivity|]. split; [exact Hr|].
  assert (k = 2%nat).
  { destruct k as [|[|[|[|[|k]]]]]; cbn in Hfirst, Hk;
      first [discriminate Hfirst | reflexivity | lia]. }
  subst k. split; [exact Hgit|]. apply Hnone; cbn; lia.
Defined.

Lemma monorepo_at_workspace :
  exists p,
    @analyzeProject Reference.runtime workspace = Ok p /\ isMonorepo p = true.
Proof.
  destruct (@analyzeProject Reference.runtime workspace) as [p|e] eqn:E;
    [|vm_compute in E; discriminate].
  exists p. split; [reflexivity|].
  apply (proj2 (@analyzeProject_isMonorepo Reference.runtime _ _ E)).
  left. reflexivity.
Defined.

Lemma python_at_pythonProject :
  exists p,
    @analyzeProject Reference.runtime pythonProject = Ok p /\
    type p = "Python" /\ frameworks p = ["Flask"] /\ patterns p = noPatterns.
Proof.
  destruct (@analyzeProject Reference.runtime pythonProject) as [p|e] eqn:E;
    [|vm_compute in E; discriminate].
  destruct (@analyzeProject_python Reference.runtime pythonProject _ eq_refl eq_refl E)
    as (Ht & _ & Hp & _ & _ & _ & Hflask & _).
  exists p. split; [reflexivity|]. split; [exact Ht|].
  split; [exact (Hflask eq_refl eq_refl) | exact Hp].
Defined.

Lemma labels_at_documented :
  exists p,
    @analyzeProject Reference.runtime documented = Ok p /\
    wellLabelled p /\ NoDup (frameworks p).
Proof.
  destruct (@analyzeProject Reference.runtime documented) as [p|e] eqn:E;
    [|vm_compute in E; discriminate].
  destruct (@analyzeProject_labels Reference.runtime _ _ E) as (L & N & _).
  exists p. split; [reflexivity|]. split; assumption.
Defined.

Lemma features_found_at_deepProject :
  exists path,
    List.length path < 3 /\
    forallb visited path = true /\
    statSync deepProject (Rel ([] ++ path ++ ["features"])%list) = Ok IsDirectory.
Proof. exact (findDir_sound deepProject "features" 3 [] eq_refl). Defined.

Lemma features_found_deeper_at_deepProject :
  findDir deepProject [] "features" 5 = true.
Proof.
  apply (findDir_deeper deepProject "features" [] 3 5); [lia | reflexivity].
Defined.

Lemma structure_at_deepProject :
  exists p,
    @analyzeProject Reference.runtime deepProject = Ok p /\
    hasSourceDir p = true /\
    statSync deepProject (Rel ["src"]) = Ok IsDirectory /\
    componentPattern p = Some "Feature-based".
Proof.
  destruct (@analyzeProject Reference.runtime deepProject) as [p|e] eqn:E;
    [|vm_compute in E; discriminate].
  pose proof (@analyzeProject_structure Reference.runtime _ _ E) as (Hsrc & _).
  assert (Hp : hasSourceDir p = true /\ componentPattern p = Some "Feature-based")
    by (vm_compute in E; injection E as <-; split; reflexivity).
  destruct Hp as [Hs Hc]. rewrite Hs in Hsrc.
  exists p. split; [reflexivity|]. split; [exact Hs|]. split; [exact Hsrc | exact Hc].
Defined.

Lemma profile_of_run_at_documentedAtHome :
  exists w' info document,
    @setupMCP Reference.runtime ReferenceMatcher.matcher documentedAtHome = Ok w' /\
    type info <> "Python" /\
    projectRuleContent info = Ok document /\
    readFileSync w' (rulePath "project-rules.mdc") = Ok document.
Proof.
  destruct (@setupMCP Reference.runtime ReferenceMatcher.matcher documentedAtHome)
    as [w'|e] eqn:E; [|vm_compute in E; discriminate].
  destruct (@setupMCP_profile Reference.runtime ReferenceMatcher.matcher _ _ E)
    as (w1 & info & _ & _ & _ & Hty & document & Hdoc & Hrule).
  exists w', info, document. split; [reflexivity|]. split; [exact Hty|].
  split; [exact Hdoc | exact Hrule].
Defined.

Lemma setup_stops_at_brokenManifest :
  @installMCPServer Reference.runtime brokenManifest = Throw (InstallError SyntaxError) /\
  @setupMCP Reference.runtime ReferenceMatcher.matcher brokenManifest
  = Throw (InstallError SyntaxError).
Proof.
  exact (@setupMCP_stops_at_manifest Reference.runtime ReferenceMatcher.matcher
           brokenManifest brokenManifest "{name: shop}" eq_refl eq_refl eq_refl).
Defined.

Lemma default_context_at_emptyProject :
  @extractProjectContext ReferenceMatcher.matcher emptyProject
  = Ok "No detailed project documentation found." /\
  existsSync emptyProject (Rel ["README.md"]) = false.
Proof.
  split; [reflexivity|].
  exact (proj1 (proj1 (proj2 (@extractProjectContext_default ReferenceMatcher.matcher
                                emptyProject _ eq_refl)) eq_refl)).
Defined.

Lemma settings_made_at_emptyProject :
  exists w',
    @createCursorWorkspaceSettings Reference.runtime emptyProject = Ok w' /\
    readFileSync w' settingsPath = Ok (Reference.stringify (JObject aiSettings)).
Proof.
  destruct (@createCursorWorkspaceSettings_fresh Reference.runtime emptyProject eq_refl
              (or_intror (conj eq_refl eq_refl)))
    as (w' & Hw' & _ & _ & Hr).
  exists w'. split; [exact Hw' | exact Hr].
Defined.

Lemma settings_twice_at_withSettings :
  exists w1,
    @createCursorWorkspaceSettings Reference.runtime
      (withSettings "{'editor.fontSize': 14, 'ai.modelResponsiveness': 'slow'}") = Ok w1 /\
    @createCursorWorkspaceSettings Reference.runtime w1 = Ok w1.
Proof.
  destruct (@createCursorWorkspaceSettings Reference.runtime
              (withSettings "{'editor.fontSize': 14, 'ai.modelResponsiveness': 'slow'}"))
    as [w1|e] eqn:E; [|vm_compute in E; discriminate].
  exists w1. split; [reflexivity|].
  apply (@createCursorWorkspaceSettings_twice Reference.runtime _ _ E).
  vm_compute. reflexivity.
Defined.

Lemma name_at_auth0Project :
  exists p,
    @analyzeProject Reference.runtime auth0Project = Ok p /\
    name p = JString "portal".
Proof.
  destruct (@analyzeProject Reference.runtime auth0Project) as [p|e] eqn:E;
    [|vm_compute in E; discriminate].
  exists p. split; [reflexivity|].
  exact (@analyzeProject_name Reference.runtime auth0Project _
           [("name", JString "portal");
            ("dependencies", JObject [("auth0", JString "^4.0.0")])]
           p eq_refl eq_refl E).
Defined.

Lemma config_at_workspace :
  exists p,
    @analyzeProject Reference.runtime workspace = Ok p /\
    config p = ["tsconfig.json"; ".env"].
Proof.
  destruct (@analyzeProject Reference.runtime workspace) as [p|e] eqn:E;
    [|vm_compute in E; discriminate].
  exists p. split; [reflexivity|].
  rewrite (@analyzeProject_config Reference.runtime _ _ E). reflexivity.
Defined.

Lemma script_verified_at_nextProject :
  exists w2,
    @installMCPServer Reference.runtime nextProject = Ok w2 /\
    forall report,
      @performVerification Reference.runtime w2 = Ok report ->
      mcpScriptFound report = Some true.
Proof.
  exact (@performVerification_after_install Reference.runtime
           nextProject nextProject _
           [("dependencies", JObject [("react", JString "*"); ("next", JString "*")])]
           eq_refl eq_refl eq_refl ltac:(vm_compute; reflexivity)).
Defined.

End MoreChecks.
